(** * order-service: a shallow embedding of the order creation and
    aggregation flow.

    The development follows the layering of the Go sources:

    - [domain]      internal/core/domain (model, errors, repository and
                    transaction interfaces);
    - [repository]  internal/core/repository (the PostgreSQL order repository
                    and transaction manager, over a model of the driver);
    - [logicv1]     internal/logic/v1 (OrderService and its sentinel errors);
    - [mocks]       the test doubles of internal/logic/v1/service_test.go;
    - [webv1]       internal/web/v1 (handlers, aggregation, cart client).

    Conventions.  A Go [float64] is a primitive binary64 float; a Go [int] is
    an integer [Z]; a Go [(v, err)] result is a pair whose second component
    is [None] for a nil error; a pointer result is an [option].  Code that
    talks to the database or to the network threads the state of the outside
    world explicitly: a computation of type [M W A] takes a world and returns
    its result with the next world.  A [context.Context] only carries
    cancellation and tracing and is left out, as are the spans of the
    middleware package; the handlers return the lines they log beside their
    reply.  The database server, the pgx driver and the two downstream
    services are not code of this repository: the model says what the code
    relies on of them, and leaves the rest to the environment. *)

From Stdlib Require Import ZArith List String Ascii Bool Lia.
From Stdlib Require Import Floats Uint63 DecimalString DecimalPos.
From Stdlib Require Import Sorting.Sorted Sorting.Permutation.
Import ListNotations.

Open Scope string_scope.
Open Scope Z_scope.

(* Decimal prices such as 29.99 stand for the nearest binary64 value. *)
Set Warnings "-inexact-float".

(** ** World-passing computations *)

Definition M (W A : Type) : Type := W -> A * W.

(** [strconv.Itoa]. *)
Definition Itoa (n : Z) : string := NilEmpty.string_of_int (Z.to_int n).

(** [strconv.Atoi]: an optional sign, then decimal digits, at least one of
    them, whose value fits an [int]; [None] stands for its error. *)
Definition Atoi (s : string) : option Z :=
  let '(negative, digits) :=
    match s with
    | String "+" rest => (false, rest)
    | String "-" rest => (true, rest)
    | _ => (false, s)
    end in
  if String.eqb digits "" then None
  else
    match NilEmpty.uint_of_string digits with
    | None => None
    | Some d =>
        let n := if negative then - Z.of_uint d else Z.of_uint d in
        if (- 2 ^ 63 <=? n) && (n <? 2 ^ 63) then Some n else None
    end.

(** [float64(n)] for an [int]: the nearest binary64 value, ties to even.
    The primitive conversion takes a 63-bit natural number, so the sign is
    handled apart, and [math.MinInt64], whose magnitude does not fit 63 bits,
    is the power of two it is. *)
Definition float64_of_int (n : Z) : float :=
  if 0 <=? n then of_uint63 (Uint63.of_Z n)
  else if n =? - 2 ^ 63 then (- 0x1p63)%float
  else (- of_uint63 (Uint63.of_Z (- n)))%float.

(** [strings.Contains]. *)
Fixpoint strings_Contains (s substr : string) : bool :=
  String.prefix substr s
  || match s with
     | EmptyString => false
     | String _ rest => strings_Contains rest substr
     end.

(** [l[n] = f(l[n])] for an object held at position [n] of a store; nothing
    happens past the end. *)
Fixpoint update_nth {A : Type} (n : nat) (f : A -> A) (l : list A) : list A :=
  match n, l with
  | _, [] => []
  | O, x :: rest => f x :: rest
  | S n, x :: rest => x :: update_nth n f rest
  end.

(** ** internal/core/domain *)

Module domain.

(** Go errors.  Sentinels are compared by identity, so each one is a
    constructor of its own; [Wrap msg e] is [fmt.Errorf(msg + ": %w", e)],
    [Errorf msg] an error built without [%w], and [External msg] an error
    raised by the database driver, the network stack or a decoder. *)
Inductive error : Type :=
| ErrNotFound            (* domain: errors.New("resource not found") *)
| ErrInvalidInput        (* domain: errors.New("invalid input") *)
| ErrConflict            (* domain: errors.New("resource conflict") *)
| ErrOrderNotFound       (* logic/v1: errors.New("order not found") *)
| ErrInvalidOrderState   (* logic/v1: errors.New("invalid order state") *)
| ErrPaymentFailed       (* logic/v1: errors.New("payment failed") *)
| ErrUnauthorized        (* logic/v1: errors.New("unauthorized access") *)
| pgx_ErrNoRows          (* pgx.ErrNoRows *)
| pgx_ErrTxClosed        (* pgx.ErrTxClosed *)
| errors_New (msg : string)
| External (msg : string)
| Errorf (msg : string)
| Wrap (msg : string) (inner : error).

Fixpoint error_eqb (a b : error) : bool :=
  match a, b with
  | ErrNotFound, ErrNotFound
  | ErrInvalidInput, ErrInvalidInput
  | ErrConflict, ErrConflict
  | ErrOrderNotFound, ErrOrderNotFound
  | ErrInvalidOrderState, ErrInvalidOrderState
  | ErrPaymentFailed, ErrPaymentFailed
  | ErrUnauthorized, ErrUnauthorized
  | pgx_ErrNoRows, pgx_ErrNoRows
  | pgx_ErrTxClosed, pgx_ErrTxClosed => true
  | errors_New m, errors_New n
  | External m, External n
  | Errorf m, Errorf n => String.eqb m n
  | Wrap m x, Wrap n y => String.eqb m n && error_eqb x y
  | _, _ => false
  end.

(** [errors.Is]: the target is looked for along the chain of wrapped
    errors. *)
Fixpoint errors_Is (err target : error) : bool :=
  error_eqb err target
  || match err with
     | Wrap _ inner => errors_Is inner target
     | _ => false
     end.

(** [err.Error()]. *)
Fixpoint Error (e : error) : string :=
  match e with
  | ErrNotFound => "resource not found"
  | ErrInvalidInput => "invalid input"
  | ErrConflict => "resource conflict"
  | ErrOrderNotFound => "order not found"
  | ErrInvalidOrderState => "invalid order state"
  | ErrPaymentFailed => "payment failed"
  | ErrUnauthorized => "unauthorized access"
  | pgx_ErrNoRows => "no rows in result set"
  | pgx_ErrTxClosed => "tx is closed"
  | errors_New m | External m | Errorf m => m
  | Wrap m inner => m ++ ": " ++ Error inner
  end.

Module OrderItem.
Record t : Type := mk {
  ProductID : string;
  ProductName : string;
  Quantity : Z;
  Price : float;
  Subtotal : float
}.
End OrderItem.

(** [CreatedAt] is a point in time, counted in ticks of the clock; the
    zero [time.Time] is 0. *)
Module Order.
Record t : Type := mk {
  ID : string;
  UserID : string;
  Status : string;
  Items : list OrderItem.t;
  Subtotal : float;
  Shipping : float;
  Total : float;
  CreatedAt : Z
}.

Definition set_ID (o : t) (id : string) : t :=
  mk id (UserID o) (Status o) (Items o) (Subtotal o) (Shipping o)
     (Total o) (CreatedAt o).

Definition set_Items (o : t) (items : list OrderItem.t) : t :=
  mk (ID o) (UserID o) (Status o) items (Subtotal o) (Shipping o)
     (Total o) (CreatedAt o).
End Order.

Module CreateOrderRequest.
Record t : Type := mk {
  UserID : string;
  Items : list OrderItem.t
}.
End CreateOrderRequest.

(** The interfaces of transaction.go and repository.go.  A value of the
    [Transaction] interface carries its concrete value [impl] (what a type
    assertion inspects) and its method set.  [Begin] returns a transaction
    or an error.  A method that receives [order *Order] returns the order
    as it has left it. *)
Record Transaction (W T : Type) : Type := {
  impl : T;
  Commit : M W (option error);
  Rollback : M W (option error)
}.

Record TransactionManager (W T : Type) : Type := {
  Begin : M W (Transaction W T + error)
}.

Record OrderRepository (W T : Type) : Type := {
  FindByID : string -> M W (option Order.t * option error);
  FindByUserID : string -> M W (list Order.t * option error);
  Create : Order.t -> M W (Order.t * option error);
  UpdateStatus : string -> string -> M W (option error);
  CreateWithTx : Transaction W T -> Order.t -> M W (Order.t * option error)
}.

Arguments impl {W T} _.
Arguments Commit {W T} _ _.
Arguments Rollback {W T} _ _.
Arguments Begin {W T} _ _.
Arguments FindByID {W T} _ _ _.
Arguments FindByUserID {W T} _ _ _.
Arguments Create {W T} _ _ _.
Arguments UpdateStatus {W T} _ _ _ _.
Arguments CreateWithTx {W T} _ _ _ _.

End domain.

(** ** internal/logic/v1 *)

Module logicv1.
Import domain.

(** errors.go: [ErrInvalidOrder] is an alias of [ErrInvalidOrderState]. *)
Definition ErrInvalidOrder : error := ErrInvalidOrderState.

Record OrderService (W T : Type) : Type := NewOrderService {
  orderRepo : OrderRepository W T;
  txManager : TransactionManager W T
}.
Arguments NewOrderService {W T} _ _.
Arguments orderRepo {W T} _.
Arguments txManager {W T} _.

Section Service.
Context {W T : Type}.
Variable s : OrderService W T.

Definition ListOrders (userID : string) : M W (list Order.t * option error) :=
  fun w =>
    let '((orders, err), w) := FindByUserID (orderRepo s) userID w in
    match err with
    | Some e => (([], Some e), w)
    | None => ((orders, None), w)
    end.

Definition GetOrder (id : string) : M W (option Order.t * option error) :=
  fun w =>
    let '((order, err), w) := FindByID (orderRepo s) id w in
    match err with
    | Some e =>
        if errors_Is e ErrNotFound then ((None, Some ErrOrderNotFound), w)
        else ((None, Some e), w)
    | None => ((order, None), w)
    end.

(** The enrichment loop of [CreateOrder]: one pass over the requested
    items, left to right, that fills [enrichedItems] and accumulates
    [subtotal]. *)
Definition enrich (item : OrderItem.t) (itemSubtotal : float) : OrderItem.t :=
  let productName :=
    if String.eqb (OrderItem.ProductName item) ""
    then "Product " ++ OrderItem.ProductID item
    else OrderItem.ProductName item in
  OrderItem.mk (OrderItem.ProductID item) productName
               (OrderItem.Quantity item) (OrderItem.Price item)
               itemSubtotal.

Fixpoint enrich_loop (items : list OrderItem.t)
         (enrichedItems : list OrderItem.t) (subtotal : float)
  : list OrderItem.t * float :=
  match items with
  | [] => (enrichedItems, subtotal)
  | item :: rest =>
      let itemSubtotal :=
        (OrderItem.Price item * float64_of_int (OrderItem.Quantity item))%float in
      enrich_loop rest (enrichedItems ++ [enrich item itemSubtotal])%list
                  (subtotal + itemSubtotal)%float
  end.

Definition CreateOrder (req : CreateOrderRequest.t)
  : M W (option Order.t * option error) :=
  fun w =>
    if (Z.of_nat (List.length (CreateOrderRequest.Items req)) =? 0)%Z
    then ((None, Some ErrInvalidOrder), w)
    else
      let '(enrichedItems, subtotal) :=
        enrich_loop (CreateOrderRequest.Items req) [] 0%float in
      let order :=
        Order.mk "" (CreateOrderRequest.UserID req) "pending" enrichedItems
                 subtotal 5.00%float (subtotal + 5.00)%float 0 in
      let '(tx, w) := Begin (txManager s) w in
      match tx with
      | inr e => ((None, Some e), w)
      | inl tx =>
          (* defer tx.Rollback(ctx): runs on each of the exits below *)
          let '((order, err), w) := CreateWithTx (orderRepo s) tx order w in
          match err with
          | Some e =>
              let '(_, w) := Rollback tx w in
              ((None, Some e), w)
          | None =>
              let '(err, w) := Commit tx w in
              match err with
              | Some e =>
                  let '(_, w) := Rollback tx w in
                  ((None, Some e), w)
              | None =>
                  let '(_, w) := Rollback tx w in
                  ((Some order, None), w)
              end
          end
      end.

Definition UpdateOrderStatus (id status : string) : M W (option error) :=
  fun w =>
    let '(err, w) := UpdateStatus (orderRepo s) id status w in
    match err with
    | Some e =>
        if errors_Is e ErrNotFound then (Some ErrOrderNotFound, w)
        else (Some e, w)
    | None => (None, w)
    end.
End Service.

End logicv1.


(** ** internal/core/repository *)

Module repository.
Import domain.

(** *** The database behind the pgx pool *)

(** Modelled from the spec: the schema of the two tables (the migration that
    creates them) is not among the sources.  The columns are those the
    queries of the repository name, and the persisted shape of the
    specification: an order row (id, user_id, subtotal, shipping, total,
    status, timestamps) and item rows keyed by the id of their order.
    [orders.id] is an integer drawn from a sequence ([var idInt int],
    [RETURNING id]); the other columns have the Go types they are bound from
    and scanned into, so scanning a row never fails on a type; the numeric
    columns keep the binary64 value they were given; [updated_at] is set on
    creation and refreshed on a change of status. *)
Record OrderRow : Type := mkOrderRow {
  id : Z;
  user_id : string;
  status : string;
  subtotal : float;
  shipping : float;
  total : float;
  created_at : Z;
  updated_at : Z
}.

Record ItemRow : Type := mkItemRow {
  order_id : Z;
  product_id : string;
  product_name : string;
  quantity : Z;
  price : float;
  item_subtotal : float
}.

Record Tables : Type := mkTables {
  orders : list OrderRow;
  order_items : list ItemRow
}.

(** A transaction of the driver ([pgx.Tx]): the rows it has written, which
    no other connection sees before the commit, and whether it is closed. *)
Record PgTx : Type := mkPgTx {
  pending : Tables;
  closed : bool
}.

(** The world of the repository: the committed tables, the sequence behind
    [orders.id] (not transactional: a value drawn is never given back), the
    transactions begun so far, the clock ([time.Now()], [NOW()]) and the
    failures the environment has in store, one entry for each call that
    reaches the server, in order ([None]: the call goes through; past the end
    of the list every call goes through). *)
Record World : Type := mkWorld {
  committed : Tables;
  orders_id_seq : Z;
  txs : list PgTx;
  clock : Z;
  faults : list (option error)
}.

Definition with_committed (w : World) (t : Tables) : World :=
  mkWorld t (orders_id_seq w) (txs w) (clock w) (faults w).
Definition with_seq (w : World) (n : Z) : World :=
  mkWorld (committed w) n (txs w) (clock w) (faults w).
Definition with_txs (w : World) (l : list PgTx) : World :=
  mkWorld (committed w) (orders_id_seq w) l (clock w) (faults w).
Definition with_faults (w : World) (l : list (option error)) : World :=
  mkWorld (committed w) (orders_id_seq w) (txs w) (clock w) l.

(** One round trip to the server: it fails when the environment says so. *)
Definition server_call : M World (option error) :=
  fun w =>
    match faults w with
    | [] => (None, w)
    | f :: rest => (f, with_faults w rest)
    end.

(** What the server does with a text parameter compared to an integer
    column ([WHERE id = $1] with a Go string): its integer input conversion,
    which either reads an integer or rejects the text, failing the
    statement.  The conversion belongs to the server, not to this
    repository, so the model leaves it open. *)
Class PgServer : Type := { int4in : string -> option Z }.

Definition invalid_integer_text : error :=
  External "invalid input syntax for type integer".

Definition close (x : PgTx) : PgTx := mkPgTx (pending x) true.

(** [ORDER BY created_at DESC]: insertion into a list kept newest first.
    Rows of equal [created_at] keep the order of the table, one of the
    orders the server may choose. *)
Fixpoint insert_desc (r : OrderRow) (l : list OrderRow) : list OrderRow :=
  match l with
  | [] => [r]
  | x :: rest =>
      if created_at x <? created_at r then r :: x :: rest
      else x :: insert_desc r rest
  end.

Definition order_by_created_at_desc (l : list OrderRow) : list OrderRow :=
  fold_right insert_desc [] l.

Section Driver.
Context {pg : PgServer}.

(** [pool.Begin]. *)
Definition pool_Begin : M World (nat + error) :=
  fun w =>
    let '(f, w) := server_call w in
    match f with
    | Some e => (inr e, w)
    | None =>
        (inl (List.length (txs w)),
         with_txs w (txs w ++ [mkPgTx (mkTables [] []) false])%list)
    end.

(** [tx.Commit]: a closed transaction answers [ErrTxClosed]; otherwise the
    transaction is closed whatever the server answers, and its rows reach
    the committed tables only when the commit goes through. *)
Definition pgxTx_Commit (t : nat) : M World (option error) :=
  fun w =>
    match nth_error (txs w) t with
    | None => (Some pgx_ErrTxClosed, w)
    | Some x =>
        if closed x then (Some pgx_ErrTxClosed, w)
        else
          let '(f, w) := server_call w in
          match f with
          | Some e => (Some e, with_txs w (update_nth t close (txs w)))
          | None =>
              let c := committed w in
              let w :=
                with_committed w
                  (mkTables (orders c ++ orders (pending x))%list
                            (order_items c ++ order_items (pending x))%list) in
              (None, with_txs w (update_nth t close (txs w)))
          end
    end.

(** [tx.Rollback]: a closed transaction answers [ErrTxClosed] and nothing
    happens; otherwise the transaction is closed and its rows are dropped,
    also when the call itself fails (the connection is then closed, which
    aborts the transaction on the server). *)
Definition pgxTx_Rollback (t : nat) : M World (option error) :=
  fun w =>
    match nth_error (txs w) t with
    | None => (Some pgx_ErrTxClosed, w)
    | Some x =>
        if closed x then (Some pgx_ErrTxClosed, w)
        else
          let '(f, w) := server_call w in
          (f, with_txs w (update_nth t close (txs w)))
    end.

(** [INSERT INTO orders (...) VALUES ($1, ..., $6) RETURNING id], scanned
    into [id]; [write] says where the row goes. *)
Definition insert_order_row (write : OrderRow -> World -> World)
           (user_id status : string) (subtotal shipping total : float)
           (created_at : Z) : M World (Z * option error) :=
  fun w =>
    let '(f, w) := server_call w in
    match f with
    | Some e => ((0, Some e), w)
    | None =>
        let id := orders_id_seq w + 1 in
        let row := mkOrderRow id user_id status subtotal shipping total
                              created_at (clock w) in
        ((id, None), write row (with_seq w id))
    end.

(** [INSERT INTO order_items (...) VALUES ($1, ..., $6)]. *)
Definition insert_item_row (write : ItemRow -> World -> World)
           (id : Z) (item : OrderItem.t) : M World (option error) :=
  fun w =>
    let '(f, w) := server_call w in
    match f with
    | Some e => (Some e, w)
    | None =>
        (None,
         write (mkItemRow id (OrderItem.ProductID item)
                          (OrderItem.ProductName item) (OrderItem.Quantity item)
                          (OrderItem.Price item) (OrderItem.Subtotal item)) w)
    end.

Definition write_order_pool (row : OrderRow) (w : World) : World :=
  with_committed w
    (mkTables (orders (committed w) ++ [row])%list (order_items (committed w))).

Definition write_item_pool (row : ItemRow) (w : World) : World :=
  with_committed w
    (mkTables (orders (committed w)) (order_items (committed w) ++ [row])%list).

Definition write_order_tx (t : nat) (row : OrderRow) (w : World) : World :=
  with_txs w
    (update_nth t
       (fun x => mkPgTx (mkTables (orders (pending x) ++ [row])%list
                                  (order_items (pending x))) (closed x))
       (txs w)).

Definition write_item_tx (t : nat) (row : ItemRow) (w : World) : World :=
  with_txs w
    (update_nth t
       (fun x => mkPgTx (mkTables (orders (pending x))
                                  (order_items (pending x) ++ [row])%list)
                        (closed x))
       (txs w)).

Definition tx_is_open (t : nat) (w : World) : bool :=
  match nth_error (txs w) t with
  | Some x => negb (closed x)
  | None => false
  end.

(** The transaction was begun and is closed: committed or rolled back. *)
Definition tx_released (t : nat) (w : World) : bool :=
  match nth_error (txs w) t with
  | Some x => closed x
  | None => false
  end.

(** [tx.QueryRow(ctx, query, args...).Scan(&id)] for the insert of the order
    row, and [tx.Exec] for the insert of an item row. *)
Definition pgxTx_QueryRow_insert_order (t : nat)
           (user_id status : string) (subtotal shipping total : float)
           (created_at : Z) : M World (Z * option error) :=
  fun w =>
    if tx_is_open t w
    then insert_order_row (write_order_tx t) user_id status subtotal shipping
                          total created_at w
    else ((0, Some pgx_ErrTxClosed), w).

Definition pgxTx_Exec_insert_item (t : nat) (id : Z) (item : OrderItem.t)
  : M World (option error) :=
  fun w =>
    if tx_is_open t w then insert_item_row (write_item_tx t) id item w
    else (Some pgx_ErrTxClosed, w).

(** [pool.QueryRow(ctx, "SELECT ... FROM orders WHERE id = $1", id).Scan(...)]:
    the first row found, [pgx.ErrNoRows] when there is none. *)
Definition pool_QueryRow_order_by_id (id : string) : M World (OrderRow + error) :=
  fun w =>
    let '(f, w) := server_call w in
    match f with
    | Some e => (inr e, w)
    | None =>
        match int4in id with
        | None => (inr invalid_integer_text, w)
        | Some n =>
            match filter (fun r => repository.id r =? n) (orders (committed w)) with
            | [] => (inr pgx_ErrNoRows, w)
            | r :: _ => (inl r, w)
            end
        end
    end.

(** [pool.Query(ctx, "SELECT ... FROM order_items WHERE order_id = $1", idInt)]. *)
Definition pool_Query_items (idInt : Z) : M World (list ItemRow + error) :=
  fun w =>
    let '(f, w) := server_call w in
    match f with
    | Some e => (inr e, w)
    | None =>
        (inl (filter (fun r => order_id r =? idInt) (order_items (committed w))), w)
    end.

(** [pool.Query(ctx, "SELECT ... FROM orders WHERE user_id = $1
    ORDER BY created_at DESC", userID)]. *)
Definition pool_Query_orders_by_user (userID : string)
  : M World (list OrderRow + error) :=
  fun w =>
    let '(f, w) := server_call w in
    match f with
    | Some e => (inr e, w)
    | None =>
        (inl (order_by_created_at_desc
                (filter (fun r => String.eqb (user_id r) userID)
                        (orders (committed w)))), w)
    end.

(** [pool.Exec(ctx, "UPDATE orders SET status = $1, updated_at = NOW()
    WHERE id = $2", status, id)], with the number of rows affected. *)
Definition pool_Exec_update_status (status id : string) : M World (Z + error) :=
  fun w =>
    let '(f, w) := server_call w in
    match f with
    | Some e => (inr e, w)
    | None =>
        match int4in id with
        | None => (inr invalid_integer_text, w)
        | Some n =>
            let hit := fun r => repository.id r =? n in
            let upd := fun r =>
              if hit r
              then mkOrderRow (repository.id r) (user_id r) status (subtotal r)
                              (shipping r) (total r) (created_at r) (clock w)
              else r in
            let c := committed w in
            (inl (Z.of_nat (List.length (filter hit (orders c)))),
             with_committed w (mkTables (map upd (orders c)) (order_items c)))
        end
    end.

End Driver.

(** *** postgres_transaction.go *)

(** [PostgresTransaction{tx}]: the handle of a transaction of the driver. *)
Record PostgresTransaction : Type := mkPostgresTransaction { tx : nat }.

Section Postgres.
Context {pg : PgServer}.

(** A [*PostgresTransaction] seen through the [domain.Transaction]
    interface. *)
Definition asTransaction {T : Type} (inj : PostgresTransaction -> T)
           (t : PostgresTransaction) : Transaction World T :=
  {| impl := inj t;
     Commit := pgxTx_Commit (tx t);
     Rollback := pgxTx_Rollback (tx t) |}.

(** [PostgresTransactionManager.Begin]. *)
Definition PostgresTransactionManager_Begin {T : Type}
           (inj : PostgresTransaction -> T)
  : M World (Transaction World T + error) :=
  fun w =>
    let '(r, w) := pool_Begin w in
    match r with
    | inr err => (inr err, w)
    | inl t => (inl (asTransaction inj (mkPostgresTransaction t)), w)
    end.

(** *** postgres_order_repository.go *)

(** [rows.Scan] of an order row and of an item row.  A row of the typed
    tables always scans; the error case is the one the loops skip. *)
Definition Scan_order (r : OrderRow) : (Z * Order.t) + error :=
  inl (id r,
       Order.mk "" (user_id r) (status r) [] (subtotal r) (shipping r)
                (total r) (created_at r)).

Definition Scan_item (r : ItemRow) : OrderItem.t + error :=
  inl (OrderItem.mk (product_id r) (product_name r) (quantity r) (price r)
                    (item_subtotal r)).

(** The item loop of [FindByID]: [order.Items = append(order.Items, item)]
    for each row that scans. *)
Fixpoint scan_items (rows : list ItemRow) (order : Order.t) : Order.t :=
  match rows with
  | [] => order
  | r :: rest =>
      match Scan_item r with
      | inr _ => scan_items rest order
      | inl item =>
          scan_items rest
            (Order.set_Items order (Order.Items order ++ [item])%list)
      end
  end.

Definition FindByID (id : string) : M World (option Order.t * option error) :=
  fun w =>
    let '(r, w) := pool_QueryRow_order_by_id id w in
    match r with
    | inr err =>
        if errors_Is err pgx_ErrNoRows then ((None, Some ErrNotFound), w)
        else ((None, Some err), w)
    | inl row =>
        match Scan_order row with
        | inr err =>
            if errors_Is err pgx_ErrNoRows then ((None, Some ErrNotFound), w)
            else ((None, Some err), w)
        | inl (idInt, order) =>
            let order := Order.set_ID order (Itoa idInt) in
            let '(rows, w) := pool_Query_items idInt w in
            match rows with
            | inr err => ((None, Some err), w)
            | inl rows => ((Some (scan_items rows order), None), w)
            end
        end
    end.

(** The row loop of [FindByUserID]: [orders = append(orders, order)] for
    each row that scans; no query for the items is made. *)
Fixpoint scan_orders (rows : list OrderRow) (orders : list Order.t)
  : list Order.t :=
  match rows with
  | [] => orders
  | r :: rest =>
      match Scan_order r with
      | inr _ => scan_orders rest orders
      | inl (idInt, order) =>
          scan_orders rest (orders ++ [Order.set_ID order (Itoa idInt)])%list
      end
  end.

Definition FindByUserID (userID : string)
  : M World (list Order.t * option error) :=
  fun w =>
    let '(rows, w) := pool_Query_orders_by_user userID w in
    match rows with
    | inr err => (([], Some err), w)
    | inl rows => ((scan_orders rows [], None), w)
    end.

(** The item loops of [Create] and [CreateWithTx]: the first insert that
    fails ends the loop with its error. *)
Fixpoint insert_items (exec : Z -> OrderItem.t -> M World (option error))
         (id : Z) (items : list OrderItem.t) : M World (option error) :=
  fun w =>
    match items with
    | [] => (None, w)
    | item :: rest =>
        let '(err, w) := exec id item w in
        match err with
        | Some e => (Some e, w)
        | None => insert_items exec id rest w
        end
    end.

Definition Create (order : Order.t) : M World (Order.t * option error) :=
  fun w =>
    let '((id, err), w) :=
      insert_order_row write_order_pool (Order.UserID order)
        (Order.Status order) (Order.Subtotal order) (Order.Shipping order)
        (Order.Total order) (clock w) w in
    match err with
    | Some e => ((order, Some e), w)
    | None =>
        let order := Order.set_ID order (Itoa id) in
        let '(err, w) :=
          insert_items (insert_item_row write_item_pool) id
                       (Order.Items order) w in
        ((order, err), w)
    end.

(** [CreateWithTx]: [assert] is the type assertion of [tx] to a
    [*PostgresTransaction]. *)
Definition CreateWithTx {T : Type} (assert : T -> option PostgresTransaction)
           (tx : Transaction World T) (order : Order.t)
  : M World (Order.t * option error) :=
  fun w =>
    match assert (impl tx) with
    | None => ((order, Some (errors_New "invalid transaction type")), w)
    | Some pgxTx =>
        let '((id, err), w) :=
          pgxTx_QueryRow_insert_order (repository.tx pgxTx)
            (Order.UserID order) (Order.Status order) (Order.Subtotal order)
            (Order.Shipping order) (Order.Total order) (clock w) w in
        match err with
        | Some e => ((order, Some e), w)
        | None =>
            let order := Order.set_ID order (Itoa id) in
            let '(err, w) :=
              insert_items (pgxTx_Exec_insert_item (repository.tx pgxTx)) id
                           (Order.Items order) w in
            ((order, err), w)
        end
    end.

Definition UpdateStatus (id status : string) : M World (option error) :=
  fun w =>
    let '(result, w) := pool_Exec_update_status status id w in
    match result with
    | inr err => (Some err, w)
    | inl rowsAffected =>
        if rowsAffected =? 0 then (Some ErrNotFound, w) else (None, w)
    end.

(** The repository and the transaction manager as [main] wires them: every
    transaction the service sees is a [*PostgresTransaction]. *)
Definition NewPostgresOrderRepository
  : OrderRepository World PostgresTransaction :=
  {| domain.FindByID := FindByID;
     domain.FindByUserID := FindByUserID;
     domain.Create := Create;
     domain.UpdateStatus := UpdateStatus;
     domain.CreateWithTx := CreateWithTx (fun t => Some t) |}.

Definition NewPostgresTransactionManager
  : TransactionManager World PostgresTransaction :=
  {| domain.Begin := PostgresTransactionManager_Begin (fun t => t) |}.

End Postgres.

End repository.

(** ** The test doubles of internal/logic/v1/service_test.go *)

Module mocks.
Import domain.

Record MockTransaction : Type := mkMockTransaction {
  commitCalled : bool;
  rollbackCalled : bool
}.

(** The world of the test: the [MockTransaction] values allocated so far;
    a transaction is known by its position. *)
Definition World : Type := list MockTransaction.

Definition MockTransaction_Commit (m : nat) : M World (option error) :=
  fun w =>
    (None,
     update_nth m
       (fun x => mkMockTransaction true (rollbackCalled x)) w).

Definition MockTransaction_Rollback (m : nat) : M World (option error) :=
  fun w =>
    (None,
     update_nth m
       (fun x => mkMockTransaction (commitCalled x) true) w).

Definition MockTransactionManager_Begin : M World (Transaction World nat + error) :=
  fun w =>
    let m := List.length w in
    (inl {| impl := m;
            Commit := MockTransaction_Commit m;
            Rollback := MockTransaction_Rollback m |},
     (w ++ [mkMockTransaction false false])%list).

Record MockOrderRepository : Type := mkMockOrderRepository {
  createWithTxFunc :
    option (Transaction World nat -> Order.t -> M World (Order.t * option error))
}.

Definition asOrderRepository (m : MockOrderRepository)
  : OrderRepository World nat :=
  {| FindByID := fun _ w => ((None, None), w);
     FindByUserID := fun _ w => (([], None), w);
     Create := fun order w => ((order, None), w);
     UpdateStatus := fun _ _ w => (None, w);
     CreateWithTx := fun tx order w =>
       match createWithTxFunc m with
       | Some f => f tx order w
       | None => ((order, None), w)
       end |}.

Definition MockTransactionManager : TransactionManager World nat :=
  {| Begin := MockTransactionManager_Begin |}.

End mocks.

(** ** internal/web/v1 *)

Module webv1.
Import domain.

(** *** The HTTP boundary *)

Definition StatusOK : Z := 200.
Definition StatusCreated : Z := 201.
Definition StatusBadRequest : Z := 400.
Definition StatusUnauthorized : Z := 401.
Definition StatusNotFound : Z := 404.
Definition StatusInternalServerError : Z := 500.

Module Shipment.
Record t : Type := mk {
  ID : Z;
  OrderID : Z;
  TrackingNumber : string;
  Carrier : string;
  Status : string;
  EstimatedDelivery : option string;
  CreatedAt : string;
  UpdatedAt : string
}.
End Shipment.

(** [OrderDetailsResponse]: [Shipment] is left out of the JSON when nil. *)
Module OrderDetailsResponse.
Record t : Type := mk {
  Order : option Order.t;
  Shipment : option Shipment.t
}.
End OrderDetailsResponse.

Fixpoint lookup (k : string) (l : list (string * string)) : string :=
  match l with
  | [] => ""
  | (k', v) :: rest => if String.eqb k k' then v else lookup k rest
  end.

(** An outgoing request and the response to it. *)
Record Request : Type := mkRequest {
  Method : string;
  URL : string;
  Header : list (string * string)
}.

Record Response : Type := mkResponse {
  StatusCode : Z;
  Body : string
}.

(** What lies beyond the two HTTP clients: whether a URL parses
    ([http.NewRequestWithContext] fails when it does not), what a request
    comes back with (a response, or an error such as a refused connection or
    the client's timeout), and what the JSON decoder makes of a body. *)
Class Net : Type := {
  url_Parse : string -> option error;
  Do : Request -> Response + error;
  Decode_Shipment : string -> Shipment.t + error
}.

(** The body of a request as [ShouldBindJSON] reads it: JSON that does not
    decode into a [CreateOrderRequest], or the fields decoded; [items] is
    [None] when the key is missing or null. *)
Inductive RequestBody : Type :=
| Malformed (err : error)
| Decoded (user_id : string) (items : option (list OrderItem.t)).

(** [*gin.Context], as far as the handlers read it: path parameters
    ([c.Param]), the keys bound by the middlewares before the handler
    ([c.GetString]), the request headers ([c.GetHeader]) and the body. *)
Record Context : Type := mkContext {
  Params : list (string * string);
  Keys : list (string * string);
  Headers : list (string * string);
  RequestBody_ : RequestBody
}.

Definition Param (c : Context) (k : string) : string := lookup k (Params c).
Definition GetString (c : Context) (k : string) : string := lookup k (Keys c).
Definition GetHeader (c : Context) (k : string) : string := lookup k (Headers c).

(** The failure of the [binding:"required"] tag of [Items]. *)
Definition required_Items : error :=
  External "Key: 'CreateOrderRequest.Items' Error:Field validation for 'Items' failed on the 'required' tag".

Definition ShouldBindJSON (c : Context) : CreateOrderRequest.t + error :=
  match RequestBody_ c with
  | Malformed err => inr err
  | Decoded _ None => inr required_Items
  | Decoded user_id (Some items) => inl (CreateOrderRequest.mk user_id items)
  end.

(** What [c.JSON(code, obj)] writes. *)
Inductive JSON : Type :=
| H_error (msg : string)                    (* gin.H{"error": msg} *)
| J_order (order : option Order.t)
| J_orders (orders : list Order.t)
| J_details (response : OrderDetailsResponse.t).

Record Reply : Type := mkReply {
  code : Z;
  obj : JSON
}.

(** A line written through the request's logger: its message and the error
    attached to it. *)
Inductive LogEntry : Type :=
| Info (msg : string) (err : option error)
| Warn (msg : string) (err : option error)
| Error_ (msg : string) (err : option error).

(** *** validation.go *)

Definition sanitizeValidationError (err : option error) : string :=
  match err with
  | None => ""
  | Some err =>
      let msg := Error err in
      if strings_Contains msg "validation"
         || strings_Contains msg "Field validation"
         || strings_Contains msg "cannot unmarshal"
         || strings_Contains msg "bind"
         || strings_Contains msg "Key:"
      then "Invalid request"
      else if (Z.of_nat (String.length msg) <? 100)
              && negb (strings_Contains msg "Error:")
      then msg
      else "Invalid request"
  end.

(** *** cart_client.go and the client of aggregation.go *)

Record CartClient : Type := NewCartClient { cart_baseURL : string }.
Record ShippingClient : Type := NewShippingClient { baseURL : string }.

Section Clients.
Context {net : Net}.

Definition NewRequestWithContext (method url : string) : Request + error :=
  match url_Parse url with
  | Some err => inr err
  | None => inl (mkRequest method url [])
  end.

Definition ClearCart (c : CartClient) (authHeader : string) : option error :=
  match NewRequestWithContext "DELETE" (cart_baseURL c ++ "/api/v1/cart") with
  | inr err => Some (Wrap "create request" err)
  | inl req =>
      let req :=
        if negb (String.eqb authHeader "")
        then mkRequest (Method req) (URL req)
                       (("Authorization", authHeader) :: Header req)
        else req in
      match Do req with
      | inr err => Some (Wrap "request cart service" err)
      | inl resp =>
          if (StatusCode resp <? 200) || (300 <=? StatusCode resp)
          then Some (Errorf ("cart service returned status "
                             ++ Itoa (StatusCode resp)))
          else None
      end
  end.

Definition GetShipmentByOrderID (c : ShippingClient) (orderID : string)
  : option Shipment.t * option error :=
  let url := baseURL c ++ "/api/v1/shipping/orders/" ++ orderID in
  match NewRequestWithContext "GET" url with
  | inr err => (None, Some (Wrap "create shipping request" err))
  | inl req =>
      match Do req with
      | inr err => (None, Some (Wrap "shipping service call failed" err))
      | inl resp =>
          if StatusCode resp =? StatusNotFound then (None, None)
          else if negb (StatusCode resp =? StatusOK)
          then (None, Some (Errorf ("shipping service returned status "
                                    ++ Itoa (StatusCode resp))))
          else
            match Decode_Shipment (Body resp) with
            | inr err =>
                (None, Some (Wrap "failed to decode shipment response" err))
            | inl shipment => (Some shipment, None)
            end
      end
  end.

End Clients.

(** *** handler.go and aggregation.go *)

Record OrderHandler (W T : Type) : Type := NewOrderHandler {
  orderService : logicv1.OrderService W T
}.
Arguments NewOrderHandler {W T} _.
Arguments orderService {W T} _.

(** The package-level variables, set once at start-up by [SetOrderService],
    [SetShippingClient] and [SetCartClient]; [None] is nil. *)
Record Globals (W T : Type) : Type := mkGlobals {
  handler : option (OrderHandler W T);
  shippingClient : option ShippingClient;
  cartClient : option CartClient
}.
Arguments mkGlobals {W T} _ _ _.
Arguments handler {W T} _.
Arguments shippingClient {W T} _.
Arguments cartClient {W T} _.

Section Handlers.
Context {W T : Type} {net : Net}.
Variable g : Globals W T.

Definition getCartClient : option CartClient * list LogEntry :=
  match cartClient g with
  | None => (None, [Warn "Cart client not initialized" None])
  | Some client => (Some client, [])
  end.

Definition OrderHandler_ListOrders (h : OrderHandler W T) (c : Context)
  : M W (Reply * list LogEntry) :=
  fun w =>
    let userID := GetString c "user_id" in
    if String.eqb userID ""
    then ((mkReply StatusUnauthorized (H_error "Authentication required"),
           [Warn "ListOrders: no user_id in context" None]), w)
    else
      let '((orders, err), w) := logicv1.ListOrders (orderService h) userID w in
      match err with
      | Some e =>
          ((mkReply StatusInternalServerError (H_error "Internal server error"),
            [Error_ "Failed to list orders" (Some e)]), w)
      | None =>
          ((mkReply StatusOK (J_orders orders), [Info "Orders listed" None]), w)
      end.

Definition OrderHandler_GetOrder (h : OrderHandler W T) (c : Context)
  : M W (Reply * list LogEntry) :=
  fun w =>
    let id := Param c "id" in
    let '((order, err), w) := logicv1.GetOrder (orderService h) id w in
    match err with
    | Some e =>
        let logs := [Error_ "Failed to get order" (Some e)] in
        if errors_Is e ErrOrderNotFound
        then ((mkReply StatusNotFound (H_error "Order not found"), logs), w)
        else ((mkReply StatusInternalServerError
                       (H_error "Internal server error"), logs), w)
    | None =>
        ((mkReply StatusOK (J_order order), [Info "Order retrieved" None]), w)
    end.

Definition OrderHandler_CreateOrder (h : OrderHandler W T) (c : Context)
  : M W (Reply * list LogEntry) :=
  fun w =>
    match ShouldBindJSON c with
    | inr err =>
        ((mkReply StatusBadRequest
                  (H_error (sanitizeValidationError (Some err))),
          [Error_ "Invalid request" (Some err)]), w)
    | inl req =>
        (* Inject user_id from auth context - never trust client *)
        let userID := GetString c "user_id" in
        if String.eqb userID ""
        then ((mkReply StatusUnauthorized (H_error "Authentication required"),
               [Warn "CreateOrder: no user_id in context" None]), w)
        else
          let req := CreateOrderRequest.mk userID (CreateOrderRequest.Items req) in
          let '((order, err), w) := logicv1.CreateOrder (orderService h) req w in
          match err with
          | Some e =>
              let logs := [Error_ "Failed to create order" (Some e)] in
              if errors_Is e logicv1.ErrInvalidOrder
              then ((mkReply StatusBadRequest (H_error "Invalid order"), logs), w)
              else ((mkReply StatusInternalServerError
                             (H_error "Internal server error"), logs), w)
          | None =>
              let logs := [Info "Order created" None] in
              (* Best-effort: clear cart after successful order creation.
                 Do NOT fail the order if cart clearing fails. *)
              let '(client, warned) := getCartClient in
              let logs := (logs ++ warned)%list in
              let logs :=
                match client with
                | Some client =>
                    match ClearCart client (GetHeader c "Authorization") with
                    | Some err =>
                        (logs ++ [Warn "Best-effort cart clear failed" (Some err)])%list
                    | None => logs
                    end
                | None => logs
                end in
              ((mkReply StatusCreated (J_order order), logs), w)
          end
    end.

(** The package-level wrappers: nothing is written while no handler is
    set. *)
Definition ListOrders (c : Context) : M W (option (Reply * list LogEntry)) :=
  fun w =>
    match handler g with
    | Some h => let '(r, w) := OrderHandler_ListOrders h c w in (Some r, w)
    | None => (None, w)
    end.

Definition GetOrder (c : Context) : M W (option (Reply * list LogEntry)) :=
  fun w =>
    match handler g with
    | Some h => let '(r, w) := OrderHandler_GetOrder h c w in (Some r, w)
    | None => (None, w)
    end.

Definition CreateOrder (c : Context) : M W (option (Reply * list LogEntry)) :=
  fun w =>
    match handler g with
    | Some h => let '(r, w) := OrderHandler_CreateOrder h c w in (Some r, w)
    | None => (None, w)
    end.

(** [GetOrderDetails]: GET /api/v1/orders/:id/details. *)
Definition GetOrderDetails (c : Context) : M W (Reply * list LogEntry) :=
  fun w =>
    let orderID := Param c "id" in
    match handler g with
    | None =>
        ((mkReply StatusInternalServerError
                  (H_error "Service not initialized"), []), w)
    | Some handler =>
        let '((order, err), w) :=
          logicv1.GetOrder (orderService handler) orderID w in
        match err with
        | Some e =>
            let logs := [Error_ "Failed to get order" (Some e)] in
            if errors_Is e ErrOrderNotFound
            then ((mkReply StatusNotFound (H_error "Order not found"), logs), w)
            else ((mkReply StatusInternalServerError
                           (H_error "Internal server error"), logs), w)
        | None =>
            (* Try to get shipment (order may not have shipment yet) *)
            let '(shipment, logs) :=
              match shippingClient g with
              | Some client =>
                  let '(shipment, err) := GetShipmentByOrderID client orderID in
                  match err with
                  | Some e =>
                      (* Log but don't fail - shipment is optional *)
                      (shipment, [Warn "Could not fetch shipment" (Some e)])
                  | None => (shipment, [])
                  end
              | None => (None, [])
              end in
            ((mkReply StatusOK
                      (J_details (OrderDetailsResponse.mk order shipment)),
              (logs ++ [Info "Order details retrieved" None])%list), w)
        end
    end.

End Handlers.

End webv1.

(** ** internal/core/database.go *)

Module database.
Import domain.

(** The environment of the process: [os.Getenv], which gives the empty
    string for a variable that is not set. *)
Definition Env : Type := string -> string.

Record DatabaseConfig : Type := mkDatabaseConfig {
  Host : string;
  Port : string;
  Name : string;
  User : string;
  Password : string;
  SSLMode : string;
  MaxConnections : Z
}.

Definition getEnv (env : Env) (key defaultValue : string) : string :=
  if negb (String.eqb (env key) "") then env key else defaultValue.

Definition getEnvInt (env : Env) (key : string) (defaultValue : Z) : Z :=
  if negb (String.eqb (env key) "")
  then match Atoi (env key) with
       | Some intVal => intVal
       | None => defaultValue
       end
  else defaultValue.

Definition LoadConfig (env : Env) : option DatabaseConfig * option error :=
  let cfg :=
    mkDatabaseConfig (getEnv env "DB_HOST" "") (getEnv env "DB_PORT" "5432")
                     (getEnv env "DB_NAME" "") (getEnv env "DB_USER" "")
                     (getEnv env "DB_PASSWORD" "")
                     (getEnv env "DB_SSLMODE" "disable")
                     (getEnvInt env "DB_POOL_MAX_CONNECTIONS" 25) in
  if String.eqb (Host cfg) ""
  then (None, Some (errors_New "DB_HOST environment variable is required"))
  else if String.eqb (Name cfg) ""
  then (None, Some (errors_New "DB_NAME environment variable is required"))
  else if String.eqb (User cfg) ""
  then (None, Some (errors_New "DB_USER environment variable is required"))
  else if String.eqb (Password cfg) ""
  then (None, Some (errors_New "DB_PASSWORD environment variable is required"))
  else (Some cfg, None).

End database.

(** ** The wiring of the service *)

Module main.
Import repository.

(** Modelled from the spec: cmd/main.go is not among the sources.  The
    service is built by constructor injection over the PostgreSQL repository
    and the PostgreSQL transaction manager, which share one pool. *)
Definition orderService {pg : PgServer}
  : logicv1.OrderService World PostgresTransaction :=
  logicv1.NewOrderService NewPostgresOrderRepository
                          NewPostgresTransactionManager.

End main.

(** ** Worlds to run the code in *)

Module seed.
Import domain repository.

(** A server whose integer input reads plain decimal numerals. *)
Definition decimal_int4in (s : string) : option Z :=
  if String.eqb s "" then None
  else option_map Z.of_int (NilEmpty.int_of_string s).

#[export] Instance decimal_server : PgServer := {| int4in := decimal_int4in |}.

(** The rows of the seed script (V2 seed data), with time counted in days
    and the script run on day 20. *)
Definition seed_orders : list OrderRow := [
  mkOrderRow 1 "1" "completed" 109.97 5.00 114.97 10 12;
  mkOrderRow 2 "1" "shipped" 169.97 5.00 174.97 17 19;
  mkOrderRow 3 "4" "pending" 59.98 5.00 64.98 18 18;
  mkOrderRow 4 "4" "processing" 149.99 5.00 154.99 15 16;
  mkOrderRow 5 "5" "completed" 79.99 5.00 84.99 0 2
].

Definition seed_items : list ItemRow := [
  mkItemRow 1 "1" "Wireless Mouse" 2 29.99 59.98;
  mkItemRow 1 "3" "USB-C Hub" 1 39.99 39.99;
  mkItemRow 1 "4" "Laptop Stand" 1 44.99 44.99;
  mkItemRow 2 "5" "Webcam HD" 1 59.99 59.99;
  mkItemRow 2 "7" "Gaming Headset" 1 89.99 89.99;
  mkItemRow 3 "1" "Wireless Mouse" 2 29.99 59.98;
  mkItemRow 4 "6" "Monitor 24in" 1 149.99 149.99;   (* 24 inches *)
  mkItemRow 5 "2" "Mechanical Keyboard" 1 79.99 79.99
].

(** The seeded database on day 20, with the failures [faults] ahead. *)
Definition seeded (faults : list (option error)) : World :=
  mkWorld (mkTables seed_orders seed_items) 5 [] 20 faults.

Definition service : logicv1.OrderService World PostgresTransaction :=
  main.orderService.

(** The service of [TestCreateOrder] and its two requests. *)
Definition test_service : logicv1.OrderService mocks.World nat :=
  logicv1.NewOrderService
    (mocks.asOrderRepository (mocks.mkMockOrderRepository None))
    mocks.MockTransactionManager.

Definition valid_order : CreateOrderRequest.t :=
  CreateOrderRequest.mk "user1" [
    OrderItem.mk "p1" "" 2 10.0 0;
    OrderItem.mk "p2" "" 1 5.0 0
  ].

Definition empty_items : CreateOrderRequest.t :=
  CreateOrderRequest.mk "user1" [].

(** Downstream services that are down: every call ends in the timeout of
    the client; and services that answer 500 to everything. *)
Definition timing_out : webv1.Net :=
  {| webv1.url_Parse := fun _ => None;
     webv1.Do := fun _ => inr (External "context deadline exceeded");
     webv1.Decode_Shipment := fun _ => inr (External "unexpected end of JSON input") |}.

Definition answering_500 : webv1.Net :=
  {| webv1.url_Parse := fun _ => None;
     webv1.Do := fun _ => inl (webv1.mkResponse 500 "");
     webv1.Decode_Shipment := fun _ => inr (External "unexpected end of JSON input") |}.

(** A shipping service that knows a shipment for every order. *)
Definition shipment_in_transit : webv1.Shipment.t :=
  webv1.Shipment.mk 1 3 "TRK-0003" "DHL" "in_transit" None
                    "2026-01-18T00:00:00Z" "2026-01-18T00:00:00Z".

Definition delivering : webv1.Net :=
  {| webv1.url_Parse := fun _ => None;
     webv1.Do := fun _ => inl (webv1.mkResponse 200 "{}");
     webv1.Decode_Shipment := fun _ => inl shipment_in_transit |}.

Definition shipping : webv1.ShippingClient :=
  webv1.NewShippingClient "http://shipping:8080".
Definition cart : webv1.CartClient := webv1.NewCartClient "http://cart:8080".

(** GET /api/v1/orders/3/details. *)
Definition details_of_order_3 : webv1.Context :=
  webv1.mkContext [("id", "3")] [] [] (webv1.Malformed (External "EOF")).

(** POST /api/v1/orders by user 4, whose payload claims to be user 1. *)
Definition checkout : webv1.Context :=
  webv1.mkContext [] [("user_id", "4")] [("Authorization", "Bearer t")]
    (webv1.Decoded "1" (Some (CreateOrderRequest.Items valid_order))).

(** POST /api/v1/orders with a body that is not JSON and no identity. *)
Definition anonymous_garbage : webv1.Context :=
  webv1.mkContext [] [] [] (webv1.Malformed (External "unexpected EOF")).

End seed.

(** * Properties *)

Import domain.

(** ** Vocabulary of the properties *)

(** "price_i * quantity_i" for a requested item. *)
Definition line_total (item : OrderItem.t) : float :=
  (OrderItem.Price item * float64_of_int (OrderItem.Quantity item))%float.

(** "The sum over requested items": the items are added in the order of the
    request, starting from zero, in binary64 arithmetic. *)
Definition sum_of (l : list float) : float := fold_left PrimFloat.add l 0%float.

(** The name an item carries after creation: its own, or the placeholder
    "Product <product_id>" when it came without one. *)
Definition name_at_order_time (item : OrderItem.t) : string :=
  if String.eqb (OrderItem.ProductName item) ""
  then "Product " ++ OrderItem.ProductID item
  else OrderItem.ProductName item.

(** A created item is the requested item: same product, quantity and price,
    with its name at order time. *)
Definition created_from (requested created : OrderItem.t) : Prop :=
  OrderItem.ProductID created = OrderItem.ProductID requested /\
  OrderItem.Quantity created = OrderItem.Quantity requested /\
  OrderItem.Price created = OrderItem.Price requested /\
  OrderItem.ProductName created = name_at_order_time requested.

(** A repository honours the contract of [CreateWithTx] when all it changes
    of the order it is handed is the id. *)
Definition assigns_only_the_id {W T : Type} (repo : OrderRepository W T) : Prop :=
  forall tx order w,
    exists id, fst (fst (CreateWithTx repo tx order w)) = Order.set_ID order id.

(** The order [CreateOrder] hands to the repository. *)
Definition new_order (req : CreateOrderRequest.t) : Order.t :=
  let '(enrichedItems, subtotal) :=
    logicv1.enrich_loop (CreateOrderRequest.Items req) [] 0%float in
  Order.mk "" (CreateOrderRequest.UserID req) "pending" enrichedItems
           subtotal 5.00%float (subtotal + 5.00)%float 0.

(** Two worlds that no read can tell apart: the same committed tables and
    the same failures ahead. *)
Definition same_view (w1 w2 : repository.World) : Prop :=
  repository.committed w1 = repository.committed w2 /\
  repository.faults w1 = repository.faults w2.

(** The server answers the next [k] calls. *)
Definition reachable (k : nat) (w : repository.World) : Prop :=
  Forall (fun f => f = None) (firstn k (repository.faults w)).

(** An order row as the listing of a user shows it: no items attached. *)
Definition listed (r : repository.OrderRow) : Order.t :=
  Order.mk (Itoa (repository.id r)) (repository.user_id r)
           (repository.status r) [] (repository.subtotal r)
           (repository.shipping r) (repository.total r)
           (repository.created_at r).

(** An item row as an item of its order. *)
Definition bought (i : repository.ItemRow) : OrderItem.t :=
  OrderItem.mk (repository.product_id i) (repository.product_name i)
               (repository.quantity i) (repository.price i)
               (repository.item_subtotal i).

(** The item rows of an order, in the order of the table. *)
Definition items_of (t : repository.Tables) (n : Z) : list repository.ItemRow :=
  filter (fun i => repository.order_id i =? n) (repository.order_items t).

(** The aggregate stored under an order row: the row with all its items. *)
Definition stored (t : repository.Tables) (r : repository.OrderRow) : Order.t :=
  Order.set_Items (listed r) (map bought (items_of t (repository.id r))).

(** The order rows of a user, and the order rows with a given id. *)
Definition orders_of (t : repository.Tables) (userID : string)
  : list repository.OrderRow :=
  filter (fun r => String.eqb (repository.user_id r) userID) (repository.orders t).

Definition orders_with_id (t : repository.Tables) (n : Z)
  : list repository.OrderRow :=
  filter (fun r => repository.id r =? n) (repository.orders t).

(** "Newest first": no row is older than a row after it. *)
Definition newest_first (rows : list repository.OrderRow) : Prop :=
  StronglySorted
    (fun a b => repository.created_at b <= repository.created_at a) rows.

(** The request the shipping client sends for an order. *)
Definition shipment_request (client : webv1.ShippingClient) (orderID : string)
  : webv1.Request :=
  webv1.mkRequest "GET"
    (webv1.baseURL client ++ "/api/v1/shipping/orders/" ++ orderID) [].

(** "The downstream shipment lookup returns not found or fails in any other
    way": the request cannot be built, the call fails (a refused connection,
    the timeout of the client), the provider answers 404 or another status
    that is not 200, or the body of a 200 does not decode. *)
Inductive shipment_unavailable {net : webv1.Net}
          (client : webv1.ShippingClient) (orderID : string) : Prop :=
| request_not_built (e : error) :
    webv1.url_Parse (webv1.URL (shipment_request client orderID)) = Some e ->
    shipment_unavailable client orderID
| call_failed (e : error) :
    webv1.url_Parse (webv1.URL (shipment_request client orderID)) = None ->
    webv1.Do (shipment_request client orderID) = inr e ->
    shipment_unavailable client orderID
| answered_not_found (resp : webv1.Response) :
    webv1.url_Parse (webv1.URL (shipment_request client orderID)) = None ->
    webv1.Do (shipment_request client orderID) = inl resp ->
    webv1.StatusCode resp = 404 ->
    shipment_unavailable client orderID
| answered_other_status (resp : webv1.Response) :
    webv1.url_Parse (webv1.URL (shipment_request client orderID)) = None ->
    webv1.Do (shipment_request client orderID) = inl resp ->
    webv1.StatusCode resp <> 200 ->
    shipment_unavailable client orderID
| body_not_decoded (resp : webv1.Response) (e : error) :
    webv1.url_Parse (webv1.URL (shipment_request client orderID)) = None ->
    webv1.Do (shipment_request client orderID) = inl resp ->
    webv1.StatusCode resp = 200 ->
    webv1.Decode_Shipment (webv1.Body resp) = inr e ->
    shipment_unavailable client orderID.

(** Modelled from the spec: the start-up of cmd/main.go, which is not among
    the sources.  [SetOrderService] installs the handler of the service
    above; [SetShippingClient] and [SetCartClient] install the clients that
    were configured. *)
Definition package {pg : repository.PgServer}
           (shipping : option webv1.ShippingClient)
           (cart : option webv1.CartClient)
  : webv1.Globals repository.World repository.PostgresTransaction :=
  webv1.mkGlobals (Some (webv1.NewOrderHandler main.orderService)) shipping cart.

(** "x >= 0" for a binary64 value: a zero of either sign, a positive
    number or plus infinity; never a NaN. *)
Definition nonnegative (x : float) : Prop := (0 <=? x)%float = true.

(** The same on the specification of binary64 values, and the numbers that
    are positive and finite. *)
Definition SF_nonneg (x : spec_float) : bool :=
  match x with
  | S754_zero _ => true
  | S754_infinity s | S754_finite s _ _ => negb s
  | S754_nan => false
  end.

Definition SF_positive_finite (x : spec_float) : bool :=
  match x with
  | S754_finite false _ _ => true
  | _ => false
  end.

(** An item a shop would sell: a quantity that is positive (and a Go
    [int]), a price that is not negative. *)
Definition well_formed (item : OrderItem.t) : Prop :=
  0 < OrderItem.Quantity item < 2 ^ 63 /\ nonnegative (OrderItem.Price item).

(** ** Vocabulary of the further properties *)

(** The order row and the item rows that the inserts of the repository
    write for an order under the id [id] at the time [now]. *)
Definition order_row (id : Z) (o : Order.t) (now : Z) : repository.OrderRow :=
  repository.mkOrderRow id (Order.UserID o) (Order.Status o) (Order.Subtotal o)
                        (Order.Shipping o) (Order.Total o) now now.

Definition item_row (id : Z) (item : OrderItem.t) : repository.ItemRow :=
  repository.mkItemRow id (OrderItem.ProductID item) (OrderItem.ProductName item)
                       (OrderItem.Quantity item) (OrderItem.Price item)
                       (OrderItem.Subtotal item).


Definition set_Status (o : Order.t) (status : string) : Order.t :=
  Order.mk (Order.ID o) (Order.UserID o) status (Order.Items o)
           (Order.Subtotal o) (Order.Shipping o) (Order.Total o)
           (Order.CreatedAt o).

(** What a call to the server leaves alone when it writes nothing: the
    committed tables, the sequence, the transactions and the clock. *)
Definition kept (w w' : repository.World) : Prop :=
  repository.committed w' = repository.committed w /\
  repository.orders_id_seq w' = repository.orders_id_seq w /\
  repository.txs w' = repository.txs w /\
  repository.clock w' = repository.clock w.

(** What a write inside a transaction leaves alone: the committed tables
    and the clock. *)
Definition kept_outside (w w' : repository.World) : Prop :=
  repository.committed w' = repository.committed w /\
  repository.clock w' = repository.clock w.

(** The state of an open transaction that has written [t]. *)
Definition writing (t : repository.Tables) : repository.PgTx :=
  repository.mkPgTx t false.

(** The columns of an order row that no update of the status touches. *)
Definition frozen (r : repository.OrderRow)
  : Z * string * float * float * float * Z :=
  (repository.id r, repository.user_id r, repository.subtotal r,
   repository.shipping r, repository.total r, repository.created_at r).

(** The request the cart client sends: the Authorization header of the
    caller when there is one, and no header otherwise. *)
Definition cart_request (c : webv1.CartClient) (authHeader : string)
  : webv1.Request :=
  webv1.mkRequest "DELETE" (webv1.cart_baseURL c ++ "/api/v1/cart")
    (if String.eqb authHeader "" then [] else [("Authorization", authHeader)]).

(** The marks of a raw validation or binding error. *)
Definition raw_marks : list string :=
  ["validation"; "Field validation"; "cannot unmarshal"; "bind"; "Key:";
   "Error:"].

(** What the update of the status makes of a row, for the id [n]. *)
Definition restatus (status : string) (now n : Z) (r : repository.OrderRow)
  : repository.OrderRow :=
  if repository.id r =? n
  then repository.mkOrderRow (repository.id r) (repository.user_id r) status
                             (repository.subtotal r) (repository.shipping r)
                             (repository.total r) (repository.created_at r) now
  else r.

(** "An id not present in the store": no order row whose id, written the
    way [FindByID] writes the id of an order ([strconv.Itoa]), is that
    text. *)
Definition not_present (t : repository.Tables) (id : string) : Prop :=
  Forall (fun r => Itoa (repository.id r) <> id) (repository.orders t).

(** ** The enrichment loop *)

Lemma enrich_loop_spec (items acc : list OrderItem.t) (subtotal : float) :
  logicv1.enrich_loop items acc subtotal =
  ((acc ++ map (fun item => logicv1.enrich item (line_total item)) items)%list,
   fold_left PrimFloat.add (map line_total items) subtotal).
Proof.
  revert acc subtotal.
  induction items as [|item rest IH]; intros acc subtotal; simpl.
  - now rewrite app_nil_r.
  - rewrite IH, <- app_assoc. reflexivity.
Qed.

Lemma new_order_fields (req : CreateOrderRequest.t) :
  let items := CreateOrderRequest.Items req in
  Order.Items (new_order req)
    = map (fun item => logicv1.enrich item (line_total item)) items /\
  Order.Subtotal (new_order req) = sum_of (map line_total items) /\
  Order.Shipping (new_order req) = 5%float /\
  Order.Total (new_order req) = (sum_of (map line_total items) + 5)%float /\
  Order.Status (new_order req) = "pending" /\
  Order.UserID (new_order req) = CreateOrderRequest.UserID req.
Proof.
  unfold new_order. rewrite enrich_loop_spec. simpl. repeat split.
Qed.

Lemma enriched_items_created_from (items : list OrderItem.t) :
  Forall2 created_from items
          (map (fun item => logicv1.enrich item (line_total item)) items).
Proof.
  induction items as [|item rest IH]; simpl; constructor; auto.
  repeat split.
Qed.

Lemma enriched_items_subtotal (items : list OrderItem.t) :
  Forall (fun item => OrderItem.Subtotal item = line_total item)
         (map (fun item => logicv1.enrich item (line_total item)) items).
Proof.
  induction items as [|item rest IH]; simpl; constructor; auto.
Qed.

(** ** [CreateOrder], path by path *)

Section CreateOrderPaths.
Context {W T : Type}.
Variable s : logicv1.OrderService W T.

Lemma CreateOrder_empty (req : CreateOrderRequest.t) (w : W) :
  CreateOrderRequest.Items req = [] ->
  logicv1.CreateOrder s req w = ((None, Some logicv1.ErrInvalidOrder), w).
Proof.
  intros E. unfold logicv1.CreateOrder. rewrite E. reflexivity.
Qed.

(** On a request with items, [CreateOrder] is the sequence begin, create,
    commit, with the deferred rollback on each exit. *)
Lemma CreateOrder_nonempty (req : CreateOrderRequest.t) (w : W) :
  CreateOrderRequest.Items req <> [] ->
  logicv1.CreateOrder s req w =
  let '(tx, w) := Begin (logicv1.txManager s) w in
  match tx with
  | inr e => ((None, Some e), w)
  | inl tx =>
      let '((order, err), w) :=
        CreateWithTx (logicv1.orderRepo s) tx (new_order req) w in
      match err with
      | Some e => ((None, Some e), snd (Rollback tx w))
      | None =>
          let '(err, w) := Commit tx w in
          match err with
          | Some e => ((None, Some e), snd (Rollback tx w))
          | None => ((Some order, None), snd (Rollback tx w))
          end
      end
  end.
Proof.
  intros NE. unfold logicv1.CreateOrder, new_order.
  destruct (CreateOrderRequest.Items req) as [|i l] eqn:E; [congruence|].
  replace (Z.of_nat (Datatypes.length (i :: l)) =? 0) with false
    by (symmetry; apply Z.eqb_neq; simpl; lia).
  destruct (logicv1.enrich_loop (i :: l) [] 0%float) as [enriched subtotal].
  destruct (Begin (logicv1.txManager s) w) as [[tx|e] w1]; [|reflexivity].
  destruct (CreateWithTx _ tx _ w1) as [[order [e|]] w2].
  - destruct (Rollback tx w2); reflexivity.
  - destruct (Commit tx w2) as [[e|] w3]; destruct (Rollback tx w3); reflexivity.
Qed.

Lemma CreateOrder_ok_inv (req : CreateOrderRequest.t) (w w' : W) (o : Order.t) :
  logicv1.CreateOrder s req w = ((Some o, None), w') ->
  CreateOrderRequest.Items req <> [] /\
  exists tx w1 w2 w3,
    Begin (logicv1.txManager s) w = (inl tx, w1) /\
    CreateWithTx (logicv1.orderRepo s) tx (new_order req) w1 = ((o, None), w2) /\
    Commit tx w2 = (None, w3) /\
    w' = snd (Rollback tx w3).
Proof.
  intros R.
  assert (NE : CreateOrderRequest.Items req <> []).
  { intros E. rewrite (CreateOrder_empty _ _ E) in R. discriminate. }
  split; [exact NE|].
  rewrite (CreateOrder_nonempty _ _ NE) in R.
  destruct (Begin (logicv1.txManager s) w) as [[tx|e] w1]; [|discriminate].
  destruct (CreateWithTx _ tx _ w1) as [[order [e|]] w2] eqn:C; [discriminate|].
  destruct (Commit tx w2) as [[e|] w3] eqn:K; [discriminate|].
  inversion R; subst. exists tx, w1, w2, w3. auto.
Qed.

(** What a created order holds, whatever the repository, as long as the
    repository only assigns the id. *)
Lemma CreateOrder_ok_fields (req : CreateOrderRequest.t) (w w' : W) (o : Order.t) :
  assigns_only_the_id (logicv1.orderRepo s) ->
  logicv1.CreateOrder s req w = ((Some o, None), w') ->
  let items := CreateOrderRequest.Items req in
  Order.Subtotal o = sum_of (map line_total items) /\
  Order.Shipping o = 5%float /\
  Order.Total o = (Order.Subtotal o + 5)%float /\
  Order.Status o = "pending" /\
  Order.UserID o = CreateOrderRequest.UserID req /\
  Order.Items o = map (fun item => logicv1.enrich item (line_total item)) items.
Proof.
  intros A R. apply CreateOrder_ok_inv in R.
  destruct R as (_ & tx & w1 & w2 & w3 & _ & C & _ & _).
  destruct (A tx (new_order req) w1) as [id E]. rewrite C in E. simpl in E.
  destruct (new_order_fields req) as (Hi & Hs & Hsh & Ht & Hst & Hu).
  subst o. simpl. rewrite Hs, Hsh, Ht, Hst, Hu, Hi. repeat split.
Qed.

End CreateOrderPaths.

(** ** The PostgreSQL repository *)

Import repository.

Lemma nth_error_update_nth {A : Type} (f : A -> A) (l : list A) (n m : nat) :
  nth_error (update_nth n f l) m =
  if Nat.eqb n m then option_map f (nth_error l m) else nth_error l m.
Proof.
  revert n m. induction l as [|x l IH]; intros [|n] [|m]; simpl; trivial.
  now destruct (Nat.eqb n m).
Qed.

Lemma nth_error_fresh {A : Type} (l : list A) (x : A) :
  nth_error (l ++ [x]) (List.length l) = Some x.
Proof.
  rewrite nth_error_app2 by lia. now rewrite Nat.sub_diag.
Qed.

Lemma set_ID_own (order : Order.t) : order = Order.set_ID order (Order.ID order).
Proof. destruct order; reflexivity. Qed.

Section PostgresFacts.
Context {pg : PgServer}.

Lemma CreateWithTx_order {T : Type} (assert : T -> option PostgresTransaction)
      (tx : Transaction World T) (order : Order.t) (w : World) :
  exists id, fst (fst (CreateWithTx assert tx order w)) = Order.set_ID order id.
Proof.
  unfold CreateWithTx.
  destruct (assert (impl tx)) as [pgxTx|]; [|eexists; apply set_ID_own].
  destruct (pgxTx_QueryRow_insert_order _ _ _ _ _ _ _ w) as [[id [e|]] w1].
  - eexists; apply set_ID_own.
  - destruct (insert_items _ id _ w1) as [err w2]. eexists; reflexivity.
Qed.

Lemma postgres_assigns_only_the_id :
  assigns_only_the_id (logicv1.orderRepo main.orderService).
Proof. intros tx order w. apply CreateWithTx_order. Qed.

End PostgresFacts.

Lemma mock_assigns_only_the_id :
  assigns_only_the_id (logicv1.orderRepo seed.test_service).
Proof. intros tx order w. exists (Order.ID order). apply set_ID_own. Qed.

(** The two cases of [TestCreateOrder]: the valid order has subtotal 25 and
    total 25 + 5, with a transaction committed; the order without items is
    an error, and no transaction was begun. *)
Example TestCreateOrder_Valid_Order :
  exists order w,
    logicv1.CreateOrder seed.test_service seed.valid_order []
    = ((Some order, None), w) /\
    Order.Subtotal order = 25.0%float /\
    Order.Total order = (25.0 + 5.00)%float /\
    map mocks.commitCalled w = [true].
Proof. do 2 eexists. repeat split. Qed.

Example TestCreateOrder_Empty_Items :
  exists err,
    logicv1.CreateOrder seed.test_service seed.empty_items []
    = ((None, Some err), []).
Proof. eexists. reflexivity. Qed.

(** C1.  Every order that [CreateOrder] returns for a request with items
    has, as its subtotal, the sum of price * quantity over the requested
    items (added in request order), 5.00 as shipping, subtotal + 5.00 as its
    total and "pending" as its status; each of its items has price *
    quantity as its subtotal, and is the requested item of the same
    position, named "Product <product_id>" when the request gave no name. *)
Theorem create_order_prices_the_request {pg : PgServer}
        (req : CreateOrderRequest.t) (w w' : World) (o : Order.t) :
  CreateOrderRequest.Items req <> [] ->
  logicv1.CreateOrder main.orderService req w = ((Some o, None), w') ->
  Order.Subtotal o = sum_of (map line_total (CreateOrderRequest.Items req)) /\
  Order.Shipping o = 5.00%float /\
  Order.Total o = (Order.Subtotal o + 5.00)%float /\
  Order.Status o = "pending" /\
  Forall (fun item =>
            OrderItem.Subtotal item
            = (OrderItem.Price item * float64_of_int (OrderItem.Quantity item))%float)
         (Order.Items o) /\
  Forall2 created_from (CreateOrderRequest.Items req) (Order.Items o).
Proof.
  intros _ R.
  destruct (CreateOrder_ok_fields _ _ _ _ _ postgres_assigns_only_the_id R)
    as (Hs & Hsh & Ht & Hst & _ & Hi).
  repeat split; trivial; rewrite Hi.
  - apply enriched_items_subtotal.
  - apply enriched_items_created_from.
Qed.

(** C1, run: the valid order of the unit test against the seeded database
    gives subtotal 25, shipping 5, total 30 and items of 20 and 5. *)
Lemma create_order_prices_the_request_run :
  let o := Order.mk "6" "user1" "pending"
             [OrderItem.mk "p1" "Product p1" 2 10 20;
              OrderItem.mk "p2" "Product p2" 1 5 5] 25 5 30 0 in
  Order.Subtotal o
    = sum_of (map line_total (CreateOrderRequest.Items seed.valid_order)) /\
  Order.Shipping o = 5.00%float /\
  Order.Total o = (Order.Subtotal o + 5.00)%float /\
  Order.Status o = "pending" /\
  Forall (fun item =>
            OrderItem.Subtotal item
            = (OrderItem.Price item * float64_of_int (OrderItem.Quantity item))%float)
         (Order.Items o) /\
  Forall2 created_from (CreateOrderRequest.Items seed.valid_order) (Order.Items o).
Proof.
  intro o.
  apply (@create_order_prices_the_request
           seed.decimal_server seed.valid_order (seed.seeded [])
           (snd (logicv1.CreateOrder seed.service seed.valid_order
                                     (seed.seeded []))) o).
  - discriminate.
  - vm_compute. reflexivity.
Defined.


(** ** Transactions of the driver *)

Lemma server_call_view (w1 w2 : World) :
  same_view w1 w2 ->
  fst (server_call w1) = fst (server_call w2) /\
  same_view (snd (server_call w1)) (snd (server_call w2)).
Proof.
  intros [C F]. unfold server_call. rewrite F.
  destruct (faults w2) eqn:F2; repeat split; simpl; congruence.
Qed.

Lemma server_call_next (w : World) (f : option error) (rest : list (option error)) :
  faults w = f :: rest -> server_call w = (f, with_faults w rest).
Proof. intros E. unfold server_call. now rewrite E. Qed.

Lemma server_call_keeps (w : World) :
  committed (snd (server_call w)) = committed w /\
  txs (snd (server_call w)) = txs w.
Proof. unfold server_call. now destruct (faults w). Qed.

Lemma tx_is_open_txs (t : nat) (w1 w2 : World) :
  txs w1 = txs w2 -> tx_is_open t w1 = tx_is_open t w2.
Proof. unfold tx_is_open. now intros ->. Qed.

Lemma tx_is_open_fresh (w : World) (fs : list (option error)) :
  tx_is_open (List.length (txs w))
    (with_txs (with_faults w fs) (txs w ++ [mkPgTx (mkTables [] []) false])) = true.
Proof.
  unfold tx_is_open. simpl. now rewrite nth_error_fresh.
Qed.

Lemma tx_is_open_write (t : nat) (w : World) (f : PgTx -> PgTx) :
  (forall x, closed (f x) = closed x) ->
  tx_is_open t (with_txs w (update_nth t f (txs w))) = tx_is_open t w.
Proof.
  intros Hf. unfold tx_is_open. simpl. rewrite nth_error_update_nth.
  rewrite Nat.eqb_refl. destruct (nth_error (txs w) t); simpl; [|reflexivity].
  now rewrite Hf.
Qed.

Lemma tx_released_close (t : nat) (w : World) :
  tx_is_open t w = true ->
  tx_released t (with_txs w (update_nth t close (txs w))) = true.
Proof.
  unfold tx_is_open, tx_released. simpl. rewrite nth_error_update_nth.
  rewrite Nat.eqb_refl. destruct (nth_error (txs w) t); simpl; congruence.
Qed.

Section Transactions.
Context {pg : PgServer}.

Lemma pool_Begin_through (w : World) (fs : list (option error)) :
  faults w = None :: fs ->
  pool_Begin w =
  (inl (List.length (txs w)),
   with_txs (with_faults w fs) (txs w ++ [mkPgTx (mkTables [] []) false])).
Proof.
  intros E. unfold pool_Begin. now rewrite (server_call_next _ _ _ E).
Qed.

(** A rollback of an open transaction closes it and leaves the committed
    tables alone, whatever the server answers. *)
Lemma pgxTx_Rollback_open (t : nat) (w : World) :
  tx_is_open t w = true ->
  committed (snd (pgxTx_Rollback t w)) = committed w /\
  tx_released t (snd (pgxTx_Rollback t w)) = true.
Proof.
  intros O. unfold pgxTx_Rollback. pose proof O as O'. unfold tx_is_open in O'.
  destruct (nth_error (txs w) t) as [x|] eqn:N; [|discriminate].
  destruct (closed x); [discriminate|].
  destruct (server_call_keeps w) as [C X].
  destruct (server_call w) as [f w1]. simpl in *. split; [exact C|].
  apply tx_released_close. now rewrite (tx_is_open_txs t _ _ X).
Qed.

(** A rollback of a closed transaction does nothing. *)
Lemma pgxTx_Rollback_released (t : nat) (w : World) :
  tx_released t w = true ->
  pgxTx_Rollback t w = (Some pgx_ErrTxClosed, w).
Proof.
  unfold tx_released, pgxTx_Rollback.
  destruct (nth_error (txs w) t) as [x|]; [|discriminate].
  now intros ->.
Qed.

(** A commit that fails closes the transaction and commits nothing. *)
Lemma pgxTx_Commit_fails (t : nat) (w : World) (e : error)
      (rest : list (option error)) :
  tx_is_open t w = true ->
  faults w = Some e :: rest ->
  fst (pgxTx_Commit t w) = Some e /\
  committed (snd (pgxTx_Commit t w)) = committed w /\
  tx_released t (snd (pgxTx_Commit t w)) = true.
Proof.
  intros O F. unfold pgxTx_Commit. pose proof O as O'. unfold tx_is_open in O'.
  destruct (nth_error (txs w) t) as [x|] eqn:N; [|discriminate].
  destruct (closed x); [discriminate|].
  rewrite (server_call_next _ _ _ F). simpl. repeat split.
  apply (tx_released_close t (with_faults w rest)). exact O.
Qed.

(** The insert of the order row in an open transaction: a failure leaves the
    world as it was but for the failure consumed; a success writes to the
    transaction only. *)
Lemma insert_order_fails (t : nat) (w : World) (e : error)
      (rest : list (option error)) u st sb sh tt ca :
  tx_is_open t w = true ->
  faults w = Some e :: rest ->
  pgxTx_QueryRow_insert_order t u st sb sh tt ca w
  = ((0, Some e), with_faults w rest).
Proof.
  intros O F. unfold pgxTx_QueryRow_insert_order, insert_order_row.
  now rewrite O, (server_call_next _ _ _ F).
Qed.

Lemma insert_order_through (t : nat) (w : World)
      (rest : list (option error)) u st sb sh tt ca :
  tx_is_open t w = true ->
  faults w = None :: rest ->
  exists id w',
    pgxTx_QueryRow_insert_order t u st sb sh tt ca w = ((id, None), w') /\
    committed w' = committed w /\ tx_is_open t w' = true /\ faults w' = rest.
Proof.
  intros O F. unfold pgxTx_QueryRow_insert_order, insert_order_row.
  rewrite O, (server_call_next _ _ _ F). do 2 eexists. split; [reflexivity|].
  repeat split.
  unfold write_order_tx.
  rewrite (tx_is_open_write t (with_seq (with_faults w rest) _)); [|reflexivity].
  exact O.
Qed.

(** The item loop in an open transaction, with [k] inserts going through
    before the failures [tail] ahead. *)
Lemma insert_items_through (t : nat) (id : Z) (items : list OrderItem.t)
      (k : nat) (tail : list (option error)) (w : World) :
  tx_is_open t w = true ->
  faults w = (repeat None k ++ tail)%list ->
  k = List.length items ->
  exists w',
    insert_items (pgxTx_Exec_insert_item t) id items w = (None, w') /\
    committed w' = committed w /\ tx_is_open t w' = true /\ faults w' = tail.
Proof.
  revert k w. induction items as [|item rest IH]; intros k w O F K; subst k.
  - exists w. simpl in *. auto.
  - simpl in F. simpl.
    unfold pgxTx_Exec_insert_item at 1, insert_item_row. rewrite O.
    rewrite (server_call_next _ _ _ F).
    match goal with |- context [insert_items _ _ _ ?w1] =>
      destruct (IH (List.length rest) w1) as (w' & R & C & O' & F')
    end; trivial.
    + unfold write_item_tx.
      rewrite (tx_is_open_write t (with_faults w _)); [exact O|reflexivity].
    + exists w'. repeat split; trivial.
Qed.

Lemma insert_items_fails (t : nat) (id : Z) (items : list OrderItem.t)
      (k : nat) (e : error) (tail : list (option error)) (w : World) :
  tx_is_open t w = true ->
  faults w = (repeat None k ++ Some e :: tail)%list ->
  (k < List.length items)%nat ->
  exists w',
    insert_items (pgxTx_Exec_insert_item t) id items w = (Some e, w') /\
    committed w' = committed w /\ tx_is_open t w' = true.
Proof.
  revert k w. induction items as [|item rest IH]; intros k w O F K.
  - simpl in K. lia.
  - simpl. unfold pgxTx_Exec_insert_item at 1, insert_item_row. rewrite O.
    destruct k as [|k]; simpl in F; rewrite (server_call_next _ _ _ F).
    + eexists. repeat split. exact O.
    + match goal with |- context [insert_items _ _ _ ?w1] =>
        destruct (IH k w1) as (w' & R & C & O')
      end; trivial.
      * unfold write_item_tx.
        rewrite (tx_is_open_write t (with_faults w _)); [exact O|reflexivity].
      * simpl in K. lia.
      * exists w'. repeat split; trivial.
Qed.

End Transactions.

(** ** Reads see the committed tables only *)

Section Reads.
Context {pg : PgServer}.

Lemma pool_QueryRow_order_by_id_view (id : string) (w1 w2 : World) :
  same_view w1 w2 ->
  fst (pool_QueryRow_order_by_id id w1) = fst (pool_QueryRow_order_by_id id w2) /\
  same_view (snd (pool_QueryRow_order_by_id id w1))
            (snd (pool_QueryRow_order_by_id id w2)).
Proof.
  intros V. unfold pool_QueryRow_order_by_id.
  destruct (server_call_view _ _ V) as [E V'].
  destruct (server_call w1) as [f1 x1], (server_call w2) as [f2 x2].
  simpl in E, V'. subst f2. destruct f1; [now split|].
  destruct (int4in id); [|now split].
  destruct V' as [C F]. rewrite C.
  destruct (filter _ (orders (committed x2))); split; trivial; now split.
Qed.

Lemma pool_Query_items_view (idInt : Z) (w1 w2 : World) :
  same_view w1 w2 ->
  fst (pool_Query_items idInt w1) = fst (pool_Query_items idInt w2) /\
  same_view (snd (pool_Query_items idInt w1)) (snd (pool_Query_items idInt w2)).
Proof.
  intros V. unfold pool_Query_items.
  destruct (server_call_view _ _ V) as [E V'].
  destruct (server_call w1) as [f1 x1], (server_call w2) as [f2 x2].
  simpl in E, V'. subst f2. destruct f1; [now split|].
  destruct V' as [C F]. rewrite C. split; trivial; now split.
Qed.

Lemma pool_Query_orders_by_user_view (userID : string) (w1 w2 : World) :
  same_view w1 w2 ->
  fst (pool_Query_orders_by_user userID w1)
  = fst (pool_Query_orders_by_user userID w2) /\
  same_view (snd (pool_Query_orders_by_user userID w1))
            (snd (pool_Query_orders_by_user userID w2)).
Proof.
  intros V. unfold pool_Query_orders_by_user.
  destruct (server_call_view _ _ V) as [E V'].
  destruct (server_call w1) as [f1 x1], (server_call w2) as [f2 x2].
  simpl in E, V'. subst f2. destruct f1; [now split|].
  destruct V' as [C F]. rewrite C. split; trivial; now split.
Qed.

Lemma FindByID_view (id : string) (w1 w2 : World) :
  same_view w1 w2 -> fst (FindByID id w1) = fst (FindByID id w2).
Proof.
  intros V. unfold FindByID.
  destruct (pool_QueryRow_order_by_id_view id _ _ V) as [E V'].
  destruct (pool_QueryRow_order_by_id id w1) as [r1 x1],
           (pool_QueryRow_order_by_id id w2) as [r2 x2].
  simpl in E, V'. subst r2. destruct r1 as [row|err].
  - simpl.
    destruct (pool_Query_items_view (repository.id row) _ _ V') as [E2 _].
    destruct (pool_Query_items (repository.id row) x1) as [i1 y1],
             (pool_Query_items (repository.id row) x2) as [i2 y2].
    simpl in E2. subst i2. now destruct i1.
  - now destruct (errors_Is err pgx_ErrNoRows).
Qed.

Lemma FindByUserID_view (userID : string) (w1 w2 : World) :
  same_view w1 w2 -> fst (FindByUserID userID w1) = fst (FindByUserID userID w2).
Proof.
  intros V. unfold FindByUserID.
  destruct (pool_Query_orders_by_user_view userID _ _ V) as [E _].
  destruct (pool_Query_orders_by_user userID w1) as [r1 x1],
           (pool_Query_orders_by_user userID w2) as [r2 x2].
  simpl in E. subst r2. now destruct r1.
Qed.

End Reads.

(** C3.  Let the transaction begin, let the next [j] calls to the server go
    through and the one after them fail with [e]: the failing call is the
    insert of the order row when [j = 0], the insert of the [j]-th item when
    [j] is between 1 and the number of items, and the commit when [j] is one
    more than the number of items.  Then [CreateOrder] returns [e]; the
    transaction it began is closed and nothing of it was committed: the
    committed tables are those from before the call, and every read of an
    order by id or by user answers as it would have before the call. *)
Theorem create_order_failure_rolls_back {pg : PgServer}
        (req : CreateOrderRequest.t) (w : World) (j : nat) (e : error)
        (rest : list (option error)) :
  CreateOrderRequest.Items req <> [] ->
  (j <= List.length (CreateOrderRequest.Items req) + 1)%nat ->
  faults w = (None :: repeat None j ++ Some e :: rest)%list ->
  let out := logicv1.CreateOrder main.orderService req w in
  fst out = (None, Some e) /\
  tx_released (List.length (txs w)) (snd out) = true /\
  committed (snd out) = committed w /\
  (forall id fs,
      fst (FindByID id (with_faults (snd out) fs))
      = fst (FindByID id (with_faults w fs))) /\
  (forall userID fs,
      fst (FindByUserID userID (with_faults (snd out) fs))
      = fst (FindByUserID userID (with_faults w fs))).
Proof.
  intros NE J F out.
  assert (Core : fst out = (None, Some e) /\
                 tx_released (List.length (txs w)) (snd out) = true /\
                 committed (snd out) = committed w).
  { subst out. rewrite (CreateOrder_nonempty _ _ _ NE).
    cbn [main.orderService logicv1.txManager logicv1.orderRepo Begin
         NewPostgresTransactionManager NewPostgresOrderRepository
         domain.CreateWithTx].
    unfold PostgresTransactionManager_Begin.
    rewrite (pool_Begin_through _ _ F).
    set (t := List.length (txs w)).
    set (w1 := with_txs _ _).
    assert (O1 : tx_is_open t w1 = true) by apply tx_is_open_fresh.
    assert (C1 : committed w1 = committed w) by reflexivity.
    assert (F1 : faults w1 = (repeat None j ++ Some e :: rest)%list) by reflexivity.
    clearbody w1.
    unfold CreateWithTx.
    cbn [asTransaction impl Commit Rollback tx].
    destruct j as [|j]; simpl in F1.
    - (* the insert of the order row fails *)
      rewrite (insert_order_fails t w1 e rest _ _ _ _ _ _ O1 F1).
      destruct (pgxTx_Rollback_open t (with_faults w1 rest)) as [C R];
        [exact O1|].
      cbn [fst snd]. rewrite C. auto.
    - destruct (insert_order_through t w1 _ (Order.UserID (new_order req))
                  (Order.Status (new_order req)) (Order.Subtotal (new_order req))
                  (Order.Shipping (new_order req)) (Order.Total (new_order req))
                  (clock w1) O1 F1)
        as (id & w2 & R2 & C2 & O2 & F2).
      rewrite R2. cbn [Order.Items Order.set_ID].
      destruct (Nat.eq_dec j (List.length (Order.Items (new_order req)))) as [E|NEq].
      + (* every insert goes through and the commit fails *)
        destruct (insert_items_through t id (Order.Items (new_order req)) j
                    (Some e :: rest) w2 O2 F2 E) as (w3 & R3 & C3 & O3 & F3).
        rewrite R3.
        destruct (pgxTx_Commit_fails t w3 e rest O3 F3) as (K & C4 & R4).
        destruct (pgxTx_Commit t w3) as [k w4]. simpl in K, C4, R4. subst k.
        rewrite (pgxTx_Rollback_released t w4 R4). cbn [fst snd].
        repeat split; congruence.
      + (* an insert of an item fails *)
        assert (L : List.length (Order.Items (new_order req))
                    = List.length (CreateOrderRequest.Items req)).
        { destruct (new_order_fields req) as [Hi _]. rewrite Hi.
          apply length_map. }
        destruct (insert_items_fails t id (Order.Items (new_order req)) j e
                    rest w2 O2 F2) as (w3 & R3 & C3 & O3); [lia|].
        rewrite R3.
        destruct (pgxTx_Rollback_open t w3 O3) as [C R].
        cbn [fst snd]. repeat split; congruence. }
  destruct Core as (R & X & C). repeat split; trivial.
  - intros id fs. apply FindByID_view. now split.
  - intros userID fs. apply FindByUserID_view. now split.
Qed.

(** C3, run: the valid order of the unit test against the seeded database,
    with the insert of its second item failing. *)
Lemma create_order_failure_rolls_back_run :
  let w := seed.seeded [None; None; None; Some (External "connection reset")] in
  let out := logicv1.CreateOrder seed.service seed.valid_order w in
  fst out = (None, Some (External "connection reset")) /\
  tx_released (List.length (txs w)) (snd out) = true /\
  committed (snd out) = committed w /\
  (forall id fs,
      fst (FindByID (pg := seed.decimal_server) id (with_faults (snd out) fs))
      = fst (FindByID (pg := seed.decimal_server) id (with_faults w fs))) /\
  (forall userID fs,
      fst (FindByUserID userID (with_faults (snd out) fs))
      = fst (FindByUserID userID (with_faults w fs))).
Proof.
  intros w.
  apply (@create_order_failure_rolls_back
           seed.decimal_server seed.valid_order w 2
           (External "connection reset") []).
  - discriminate.
  - simpl. lia.
  - reflexivity.
Defined.

(** C2.  A request without items is refused with [ErrInvalidOrder], and the
    world comes back as it went in: nothing was asked of the transaction
    manager or of the repository.  On the PostgreSQL wiring this says that
    no transaction was begun, the committed tables and the sequence are
    untouched, and not even a failed call reached the server. *)
Theorem create_order_rejects_empty_request :
  (forall (W T : Type) (s : logicv1.OrderService W T) (userID : string) (w : W),
      logicv1.CreateOrder s (CreateOrderRequest.mk userID []) w
      = ((None, Some logicv1.ErrInvalidOrder), w)) /\
  (forall (pg : PgServer) (userID : string) (w : World),
      let out :=
        logicv1.CreateOrder main.orderService (CreateOrderRequest.mk userID []) w in
      fst out = (None, Some logicv1.ErrInvalidOrder) /\
      txs (snd out) = txs w /\
      committed (snd out) = committed w /\
      orders_id_seq (snd out) = orders_id_seq w /\
      faults (snd out) = faults w).
Proof.
  split.
  - intros W T s userID w. now apply CreateOrder_empty.
  - intros pg userID w out. subst out.
    rewrite CreateOrder_empty by reflexivity. repeat split.
Qed.

(** ** Reading orders *)

Lemma reachable_next (k : nat) (w : World) :
  reachable (S k) w ->
  fst (server_call w) = None /\
  reachable k (snd (server_call w)) /\
  committed (snd (server_call w)) = committed w.
Proof.
  unfold reachable, server_call. destruct (faults w) as [|f fs] eqn:E; simpl.
  - intros _. rewrite E. repeat split. destruct k; constructor.
  - intros F. inversion F; subst. repeat split. assumption.
Qed.

Lemma seeded_reachable (k : nat) (w : World) : faults w = [] -> reachable k w.
Proof. unfold reachable. intros ->. destruct k; constructor. Qed.

Lemma scan_items_spec (rows : list ItemRow) (order : Order.t) :
  scan_items rows order
  = Order.set_Items order (Order.Items order ++ map bought rows)%list.
Proof.
  revert order. induction rows as [|r rest IH]; intros order; simpl.
  - rewrite app_nil_r. now destruct order.
  - rewrite IH. simpl. now rewrite <- app_assoc.
Qed.

Lemma scan_orders_spec (rows : list OrderRow) (acc : list Order.t) :
  scan_orders rows acc = (acc ++ map listed rows)%list.
Proof.
  revert acc. induction rows as [|r rest IH]; intros acc; simpl.
  - now rewrite app_nil_r.
  - rewrite IH, <- app_assoc. reflexivity.
Qed.

(** The sort behind [ORDER BY created_at DESC]. *)
Lemma insert_desc_perm (r : OrderRow) (l : list OrderRow) :
  Permutation (r :: l) (insert_desc r l).
Proof.
  induction l as [|x l IH]; simpl; [reflexivity|].
  destruct (created_at x <? created_at r); [reflexivity|].
  rewrite perm_swap. now constructor.
Qed.

Lemma order_by_created_at_desc_perm (l : list OrderRow) :
  Permutation l (order_by_created_at_desc l).
Proof.
  induction l as [|x l IH]; simpl; [constructor|].
  rewrite <- insert_desc_perm. now constructor.
Qed.

Lemma insert_desc_sorted (r : OrderRow) (l : list OrderRow) :
  newest_first l -> newest_first (insert_desc r l).
Proof.
  unfold newest_first.
  induction l as [|x l IH]; intros S; simpl.
  - constructor; constructor.
  - inversion S as [|? ? Sl Fx]; subst.
    destruct (created_at x <? created_at r) eqn:E.
    + apply Z.ltb_lt in E. constructor; [exact S|].
      constructor; [lia|].
      eapply Forall_impl; [|exact Fx]. simpl. intros; lia.
    + apply Z.ltb_ge in E. constructor; [now apply IH|].
      rewrite <- (insert_desc_perm r l). constructor; [lia | exact Fx].
Qed.

Lemma order_by_created_at_desc_sorted (l : list OrderRow) :
  newest_first (order_by_created_at_desc l).
Proof.
  induction l as [|x l IH]; simpl.
  - constructor.
  - now apply insert_desc_sorted.
Qed.

Section ReadingOrders.
Context {pg : PgServer}.

(** [FindByID] on an id the server reads as [n], with no row under [n]. *)
Lemma FindByID_absent (id : string) (n : Z) (w : World) :
  int4in id = Some n ->
  reachable 1 w ->
  orders_with_id (committed w) n = [] ->
  FindByID id w = ((None, Some ErrNotFound), snd (server_call w)).
Proof.
  intros I R A. destruct (reachable_next _ _ R) as (S & _ & C).
  unfold FindByID, pool_QueryRow_order_by_id.
  destruct (server_call w) as [f w1]. simpl in S, C. subst f. rewrite I.
  unfold orders_with_id in A. rewrite C, A. reflexivity.
Qed.

(** [FindByID] on an id the server cannot read as an integer: the statement
    fails and its error comes back as it is. *)
Lemma FindByID_unreadable (id : string) (w : World) :
  int4in id = None ->
  reachable 1 w ->
  FindByID id w = ((None, Some invalid_integer_text), snd (server_call w)).
Proof.
  intros I R. destruct (reachable_next _ _ R) as (S & _ & _).
  unfold FindByID, pool_QueryRow_order_by_id.
  destruct (server_call w) as [f w1]. simpl in S. subst f. now rewrite I.
Qed.

(** [FindByID] on an id the server reads as [n], with [r] the row found. *)
Lemma FindByID_present (id : string) (n : Z) (w : World) (r : OrderRow)
      (more : list OrderRow) :
  int4in id = Some n ->
  reachable 2 w ->
  orders_with_id (committed w) n = r :: more ->
  fst (FindByID id w) = (Some (stored (committed w) r), None).
Proof.
  intros I R P. destruct (reachable_next _ _ R) as (S & R1 & C).
  unfold FindByID, pool_QueryRow_order_by_id.
  destruct (server_call w) as [f w1]. simpl in S, R1, C. subst f. rewrite I.
  unfold orders_with_id in P. rewrite C, P. simpl.
  destruct (reachable_next _ _ R1) as (S2 & _ & C2).
  unfold pool_Query_items.
  destruct (server_call w1) as [f w2]. simpl in S2, C2. subst f. simpl.
  rewrite scan_items_spec. simpl. unfold stored, items_of.
  now rewrite C2, C.
Qed.

(** [FindByUserID] when the server answers. *)
Lemma FindByUserID_reached (userID : string) (w : World) :
  reachable 1 w ->
  FindByUserID userID w
  = ((map listed (order_by_created_at_desc (orders_of (committed w) userID)),
      None), snd (server_call w)).
Proof.
  intros R. destruct (reachable_next _ _ R) as (S & _ & C).
  unfold FindByUserID, pool_Query_orders_by_user.
  destruct (server_call w) as [f w1]. simpl in S, C. subst f.
  rewrite scan_orders_spec, C. reflexivity.
Qed.

Lemma FindByUserID_no_items (userID : string) (w : World) :
  Forall (fun o => Order.Items o = []) (fst (fst (FindByUserID userID w))).
Proof.
  unfold FindByUserID.
  destruct (pool_Query_orders_by_user userID w) as [[rows|err] w1]; simpl.
  - rewrite scan_orders_spec. simpl. apply Forall_forall.
    intros o I. apply in_map_iff in I. destruct I as (r & <- & _). reflexivity.
  - constructor.
Qed.

End ReadingOrders.

(** [GetOrder] and [ListOrders] over any repository. *)
Section ServiceReads.
Context {W T : Type}.
Variable s : logicv1.OrderService W T.

Lemma GetOrder_not_found (id : string) (w w' : W) (o : option Order.t) (e : error) :
  domain.FindByID (logicv1.orderRepo s) id w = ((o, Some e), w') ->
  errors_Is e ErrNotFound = true ->
  logicv1.GetOrder s id w = ((None, Some ErrOrderNotFound), w').
Proof. intros F I. unfold logicv1.GetOrder. now rewrite F, I. Qed.

Lemma GetOrder_other_error (id : string) (w w' : W) (o : option Order.t) (e : error) :
  domain.FindByID (logicv1.orderRepo s) id w = ((o, Some e), w') ->
  errors_Is e ErrNotFound = false ->
  logicv1.GetOrder s id w = ((None, Some e), w').
Proof. intros F I. unfold logicv1.GetOrder. now rewrite F, I. Qed.

Lemma GetOrder_found (id : string) (w w' : W) (o : option Order.t) :
  domain.FindByID (logicv1.orderRepo s) id w = ((o, None), w') ->
  logicv1.GetOrder s id w = ((o, None), w').
Proof. intros F. unfold logicv1.GetOrder. now rewrite F. Qed.

Lemma GetOrder_never_raw (id : string) (w : W) (e : error) :
  snd (fst (logicv1.GetOrder s id w)) = Some e ->
  errors_Is e ErrNotFound = false.
Proof.
  unfold logicv1.GetOrder.
  destruct (domain.FindByID (logicv1.orderRepo s) id w) as [[o [e'|]] w']; simpl.
  - destruct (errors_Is e' ErrNotFound) eqn:I; simpl; intros E;
      inversion E; subst; trivial.
  - discriminate.
Qed.

Lemma ListOrders_error (userID : string) (w w' : W) (l : list Order.t) (e : error) :
  domain.FindByUserID (logicv1.orderRepo s) userID w = ((l, Some e), w') ->
  logicv1.ListOrders s userID w = (([], Some e), w').
Proof. intros F. unfold logicv1.ListOrders. now rewrite F. Qed.

Lemma ListOrders_ok (userID : string) (w w' : W) (l : list Order.t) :
  domain.FindByUserID (logicv1.orderRepo s) userID w = ((l, None), w') ->
  logicv1.ListOrders s userID w = ((l, None), w').
Proof. intros F. unfold logicv1.ListOrders. now rewrite F. Qed.

End ServiceReads.

Lemma reachable_fewer (k : nat) (w : World) : reachable (S k) w -> reachable k w.
Proof.
  unfold reachable. revert k. induction (faults w) as [|f fs IH]; intros k R.
  - destruct k; constructor.
  - destruct k; [constructor|]. simpl in *. inversion R; subst.
    constructor; [trivial|]. now apply IH.
Qed.

(** C5, as the claim has it, fails: the id "abc" is not present in the
    seeded store, and [GetOrder] answers it with the error of the failed
    statement, which is not [ErrOrderNotFound]: the id goes to the server as
    a text, and the server cannot compare it to the integer column. *)
Lemma get_order_unreadable_id_is_not_order_not_found :
  not_present (committed (seed.seeded [])) "abc" /\
  logicv1.GetOrder seed.service "abc" (seed.seeded [])
  = ((None, Some invalid_integer_text), seed.seeded []) /\
  errors_Is invalid_integer_text ErrOrderNotFound = false.
Proof.
  split; [|split; reflexivity].
  unfold not_present. repeat constructor; discriminate.
Qed.

(** C5, amended.  For an id the server reads as an integer under which the
    store holds no order, [GetOrder] answers [ErrOrderNotFound]; whatever
    the repository and the id, the error [GetOrder] returns is never the
    store's [ErrNotFound] (nor an error wrapping it); and every other
    failure of the store comes back as it is.  On the PostgreSQL wiring: a
    call the server fails with [e] gives [e], and an id the server cannot
    read as an integer gives the error of the failed statement. *)
Theorem get_order_unknown_id_is_order_not_found {pg : PgServer} :
  (forall (id : string) (n : Z) (w : World),
      int4in id = Some n ->
      reachable 1 w ->
      orders_with_id (committed w) n = [] ->
      logicv1.GetOrder main.orderService id w
      = ((None, Some ErrOrderNotFound), snd (server_call w))) /\
  (forall (id : string) (w : World),
      int4in id = None ->
      reachable 1 w ->
      logicv1.GetOrder main.orderService id w
      = ((None, Some invalid_integer_text), snd (server_call w))) /\
  (forall (W T : Type) (s : logicv1.OrderService W T) (id : string) (w : W)
          (e : error),
      snd (fst (logicv1.GetOrder s id w)) = Some e ->
      errors_Is e ErrNotFound = false) /\
  (forall (W T : Type) (s : logicv1.OrderService W T) (id : string) (w w' : W)
          (o : option Order.t) (e : error),
      domain.FindByID (logicv1.orderRepo s) id w = ((o, Some e), w') ->
      errors_Is e ErrNotFound = false ->
      logicv1.GetOrder s id w = ((None, Some e), w')) /\
  (forall (id : string) (w : World) (e : error) (rest : list (option error)),
      faults w = Some e :: rest ->
      errors_Is e pgx_ErrNoRows = false ->
      errors_Is e ErrNotFound = false ->
      logicv1.GetOrder main.orderService id w
      = ((None, Some e), with_faults w rest)).
Proof.
  repeat split.
  - intros id n w I R A.
    apply (GetOrder_not_found main.orderService) with (o := None) (e := ErrNotFound);
      [|reflexivity].
    now apply FindByID_absent with (n := n).
  - intros id w I R.
    apply (GetOrder_other_error main.orderService) with (o := None);
      [|reflexivity].
    now apply FindByID_unreadable.
  - intros W T s id w e. apply GetOrder_never_raw.
  - intros W T s id w w' o e. apply GetOrder_other_error.
  - intros id w e rest F N1 N2.
    apply (GetOrder_other_error main.orderService) with (o := None); [|exact N2].
    cbn [main.orderService logicv1.orderRepo domain.FindByID
         NewPostgresOrderRepository].
    unfold FindByID, pool_QueryRow_order_by_id.
    now rewrite (server_call_next _ _ _ F), N1.
Qed.

(** C5, run: order 9 is not in the seeded database. *)
Lemma get_order_unknown_id_is_order_not_found_run :
  logicv1.GetOrder seed.service "9" (seed.seeded [])
  = ((None, Some ErrOrderNotFound), seed.seeded []).
Proof.
  apply (proj1 (@get_order_unknown_id_is_order_not_found seed.decimal_server)
               "9" 9 (seed.seeded [])).
  - reflexivity.
  - now apply seeded_reachable.
  - reflexivity.
Defined.

(** C9.  When the server answers, [ListOrders] returns the order rows of
    the user, each exactly once, newest first; for a user without orders it
    returns the empty list and no error; and a failure of the store comes
    back as it is, whatever the repository.  On the PostgreSQL wiring: a
    query the server fails with [e] gives [e]. *)
Theorem list_orders_newest_first {pg : PgServer} :
  (forall (userID : string) (w : World),
      reachable 1 w ->
      exists rows,
        fst (logicv1.ListOrders main.orderService userID w)
        = (map listed rows, None) /\
        Permutation (orders_of (committed w) userID) rows /\
        newest_first rows) /\
  (forall (userID : string) (w : World),
      reachable 1 w ->
      orders_of (committed w) userID = [] ->
      fst (logicv1.ListOrders main.orderService userID w) = ([], None)) /\
  (forall (W T : Type) (s : logicv1.OrderService W T) (userID : string)
          (w w' : W) (l : list Order.t) (e : error),
      domain.FindByUserID (logicv1.orderRepo s) userID w = ((l, Some e), w') ->
      logicv1.ListOrders s userID w = (([], Some e), w')) /\
  (forall (userID : string) (w : World) (e : error) (rest : list (option error)),
      faults w = Some e :: rest ->
      logicv1.ListOrders main.orderService userID w
      = (([], Some e), with_faults w rest)).
Proof.
  repeat split.
  - intros userID w R.
    exists (order_by_created_at_desc (orders_of (committed w) userID)).
    rewrite (ListOrders_ok main.orderService userID w _ _ (FindByUserID_reached userID w R)).
    repeat split.
    + apply order_by_created_at_desc_perm.
    + apply order_by_created_at_desc_sorted.
  - intros userID w R E.
    rewrite (ListOrders_ok main.orderService userID w _ _ (FindByUserID_reached userID w R)).
    now rewrite E.
  - intros W T s userID w w' l e. apply ListOrders_error.
  - intros userID w e rest F.
    apply (ListOrders_error main.orderService) with (l := []).
    cbn [main.orderService logicv1.orderRepo domain.FindByUserID
         NewPostgresOrderRepository].
    unfold FindByUserID, pool_Query_orders_by_user.
    now rewrite (server_call_next _ _ _ F).
Qed.

(** C9, run: user 4 of the seeded database has order 3 (day 18) and order 4
    (day 15); user 7 has none. *)
Lemma list_orders_newest_first_run :
  (exists rows,
      fst (logicv1.ListOrders seed.service "4" (seed.seeded []))
      = (map listed rows, None) /\
      Permutation (orders_of (committed (seed.seeded [])) "4") rows /\
      newest_first rows) /\
  fst (logicv1.ListOrders seed.service "7" (seed.seeded [])) = ([], None).
Proof.
  split.
  - apply (proj1 (@list_orders_newest_first seed.decimal_server)
                 "4" (seed.seeded [])).
    now apply seeded_reachable.
  - apply (proj1 (proj2 (@list_orders_newest_first seed.decimal_server))
                 "7" (seed.seeded [])).
    + now apply seeded_reachable.
    + reflexivity.
Defined.

(** C10.  Every order that [ListOrders] returns has no items.  An order
    stored with items comes back from [GetOrder] with these items, and from
    the listing of its owner as the same order without them. *)
Theorem listing_carries_no_items {pg : PgServer} :
  (forall (userID : string) (w : World),
      Forall (fun o => Order.Items o = [])
             (fst (fst (logicv1.ListOrders main.orderService userID w)))) /\
  (forall (id : string) (n : Z) (w : World) (r : OrderRow)
          (more : list OrderRow) (i : ItemRow) (items : list ItemRow),
      int4in id = Some n ->
      reachable 2 w ->
      orders_with_id (committed w) n = r :: more ->
      items_of (committed w) n = i :: items ->
      exists o,
        fst (logicv1.GetOrder main.orderService id w) = (Some o, None) /\
        Order.Items o = bought i :: map bought items /\
        In (Order.set_Items o [])
           (fst (fst (logicv1.ListOrders main.orderService (user_id r) w)))).
Proof.
  split.
  - intros userID w. unfold logicv1.ListOrders.
    pose proof (FindByUserID_no_items userID w) as N.
    cbn [main.orderService logicv1.orderRepo domain.FindByUserID
         NewPostgresOrderRepository].
    destruct (FindByUserID userID w) as [[l [e|]] w1]; simpl in *;
      [constructor | exact N].
  - intros id n w r more i items I R P Q.
    assert (Hr : In r (orders_with_id (committed w) n))
      by (rewrite P; now left).
    apply filter_In in Hr. destruct Hr as [Hin Hid]. apply Z.eqb_eq in Hid.
    exists (stored (committed w) r). repeat split.
    + destruct (FindByID id w) as [[o e] w1] eqn:F.
      pose proof (FindByID_present id n w r more I R P) as E.
      rewrite F in E. simpl in E. inversion E; subst.
      now rewrite (GetOrder_found main.orderService id w w1 _ F).
    + unfold stored. simpl. now rewrite Hid, Q.
    + rewrite (ListOrders_ok main.orderService (user_id r) w _ _
                 (FindByUserID_reached (user_id r) w (reachable_fewer _ _ R))).
      simpl. apply in_map_iff. exists r. split; [reflexivity|].
      apply (Permutation_in _ (order_by_created_at_desc_perm _)).
      apply filter_In. split; [exact Hin | apply String.eqb_refl].
Qed.

(** C10, run: order 3 of the seeded database, with its one item, and the
    listing of its owner, user 4. *)
Lemma listing_carries_no_items_run :
  exists o,
    fst (logicv1.GetOrder seed.service "3" (seed.seeded [])) = (Some o, None) /\
    Order.Items o
    = bought (mkItemRow 3 "1" "Wireless Mouse" 2 29.99 59.98)
      :: map bought [] /\
    In (Order.set_Items o [])
       (fst (fst (logicv1.ListOrders seed.service "4" (seed.seeded [])))).
Proof.
  apply (proj2 (@listing_carries_no_items seed.decimal_server)
               "3" 3 (seed.seeded [])
               (mkOrderRow 3 "4" "pending" 59.98 5.00 64.98 18 18)
               []).
  - reflexivity.
  - now apply seeded_reachable.
  - reflexivity.
  - reflexivity.
Defined.

(** ** The aggregation endpoint *)

Import webv1.

Section Aggregation.
Context {net : Net}.

(** A lookup that finds the shipment unavailable returns no shipment. *)
Lemma GetShipmentByOrderID_unavailable (client : ShippingClient) (orderID : string) :
  shipment_unavailable client orderID ->
  fst (GetShipmentByOrderID client orderID) = None.
Proof.
  intros [e U | e U D | resp U D S | resp U D S | resp e U D S B];
    unfold GetShipmentByOrderID, NewRequestWithContext, shipment_request in *;
    simpl in *; rewrite U; trivial; rewrite D; trivial.
  - now rewrite S.
  - destruct (StatusCode resp =? StatusNotFound); trivial.
    replace (StatusCode resp =? StatusOK) with false; trivial.
    symmetry. now apply Z.eqb_neq.
  - rewrite S. simpl. now rewrite B.
Qed.

(** Once the order is read, the reply is 200 with that order, whatever the
    shipping client does. *)
Lemma GetOrderDetails_found {W T : Type} (g : Globals W T) (h : OrderHandler W T)
      (c : Context) (w w' : W) (order : option Order.t) :
  handler g = Some h ->
  logicv1.GetOrder (orderService h) (Param c "id") w = ((order, None), w') ->
  let out := GetOrderDetails g c w in
  snd out = w' /\
  code (fst (fst out)) = StatusOK /\
  exists shipment,
    obj (fst (fst out)) = J_details (OrderDetailsResponse.mk order shipment) /\
    shipment
    = match shippingClient g with
      | Some client => fst (GetShipmentByOrderID client (Param c "id"))
      | None => None
      end.
Proof.
  intros Hh G. unfold GetOrderDetails. rewrite Hh, G.
  destruct (shippingClient g) as [client|]; simpl.
  - destruct (GetShipmentByOrderID client (Param c "id")) as [shipment [e|]];
      simpl; repeat split; eexists; split; reflexivity.
  - repeat split. eexists; split; reflexivity.
Qed.

End Aggregation.

(** C4.  For an id under which the store holds an order, with the store
    reachable: whatever the shipping service does, [GetOrderDetails] replies
    200 with the stored order; and when the shipment lookup answers "not
    found" or fails in any other way (or no shipping client is set), the
    reply is that order with the shipment absent. *)
Theorem order_details_survive_shipment_failure {pg : PgServer} {net : Net}
        (shipping : option ShippingClient) (cart : option CartClient)
        (c : Context) (w : World) (n : Z) (r : OrderRow) (more : list OrderRow) :
  int4in (Param c "id") = Some n ->
  reachable 2 w ->
  orders_with_id (committed w) n = r :: more ->
  let reply := fst (fst (GetOrderDetails (package shipping cart) c w)) in
  let order := Some (stored (committed w) r) in
  code reply = StatusOK /\
  (exists shipment, obj reply = J_details (OrderDetailsResponse.mk order shipment)) /\
  (forall client,
      shipping = Some client ->
      shipment_unavailable client (Param c "id") ->
      reply = mkReply StatusOK (J_details (OrderDetailsResponse.mk order None))) /\
  (shipping = None ->
   reply = mkReply StatusOK (J_details (OrderDetailsResponse.mk order None))).
Proof.
  intros I R P reply order.
  destruct (logicv1.GetOrder main.orderService (Param c "id") w)
    as [[o e] w1] eqn:G.
  assert (E : (o, e) = (order, None)).
  { pose proof (FindByID_present _ n w r more I R P) as F.
    destruct (FindByID (Param c "id") w) as [[o' e'] w'] eqn:F'.
    simpl in F. inversion F; subst o' e'.
    rewrite (GetOrder_found main.orderService _ w w' _ F') in G.
    now inversion G. }
  inversion E; subst o e.
  destruct (GetOrderDetails_found (package shipping cart)
              (NewOrderHandler main.orderService) c w w1 order eq_refl G)
    as (_ & Hc & shipment & Ho & Hs).
  fold reply in Hc, Ho.
  assert (Shape : reply = mkReply StatusOK
                            (J_details (OrderDetailsResponse.mk order shipment))).
  { destruct reply as [k j]. simpl in Hc, Ho. now subst. }
  repeat split; trivial.
  - now exists shipment.
  - intros client -> U. rewrite Shape, Hs. simpl.
    now rewrite (GetShipmentByOrderID_unavailable client _ U).
  - intros ->. now rewrite Shape, Hs.
Qed.

(** C4, run: the details of order 3 of the seeded database while the
    shipping service times out. *)
Lemma order_details_survive_shipment_failure_run :
  let reply :=
    fst (fst (GetOrderDetails (net := seed.timing_out)
                (package (pg := seed.decimal_server) (Some seed.shipping)
                         (Some seed.cart))
                seed.details_of_order_3 (seed.seeded []))) in
  let order :=
    Some (stored (committed (seed.seeded []))
                 (mkOrderRow 3 "4" "pending" 59.98 5.00 64.98 18 18)) in
  code reply = StatusOK /\
  (exists shipment, obj reply = J_details (OrderDetailsResponse.mk order shipment)) /\
  (forall client,
      Some seed.shipping = Some client ->
      shipment_unavailable (net := seed.timing_out) client
                           (Param seed.details_of_order_3 "id") ->
      reply = mkReply StatusOK (J_details (OrderDetailsResponse.mk order None))) /\
  (Some seed.shipping = None ->
   reply = mkReply StatusOK (J_details (OrderDetailsResponse.mk order None))).
Proof.
  apply (@order_details_survive_shipment_failure
           seed.decimal_server seed.timing_out (Some seed.shipping)
           (Some seed.cart) seed.details_of_order_3 (seed.seeded []) 3
           (mkOrderRow 3 "4" "pending" 59.98 5.00 64.98 18 18) []).
  - reflexivity.
  - now apply seeded_reachable.
  - reflexivity.
Defined.

(** ** The creation endpoint *)

Section Creation.
Context {W T : Type} {net : Net}.
Variable g : Globals W T.
Variable h : OrderHandler W T.

(** The request the handler passes on: the items of the payload under the
    identity of the context. *)
Lemma OrderHandler_CreateOrder_calls (c : Context) (w : W)
      (req : CreateOrderRequest.t) :
  ShouldBindJSON c = inl req ->
  GetString c "user_id" <> "" ->
  let req' := CreateOrderRequest.mk (GetString c "user_id")
                                    (CreateOrderRequest.Items req) in
  let res := logicv1.CreateOrder (orderService h) req' w in
  let out := OrderHandler_CreateOrder g h c w in
  snd out = snd res /\
  match fst res with
  | (order, None) => fst (fst out) = mkReply StatusCreated (J_order order)
  | (_, Some e) =>
      fst (fst out)
      = if errors_Is e logicv1.ErrInvalidOrder
        then mkReply StatusBadRequest (H_error "Invalid order")
        else mkReply StatusInternalServerError (H_error "Internal server error")
  end.
Proof.
  intros B U req' res out. subst out res req'.
  unfold OrderHandler_CreateOrder. rewrite B.
  replace (String.eqb (GetString c "user_id") "") with false
    by (symmetry; now apply String.eqb_neq).
  destruct (logicv1.CreateOrder _ _ w) as [[order [e|]] w1]; simpl.
  - now destruct (errors_Is e logicv1.ErrInvalidOrder).
  - destruct getCartClient as [[client|] warned]; simpl; [|now split].
    now destruct (ClearCart client (GetHeader c "Authorization")).
Qed.

(** Without an identity in the context the service is not called: the reply
    is decided by the body alone and the world stays as it is. *)
Lemma OrderHandler_CreateOrder_anonymous (c : Context) (w : W) :
  GetString c "user_id" = "" ->
  snd (OrderHandler_CreateOrder g h c w) = w /\
  fst (fst (OrderHandler_CreateOrder g h c w))
  = match ShouldBindJSON c with
    | inl _ => mkReply StatusUnauthorized (H_error "Authentication required")
    | inr err =>
        mkReply StatusBadRequest (H_error (sanitizeValidationError (Some err)))
    end.
Proof.
  intros U. unfold OrderHandler_CreateOrder. rewrite U. simpl.
  now destruct (ShouldBindJSON c).
Qed.

End Creation.

(** C7.  Once [CreateOrder] of the service has returned the order (the
    transaction is committed), the handler replies 201 with that order and
    leaves the world as the service left it, whatever the cart client is
    (set or not) and whatever the cart service does; a failed cart clear
    only shows as a warning in the log. *)
Theorem created_order_survives_cart_failure {W T : Type} {net : Net}
        (g : Globals W T) (h : OrderHandler W T) (c : Context) (w w' : W)
        (req : CreateOrderRequest.t) (order : option Order.t) :
  ShouldBindJSON c = inl req ->
  GetString c "user_id" <> "" ->
  logicv1.CreateOrder (orderService h)
    (CreateOrderRequest.mk (GetString c "user_id") (CreateOrderRequest.Items req)) w
  = ((order, None), w') ->
  let out := OrderHandler_CreateOrder g h c w in
  fst (fst out) = mkReply StatusCreated (J_order order) /\
  snd out = w' /\
  (forall client e,
      cartClient g = Some client ->
      ClearCart client (GetHeader c "Authorization") = Some e ->
      snd (fst out)
      = [Info "Order created" None;
         Warn "Best-effort cart clear failed" (Some e)]) /\
  (cartClient g = None ->
   snd (fst out)
   = [Info "Order created" None; Warn "Cart client not initialized" None]).
Proof.
  intros B U R out.
  destruct (OrderHandler_CreateOrder_calls g h c w req B U) as [S F].
  rewrite R in S, F. simpl in S, F. fold out in S, F. repeat split; trivial.
  - intros client e Hc He. subst out. unfold OrderHandler_CreateOrder.
    rewrite B.
    replace (String.eqb (GetString c "user_id") "") with false
      by (symmetry; now apply String.eqb_neq).
    rewrite R. unfold getCartClient. rewrite Hc. simpl. now rewrite He.
  - intros Hc. subst out. unfold OrderHandler_CreateOrder. rewrite B.
    replace (String.eqb (GetString c "user_id") "") with false
      by (symmetry; now apply String.eqb_neq).
    rewrite R. unfold getCartClient. now rewrite Hc.
Qed.

(** C7, run: user 4 checks out against the seeded database while the cart
    service answers 500. *)
Lemma created_order_survives_cart_failure_run :
  let g := package (pg := seed.decimal_server) None (Some seed.cart) in
  let h := NewOrderHandler seed.service in
  let res :=
    logicv1.CreateOrder seed.service
      (CreateOrderRequest.mk "4" (CreateOrderRequest.Items seed.valid_order))
      (seed.seeded []) in
  let out :=
    OrderHandler_CreateOrder (net := seed.answering_500) g h seed.checkout
                             (seed.seeded []) in
  fst (fst out) = mkReply StatusCreated (J_order (fst (fst res))) /\
  snd out = snd res /\
  (forall client e,
      cartClient g = Some client ->
      ClearCart (net := seed.answering_500) client
                (GetHeader seed.checkout "Authorization") = Some e ->
      snd (fst out)
      = [Info "Order created" None;
         Warn "Best-effort cart clear failed" (Some e)]) /\
  (cartClient g = None ->
   snd (fst out)
   = [Info "Order created" None; Warn "Cart client not initialized" None]).
Proof.
  intros g h res.
  apply (@created_order_survives_cart_failure
           World PostgresTransaction seed.answering_500 g h seed.checkout
           (seed.seeded []) (snd res)
           (CreateOrderRequest.mk "1" (CreateOrderRequest.Items seed.valid_order))
           (fst (fst res))).
  - reflexivity.
  - discriminate.
  - vm_compute. reflexivity.
Defined.

(** C6, as the claim has it, fails: a request without identity whose body
    does not bind is answered 400, not 401 (the body is bound before the
    identity is looked at). *)
Lemma create_order_without_identity_can_answer_400 :
  GetString seed.anonymous_garbage "user_id" = "" /\
  fst (fst (OrderHandler_CreateOrder
              (net := seed.timing_out)
              (package (pg := seed.decimal_server) None None)
              (NewOrderHandler seed.service)
              seed.anonymous_garbage (seed.seeded [])))
  = mkReply StatusBadRequest (H_error "unexpected EOF").
Proof. split; reflexivity. Qed.

(** C6, amended.  The user of the payload never reaches the service: two
    bodies that bind and differ in it alone give the same call of the
    service, hence the same outcome.  On the PostgreSQL wiring, an order the
    handler replies 201 with belongs to the identity of the context,
    whatever the body; so two runs under the same context, whatever their
    bodies (one that names another user, one whose user is of a type that
    does not bind, ...), produce orders of the same user whenever both
    produce one.  Without an identity in the context the service is not
    called (the outcome is the same for every service, and the world stays
    as it is), the reply being 401 when the body binds and 400 when it does
    not. *)
Theorem create_order_binds_trusted_identity {net : Net} :
  (forall (W T : Type) (g : Globals W T) (h : OrderHandler W T)
          (params keys headers : list (string * string)) (u1 u2 : string)
          (items : option (list OrderItem.t)) (w : W),
      OrderHandler_CreateOrder g h (mkContext params keys headers (Decoded u1 items)) w
      = OrderHandler_CreateOrder g h (mkContext params keys headers (Decoded u2 items)) w) /\
  (forall (pg : PgServer) (shipping : option ShippingClient)
          (cart : option CartClient) (c : Context) (w : World) (o : Order.t),
      fst (fst (OrderHandler_CreateOrder (package shipping cart)
                  (NewOrderHandler main.orderService) c w))
      = mkReply StatusCreated (J_order (Some o)) ->
      Order.UserID o = GetString c "user_id" /\ GetString c "user_id" <> "") /\
  (forall (pg : PgServer) (shipping : option ShippingClient)
          (cart : option CartClient)
          (params keys headers : list (string * string))
          (body1 body2 : RequestBody) (w1 w2 : World) (o1 o2 : Order.t),
      fst (fst (OrderHandler_CreateOrder (package shipping cart)
                  (NewOrderHandler main.orderService)
                  (mkContext params keys headers body1) w1))
      = mkReply StatusCreated (J_order (Some o1)) ->
      fst (fst (OrderHandler_CreateOrder (package shipping cart)
                  (NewOrderHandler main.orderService)
                  (mkContext params keys headers body2) w2))
      = mkReply StatusCreated (J_order (Some o2)) ->
      Order.UserID o1 = Order.UserID o2 /\
      Order.UserID o1 = lookup "user_id" keys) /\
  (forall (W T : Type) (g : Globals W T) (h h' : OrderHandler W T)
          (c : Context) (w : W),
      GetString c "user_id" = "" ->
      OrderHandler_CreateOrder g h c w = OrderHandler_CreateOrder g h' c w /\
      snd (OrderHandler_CreateOrder g h c w) = w /\
      code (fst (fst (OrderHandler_CreateOrder g h c w)))
      = match ShouldBindJSON c with
        | inl _ => StatusUnauthorized
        | inr _ => StatusBadRequest
        end).
Proof.
  assert (Owner : forall (pg : PgServer) (shipping : option ShippingClient)
                         (cart : option CartClient) (c : Context) (w : World)
                         (o : Order.t),
             fst (fst (OrderHandler_CreateOrder (package shipping cart)
                         (NewOrderHandler main.orderService) c w))
             = mkReply StatusCreated (J_order (Some o)) ->
             Order.UserID o = GetString c "user_id" /\
             GetString c "user_id" <> "").
  { intros pg shipping cart c w o. unfold OrderHandler_CreateOrder.
    destruct (ShouldBindJSON c) as [req|err]; [|discriminate].
    destruct (String.eqb (GetString c "user_id") "") eqn:U; [discriminate|].
    apply String.eqb_neq in U.
    destruct (logicv1.CreateOrder _ _ w) as [[order [e|]] w1] eqn:R.
    + destruct (errors_Is e logicv1.ErrInvalidOrder); discriminate.
    + destruct getCartClient as [client warned].
      simpl. intros E. inversion E; subst order. split; [|exact U].
      now destruct (CreateOrder_ok_fields _ _ _ _ _
                      postgres_assigns_only_the_id R) as (_ & _ & _ & _ & I & _). }
  split; [|split; [|split]].
  - intros W T g h params keys headers u1 u2 items w.
    unfold OrderHandler_CreateOrder, ShouldBindJSON. simpl.
    now destruct items.
  - exact Owner.
  - intros pg shipping cart params keys headers body1 body2 w1 w2 o1 o2 E1 E2.
    destruct (Owner pg shipping cart _ _ _ E1) as [I1 _].
    destruct (Owner pg shipping cart _ _ _ E2) as [I2 _].
    unfold GetString in I1, I2. cbn [Keys] in I1, I2.
    split; [now rewrite I1, I2 | exact I1].
  - intros W T g h h' c w U.
    destruct (OrderHandler_CreateOrder_anonymous g h c w U) as [S E].
    repeat split; trivial.
    + unfold OrderHandler_CreateOrder. rewrite U. simpl.
      now destruct (ShouldBindJSON c).
    + rewrite E. now destruct (ShouldBindJSON c).
Qed.

(** C6, run: the check-out of user 4, whose payload names user 1, creates
    an order of user 4. *)
Lemma create_order_binds_trusted_identity_run :
  Order.UserID
    (Order.mk "6" "4" "pending"
       [OrderItem.mk "p1" "Product p1" 2 10 20;
        OrderItem.mk "p2" "Product p2" 1 5 5] 25 5 30 0)
  = GetString seed.checkout "user_id" /\
  GetString seed.checkout "user_id" <> "".
Proof.
  apply (proj1 (proj2 (@create_order_binds_trusted_identity seed.answering_500))
               seed.decimal_server None (Some seed.cart) seed.checkout
               (seed.seeded [])).
  vm_compute. reflexivity.
Defined.

(** ** Binary64 arithmetic on values that are not negative *)

Lemma nonnegative_spec (x : float) :
  nonnegative x <-> SF_nonneg (Prim2SF x) = true.
Proof.
  unfold nonnegative. rewrite FloatAxioms.leb_spec.
  change (Prim2SF 0) with (S754_zero false).
  destruct (Prim2SF x) as [s|s| |s m e]; try destruct s;
    unfold SFleb, SFcompare, SF_nonneg; simpl; split; congruence.
Qed.

(** Shifting a mantissa to the right: one digit less at each step, and the
    mantissa never turns negative. *)
Lemma shr_1_digits (mrs : shr_record) :
  0 <= shr_m mrs ->
  0 <= shr_m (shr_1 mrs) /\
  Zdigits2 (shr_m (shr_1 mrs)) = Z.max 0 (Zdigits2 (shr_m mrs) - 1).
Proof.
  destruct mrs as [m r s].
  destruct m as [|[p|p|]|p]; cbn [shr_1 shr_m Zdigits2 digits2_pos]; intros N;
    try lia; split; rewrite ?Pos2Z.inj_succ; lia.
Qed.

Lemma iter_shr_1_digits (q : positive) (mrs : shr_record) :
  0 <= shr_m mrs ->
  0 <= shr_m (iter_pos shr_1 q mrs) /\
  Zdigits2 (shr_m (iter_pos shr_1 q mrs))
  = Z.max 0 (Zdigits2 (shr_m mrs) - Zpos q).
Proof.
  revert mrs. induction q as [q IH|q IH|]; intros mrs N; simpl.
  - destruct (shr_1_digits mrs N) as [N1 D1].
    destruct (IH _ N1) as [N2 D2]. destruct (IH _ N2) as [N3 D3].
    split; [exact N3|]. rewrite D3, D2, D1. lia.
  - destruct (IH _ N) as [N2 D2]. destruct (IH _ N2) as [N3 D3].
    split; [exact N3|]. rewrite D3, D2. lia.
  - apply shr_1_digits, N.
Qed.

Lemma shr_record_of_loc_m (m : Z) (l : location) :
  shr_m (shr_record_of_loc m l) = m.
Proof. now destruct l as [|[]]. Qed.

Lemma Zdigits2_nonneg (m : Z) : 0 <= Zdigits2 m.
Proof. destruct m; simpl; lia. Qed.

(** The shift that brings a mantissa within the precision. *)
Lemma shr_fexp_nonneg (m e : Z) (l : location) :
  0 <= m -> 0 <= shr_m (fst (shr_fexp prec emax m e l)).
Proof.
  intros N. unfold shr_fexp, shr.
  destruct (fexp prec emax (Zdigits2 m + e) - e) as [|q|q]; simpl;
    rewrite ?shr_record_of_loc_m; trivial.
  apply iter_shr_1_digits. now rewrite shr_record_of_loc_m.
Qed.

Lemma shr_fexp_digits (m e : Z) (l : location) :
  0 <= m -> -1074 <= e ->
  Zdigits2 (shr_m (fst (shr_fexp prec emax m e l))) = Z.min (Zdigits2 m) 53 /\
  snd (shr_fexp prec emax m e l) = e + Z.max 0 (Zdigits2 m - 53).
Proof.
  intros N E. unfold shr_fexp, shr.
  pose proof (Zdigits2_nonneg m) as D.
  assert (F : fexp prec emax (Zdigits2 m + e) - e = Z.max (Zdigits2 m - 53) (-1074 - e)).
  { unfold fexp, emin, prec, emax. lia. }
  rewrite F.
  destruct (Z.max (Zdigits2 m - 53) (-1074 - e)) as [|q|q] eqn:Q; simpl;
    rewrite ?shr_record_of_loc_m; try lia.
  destruct (iter_shr_1_digits q (shr_record_of_loc m l)) as [_ D'];
    [now rewrite shr_record_of_loc_m|].
  rewrite D', shr_record_of_loc_m. lia.
Qed.

Lemma round_nearest_even_nonneg (m : Z) (l : location) :
  0 <= m -> 0 <= round_nearest_even m l.
Proof.
  intros N. destruct l as [|[]]; simpl; try destruct (Z.even m); lia.
Qed.

Lemma digits2_pos_succ (p : positive) :
  (Zpos (digits2_pos (Pos.succ p)) <= Zpos (digits2_pos p) + 1).
Proof.
  induction p as [p IH|p IH|]; simpl; lia.
Qed.

Lemma round_nearest_even_digits (m : Z) (l : location) :
  0 <= m ->
  Zdigits2 m <= Zdigits2 (round_nearest_even m l) <= Zdigits2 m + 1.
Proof.
  intros N.
  assert (S : Zdigits2 m <= Zdigits2 (m + 1) <= Zdigits2 m + 1).
  { destruct m as [|p|p]; simpl; try lia.
    rewrite Pos.add_1_r. pose proof (digits2_pos_succ p).
    assert (Zpos (digits2_pos p) <= Zpos (digits2_pos (Pos.succ p))); [|lia].
    clear. induction p as [p IH|p IH|]; simpl; lia. }
  destruct l as [|[]]; simpl; try destruct (Z.even m); lia.
Qed.

(** Rounding a mantissa that is not negative never gives a negative number
    or a NaN. *)
Lemma binary_round_aux_nonneg (mx ex : Z) (lx : location) :
  0 <= mx -> SF_nonneg (binary_round_aux prec emax false mx ex lx) = true.
Proof.
  intros N. unfold binary_round_aux.
  pose proof (shr_fexp_nonneg mx ex lx N) as N1.
  destruct (shr_fexp prec emax mx ex lx) as [mrs' e']. cbn [fst snd] in N1.
  pose proof (shr_fexp_nonneg _ e' loc_Exact
                (round_nearest_even_nonneg _ (loc_of_shr_record mrs') N1)) as N2.
  destruct (shr_fexp prec emax _ e' loc_Exact) as [mrs'' e'']. cbn [fst snd] in N2.
  destruct (shr_m mrs'') as [|m|m]; trivial; [|lia].
  now destruct (e'' <=? emax - prec).
Qed.

(** Rounding a positive mantissa, when no underflow or overflow is near,
    gives a positive finite number. *)
Lemma binary_round_aux_positive (m : positive) (e : Z) (l : location) :
  -1074 <= e ->
  e + Z.max 0 (Zpos (digits2_pos m) - 53) + 1 <= 971 ->
  SF_positive_finite (binary_round_aux prec emax false (Zpos m) e l) = true.
Proof.
  intros E B. unfold binary_round_aux.
  assert (N : 0 <= Zpos m) by lia.
  pose proof (shr_fexp_nonneg _ e l N) as N1.
  destruct (shr_fexp_digits _ e l N E) as [D1 E1].
  destruct (shr_fexp prec emax (Zpos m) e l) as [mrs' e']. cbn [fst snd Zdigits2] in N1, D1, E1.
  set (m2 := round_nearest_even (shr_m mrs') (loc_of_shr_record mrs')).
  assert (N2 : 0 <= m2) by now apply round_nearest_even_nonneg.
  pose proof (round_nearest_even_digits _ (loc_of_shr_record mrs') N1) as D2.
  fold m2 in D2.
  pose proof (shr_fexp_nonneg _ e' loc_Exact N2) as N3.
  destruct (shr_fexp_digits m2 e' loc_Exact N2) as [D3 E3]; [lia|].
  destruct (shr_fexp prec emax m2 e' loc_Exact) as [mrs'' e'']. cbn [fst snd] in N3, D3, E3.
  destruct (shr_m mrs'') as [|m3|m3]; cbn [Zdigits2] in D3; try lia.
  replace (e'' <=? emax - prec) with true; [reflexivity|].
  symmetry. apply Z.leb_le. unfold emax, prec. lia.
Qed.

Lemma binary_round_nonneg (m : positive) (e : Z) :
  SF_nonneg (binary_round prec emax false m e) = true.
Proof.
  unfold binary_round. destruct (shl_align m e _) as [mz ez].
  apply binary_round_aux_nonneg. lia.
Qed.

Lemma binary_normalize_nonneg (m e : Z) :
  0 <= m -> SF_nonneg (binary_normalize prec emax m e false) = true.
Proof.
  intros N. destruct m as [|m|m]; simpl; trivial; [|lia].
  apply binary_round_nonneg.
Qed.

(** The digits of a positive number: as many as its size in bits. *)
Lemma digits2_pos_lower (p : positive) : 2 ^ (Zpos (digits2_pos p) - 1) <= Zpos p.
Proof.
  induction p as [p IH|p IH|]; cbn [digits2_pos];
    rewrite ?Pos2Z.inj_succ, ?Z.sub_succ_l, ?Z.pow_succ_r; try lia;
    simpl; lia.
Qed.

Lemma digits2_pos_below (p : positive) (k : Z) :
  0 <= k -> Zpos p < 2 ^ k -> Zpos (digits2_pos p) <= k.
Proof.
  intros K B. pose proof (digits2_pos_lower p) as L.
  destruct (Z_le_gt_dec (Zpos (digits2_pos p)) k) as [|G]; trivial.
  assert (2 ^ k <= 2 ^ (Zpos (digits2_pos p) - 1)); [|lia].
  apply Z.pow_le_mono_r; lia.
Qed.

Lemma digits2_pos_iter_xO (p d : positive) :
  Zpos (digits2_pos (Pos.iter xO p d)) = Zpos (digits2_pos p) + Zpos d.
Proof.
  induction d as [|d IH] using Pos.peano_ind.
  - simpl. lia.
  - rewrite Pos.iter_succ. cbn [digits2_pos]. lia.
Qed.

(** An integer between 1 and 2^63 - 1 rounds to a positive finite number. *)
Lemma binary_round_of_int63 (p : positive) :
  Zpos p < 2 ^ 63 ->
  SF_positive_finite (binary_round prec emax false p 0) = true.
Proof.
  intros B. pose proof (digits2_pos_below p 63 ltac:(lia) B) as D.
  unfold binary_round, shl_align.
  assert (F : fexp prec emax (Zpos (digits2_pos p) + 0) - 0
              = Zpos (digits2_pos p) - 53).
  { unfold fexp, emin, prec, emax. lia. }
  rewrite F.
  destruct (Zpos (digits2_pos p) - 53) as [|d|d] eqn:S.
  - apply binary_round_aux_positive; lia.
  - apply binary_round_aux_positive; lia.
  - assert (F' : fexp prec emax (Zpos (digits2_pos p) + 0) = Zneg d).
    { unfold fexp, emin, prec, emax. lia. }
    rewrite F'. apply binary_round_aux_positive; [lia|].
    rewrite digits2_pos_iter_xO. lia.
Qed.

Lemma float64_of_int_positive (q : Z) :
  0 < q < 2 ^ 63 ->
  SF_positive_finite (Prim2SF (float64_of_int q)) = true.
Proof.
  intros [L U]. unfold float64_of_int.
  replace (0 <=? q) with true by (symmetry; apply Z.leb_le; lia).
  rewrite of_uint63_spec, Uint63.of_Z_spec.
  change wB with (2 ^ 63). rewrite Z.mod_small by lia.
  destruct q as [|p|p]; try lia. simpl.
  now apply binary_round_of_int63.
Qed.

Lemma SFmul_nonneg (x y : spec_float) :
  SF_nonneg x = true -> SF_positive_finite y = true ->
  SF_nonneg (SFmul prec emax x y) = true.
Proof.
  destruct y as [sy|sy| |[|] my ey]; try discriminate. intros X _.
  destruct x as [sx|[|]| |[|] mx ex]; try discriminate; trivial.
  apply binary_round_aux_nonneg. lia.
Qed.

Lemma SFadd_nonneg (x y : spec_float) :
  SF_nonneg x = true -> SF_nonneg y = true ->
  SF_nonneg (SFadd prec emax x y) = true.
Proof.
  destruct x as [[|]|[|]| |[|] mx ex]; try discriminate;
    destruct y as [[|]|[|]| |[|] my ey]; try discriminate; trivial.
  intros _ _. unfold SFadd. apply binary_normalize_nonneg. simpl. lia.
Qed.

Lemma nonnegative_zero : nonnegative 0%float.
Proof. reflexivity. Qed.

Lemma nonnegative_add (x y : float) :
  nonnegative x -> nonnegative y -> nonnegative (x + y)%float.
Proof.
  rewrite !nonnegative_spec, FloatAxioms.add_spec. apply SFadd_nonneg.
Qed.

Lemma nonnegative_line_total (item : OrderItem.t) :
  well_formed item -> nonnegative (line_total item).
Proof.
  intros [Q P]. unfold line_total.
  rewrite nonnegative_spec in *. rewrite FloatAxioms.mul_spec.
  apply SFmul_nonneg; [exact P|]. now apply float64_of_int_positive.
Qed.

Lemma nonnegative_fold (l : list float) (acc : float) :
  Forall nonnegative l -> nonnegative acc ->
  nonnegative (fold_left PrimFloat.add l acc).
Proof.
  revert acc. induction l as [|x l IH]; intros acc F A; simpl; trivial.
  inversion F; subst. apply IH; trivial. now apply nonnegative_add.
Qed.

(** C8, as the claim has it, fails: [CreateOrder] checks neither quantities
    nor prices.  An item of quantity -1 goes through, on the service of the
    unit test and on the PostgreSQL wiring alike, and its order has the
    subtotal -10. *)
Lemma create_order_accepts_negative_quantity :
  let req := CreateOrderRequest.mk "user1" [OrderItem.mk "p1" "" (-1) 10 0] in
  fst (logicv1.CreateOrder seed.test_service req [])
  = (Some (Order.mk "" "user1" "pending"
             [OrderItem.mk "p1" "Product p1" (-1) 10 (-10)] (-10) 5 (-5) 0),
     None) /\
  fst (logicv1.CreateOrder seed.service req (seed.seeded []))
  = (Some (Order.mk "6" "user1" "pending"
             [OrderItem.mk "p1" "Product p1" (-1) 10 (-10)] (-10) 5 (-5) 0),
     None).
Proof. split; vm_compute; reflexivity. Qed.

(** C8, amended.  An order that [CreateOrder] returns carries the
    quantities and prices of the request as they are.  So when every
    requested item has a positive quantity and a price that is not
    negative, so has every item of the order, and the subtotal of every item
    and of the order is not negative. *)
Theorem create_order_keeps_quantities_and_prices {pg : PgServer}
        (req : CreateOrderRequest.t) (w w' : World) (o : Order.t) :
  logicv1.CreateOrder main.orderService req w = ((Some o, None), w') ->
  Forall2 (fun requested created =>
             OrderItem.Quantity created = OrderItem.Quantity requested /\
             OrderItem.Price created = OrderItem.Price requested)
          (CreateOrderRequest.Items req) (Order.Items o) /\
  (Forall well_formed (CreateOrderRequest.Items req) ->
   Forall (fun item => well_formed item /\ nonnegative (OrderItem.Subtotal item))
          (Order.Items o) /\
   nonnegative (Order.Subtotal o)).
Proof.
  intros R.
  destruct (CreateOrder_ok_fields _ _ _ _ _ postgres_assigns_only_the_id R)
    as (Hs & _ & _ & _ & _ & Hi).
  rewrite Hs, Hi. clear. split.
  - induction (CreateOrderRequest.Items req) as [|item rest IH]; simpl;
      constructor; auto.
  - intros WF. split.
    + induction WF as [|item rest Wi _ IH]; simpl; constructor; trivial.
      split; [exact Wi|]. now apply nonnegative_line_total.
    + apply nonnegative_fold; [|exact nonnegative_zero].
      induction WF as [|item rest Wi _ IH]; simpl; constructor; trivial.
      now apply nonnegative_line_total.
Qed.

(** C8, run: the valid order of the unit test. *)
Lemma create_order_keeps_quantities_and_prices_run :
  let o := Order.mk "6" "user1" "pending"
             [OrderItem.mk "p1" "Product p1" 2 10 20;
              OrderItem.mk "p2" "Product p2" 1 5 5] 25 5 30 0 in
  Forall2 (fun requested created =>
             OrderItem.Quantity created = OrderItem.Quantity requested /\
             OrderItem.Price created = OrderItem.Price requested)
          (CreateOrderRequest.Items seed.valid_order) (Order.Items o) /\
  (Forall well_formed (CreateOrderRequest.Items seed.valid_order) ->
   Forall (fun item => well_formed item /\ nonnegative (OrderItem.Subtotal item))
          (Order.Items o) /\
   nonnegative (Order.Subtotal o)).
Proof.
  intro o.
  apply (@create_order_keeps_quantities_and_prices
           seed.decimal_server seed.valid_order (seed.seeded [])
           (snd (logicv1.CreateOrder seed.service seed.valid_order
                                     (seed.seeded []))) o).
  vm_compute. reflexivity.
Defined.

(** The items of the valid order are well formed, so the second part of C8
    applies to it. *)
Lemma valid_order_well_formed :
  Forall well_formed (CreateOrderRequest.Items seed.valid_order).
Proof.
  repeat constructor; simpl; lia.
Qed.

(** * Further properties of the code *)

(** ** A creation that goes through *)

Lemma reachable_call (k : nat) (w : World) :
  reachable (S k) w ->
  exists w', server_call w = (None, w') /\ reachable k w' /\ kept w w'.
Proof.
  unfold reachable, server_call, kept.
  destruct (faults w) as [|f fs] eqn:E; simpl; intros R.
  - exists w. rewrite E. repeat split. destruct k; constructor.
  - inversion R; subst. eexists. repeat split. assumption.
Qed.

Lemma reachable_same_faults (k : nat) (w w' : World) :
  faults w' = faults w -> reachable k w -> reachable k w'.
Proof. unfold reachable. now intros ->. Qed.

Lemma tx_is_open_writing (t : nat) (tb : Tables) (w : World) :
  nth_error (txs w) t = Some (writing tb) -> tx_is_open t w = true.
Proof. unfold tx_is_open. now intros ->. Qed.

Section CreationGoesThrough.
Context {pg : PgServer}.

Lemma pool_Begin_reached (k : nat) (w : World) :
  reachable (S k) w ->
  exists w',
    pool_Begin w = (inl (List.length (txs w)), w') /\
    nth_error (txs w') (List.length (txs w)) = Some (writing (mkTables [] [])) /\
    kept_outside w w' /\
    orders_id_seq w' = orders_id_seq w /\
    reachable k w'.
Proof.
  intros R. destruct (reachable_call k w R) as (w1 & Sc & R1 & C & Q & X & K).
  unfold pool_Begin. rewrite Sc, X. eexists. split; [reflexivity|].
  simpl. rewrite nth_error_fresh. repeat split; trivial.
Qed.

Lemma tx_insert_order_reached (t : nat) (tb : Tables) (k : nat) (w : World)
      (u st : string) (sb sh tt : float) (ca : Z) :
  nth_error (txs w) t = Some (writing tb) ->
  reachable (S k) w ->
  exists w',
    pgxTx_QueryRow_insert_order t u st sb sh tt ca w
    = ((orders_id_seq w + 1, None), w') /\
    nth_error (txs w') t
    = Some (writing
              (mkTables (orders tb
                         ++ [mkOrderRow (orders_id_seq w + 1) u st sb sh tt ca
                                        (clock w)])%list
                        (order_items tb))) /\
    kept_outside w w' /\
    orders_id_seq w' = orders_id_seq w + 1 /\
    reachable k w'.
Proof.
  intros N R. destruct (reachable_call k w R) as (w1 & Sc & R1 & C & Q & X & K).
  unfold pgxTx_QueryRow_insert_order, insert_order_row.
  rewrite (tx_is_open_writing t tb w N), Sc, Q, K.
  eexists. split; [reflexivity|]. unfold write_order_tx. simpl.
  rewrite nth_error_update_nth, Nat.eqb_refl, X, N. repeat split; trivial.
Qed.

Lemma tx_insert_items_reached (t : nat) (id : Z) (items : list OrderItem.t) :
  forall (tb : Tables) (k : nat) (w : World),
    nth_error (txs w) t = Some (writing tb) ->
    reachable (List.length items + k) w ->
    exists w',
      insert_items (pgxTx_Exec_insert_item t) id items w = (None, w') /\
      nth_error (txs w') t
      = Some (writing (mkTables (orders tb)
                                (order_items tb ++ map (item_row id) items)%list)) /\
      kept_outside w w' /\
      orders_id_seq w' = orders_id_seq w /\
      reachable k w'.
Proof.
  induction items as [|item rest IH]; intros tb k w N R.
  - exists w. simpl. rewrite app_nil_r. destruct tb. repeat split; trivial.
  - simpl in R. destruct (reachable_call _ w R) as (w1 & Sc & R1 & C & Q & X & K).
    simpl. unfold pgxTx_Exec_insert_item at 1, insert_item_row.
    rewrite (tx_is_open_writing t tb w N), Sc.
    match goal with |- context [insert_items _ _ _ ?w2] =>
      destruct (IH (mkTables (orders tb)
                             (order_items tb ++ [item_row id item])%list) k w2)
        as (w' & I & N' & [C' K'] & Q' & R')
    end.
    + unfold write_item_tx. simpl.
      rewrite nth_error_update_nth, Nat.eqb_refl, X, N. reflexivity.
    + exact R1.
    + exists w'. rewrite I. split; [reflexivity|].
      simpl in N', C', K', Q'. rewrite <- app_assoc in N'. simpl in N'.
      repeat split; congruence.
Qed.

Lemma pgxTx_Commit_reached (t : nat) (tb : Tables) (k : nat) (w : World) :
  nth_error (txs w) t = Some (writing tb) ->
  reachable (S k) w ->
  exists w',
    pgxTx_Commit t w = (None, w') /\
    committed w'
    = mkTables (orders (committed w) ++ orders tb)%list
               (order_items (committed w) ++ order_items tb)%list /\
    tx_released t w' = true /\
    orders_id_seq w' = orders_id_seq w /\
    clock w' = clock w /\
    reachable k w'.
Proof.
  intros N R. destruct (reachable_call k w R) as (w1 & Sc & R1 & C & Q & X & K).
  unfold pgxTx_Commit. rewrite N. simpl. rewrite Sc. eexists.
  split; [reflexivity|]. simpl. rewrite C. repeat split; trivial.
  unfold tx_released. simpl.
  now rewrite nth_error_update_nth, Nat.eqb_refl, X, N.
Qed.

(** The whole of a creation that the server lets through. *)
Lemma CreateOrder_reached (req : CreateOrderRequest.t) (k : nat) (w : World) :
  CreateOrderRequest.Items req <> [] ->
  reachable (List.length (CreateOrderRequest.Items req) + 3 + k) w ->
  let id := orders_id_seq w + 1 in
  let o := Order.set_ID (new_order req) (Itoa id) in
  let out := logicv1.CreateOrder main.orderService req w in
  fst out = (Some o, None) /\
  committed (snd out)
  = mkTables (orders (committed w) ++ [order_row id o (clock w)])%list
             (order_items (committed w)
              ++ map (item_row id) (Order.Items o))%list /\
  tx_released (List.length (txs w)) (snd out) = true /\
  orders_id_seq (snd out) = id /\
  clock (snd out) = clock w /\
  reachable k (snd out).
Proof.
  intros NE R id o out. subst out.
  assert (L : List.length (Order.Items (new_order req))
              = List.length (CreateOrderRequest.Items req)).
  { destruct (new_order_fields req) as [Hi _]. rewrite Hi. apply length_map. }
  replace (List.length (CreateOrderRequest.Items req) + 3 + k)%nat
    with (S (S (List.length (Order.Items (new_order req)) + S k))) in R by lia.
  rewrite (CreateOrder_nonempty _ _ _ NE).
  cbn [main.orderService logicv1.txManager logicv1.orderRepo Begin
       NewPostgresTransactionManager NewPostgresOrderRepository
       domain.CreateWithTx].
  unfold PostgresTransactionManager_Begin.
  destruct (pool_Begin_reached _ w R) as (w1 & B & N1 & [C1 K1] & Q1 & R1).
  rewrite B. set (t := List.length (txs w)) in *.
  unfold CreateWithTx. cbn [asTransaction impl Commit Rollback tx].
  destruct (tx_insert_order_reached t _ _ w1
              (Order.UserID (new_order req)) (Order.Status (new_order req))
              (Order.Subtotal (new_order req)) (Order.Shipping (new_order req))
              (Order.Total (new_order req)) (clock w1) N1 R1)
    as (w2 & I2 & N2 & [C2 K2] & Q2 & R2).
  rewrite I2. cbn [Order.Items Order.set_ID].
  destruct (tx_insert_items_reached t (orders_id_seq w1 + 1)
              (Order.Items (new_order req)) _ _ w2 N2 R2)
    as (w3 & I3 & N3 & [C3 K3] & Q3 & R3).
  rewrite I3.
  destruct (pgxTx_Commit_reached t _ k w3 N3 R3)
    as (w4 & I4 & C4 & X4 & Q4 & K4 & R4).
  rewrite I4. rewrite (pgxTx_Rollback_released t w4 X4). cbn [fst snd].
  subst id o. rewrite Q1 in *. rewrite K1 in *.
  repeat split; trivial; try congruence.
  rewrite C4. simpl. rewrite C3, C2, C1. reflexivity.
Qed.

End CreationGoesThrough.



(** X1.  When the server answers, [CreateOrder] on a request with items
    succeeds: the order gets the next value of the sequence as its id, the
    committed tables grow by exactly one order row and one item row for each
    requested item, in the order of the request, and the transaction is
    closed. *)
Theorem create_order_persists_the_order {pg : PgServer}
        (req : CreateOrderRequest.t) (w : World) :
  CreateOrderRequest.Items req <> [] ->
  reachable (List.length (CreateOrderRequest.Items req) + 3) w ->
  let id := orders_id_seq w + 1 in
  let out := logicv1.CreateOrder main.orderService req w in
  exists o,
    fst out = (Some o, None) /\
    Order.ID o = Itoa id /\
    List.length (Order.Items o) = List.length (CreateOrderRequest.Items req) /\
    committed (snd out)
    = mkTables (orders (committed w) ++ [order_row id o (clock w)])%list
               (order_items (committed w)
                ++ map (item_row id) (Order.Items o))%list /\
    tx_released (List.length (txs w)) (snd out) = true.
Proof.
  intros NE R id out.
  rewrite <- (Nat.add_0_r (_ + 3)) in R.
  destruct (CreateOrder_reached req 0 w NE R) as (F & C & X & _).
  exists (Order.set_ID (new_order req) (Itoa id)). repeat split; trivial.
  simpl. destruct (new_order_fields req) as [Hi _]. rewrite Hi.
  apply length_map.
Qed.

(** X1, run: the valid order of the unit test against the seeded
    database. *)
Lemma create_order_persists_the_order_run :
  let w := seed.seeded [] in
  let out := logicv1.CreateOrder seed.service seed.valid_order w in
  exists o,
    fst out = (Some o, None) /\
    Order.ID o = Itoa (orders_id_seq w + 1) /\
    List.length (Order.Items o)
    = List.length (CreateOrderRequest.Items seed.valid_order) /\
    committed (snd out)
    = mkTables (orders (committed w)
                ++ [order_row (orders_id_seq w + 1) o (clock w)])%list
               (order_items (committed w)
                ++ map (item_row (orders_id_seq w + 1)) (Order.Items o))%list /\
    tx_released (List.length (txs w)) (snd out) = true.
Proof.
  intros w.
  apply (@create_order_persists_the_order seed.decimal_server
                                          seed.valid_order w).
  - discriminate.
  - now apply seeded_reachable.
Defined.



(** X3.  When the transaction cannot begin, [CreateOrder] returns the error
    of [Begin] after that one call: no transaction exists, nothing is rolled
    back, and nothing else of the world has changed. *)
Theorem create_order_begin_failure {pg : PgServer}
        (req : CreateOrderRequest.t) (w : World) (e : error)
        (rest : list (option error)) :
  CreateOrderRequest.Items req <> [] ->
  faults w = Some e :: rest ->
  logicv1.CreateOrder main.orderService req w
  = ((None, Some e), with_faults w rest).
Proof.
  intros NE F. rewrite (CreateOrder_nonempty _ _ _ NE).
  cbn [main.orderService logicv1.txManager Begin NewPostgresTransactionManager].
  unfold PostgresTransactionManager_Begin, pool_Begin.
  now rewrite (server_call_next _ _ _ F).
Qed.

(** X3, run: the pool has no connection left. *)
Lemma create_order_begin_failure_run :
  logicv1.CreateOrder seed.service seed.valid_order
    (seed.seeded [Some (External "too many connections")])
  = ((None, Some (External "too many connections")), seed.seeded []).
Proof.
  apply (@create_order_begin_failure seed.decimal_server seed.valid_order
           (seed.seeded [Some (External "too many connections")])).
  - discriminate.
  - reflexivity.
Defined.

(** ** A creation outside a transaction *)

Lemma pool_insert_items_partial (id : Z) (items : list OrderItem.t) :
  forall (k : nat) (w : World) (e : error) (rest : list (option error)),
    faults w = (repeat None k ++ Some e :: rest)%list ->
    (k < List.length items)%nat ->
    exists w',
      insert_items (insert_item_row write_item_pool) id items w = (Some e, w') /\
      committed w'
      = mkTables (orders (committed w))
                 (order_items (committed w)
                  ++ map (item_row id) (firstn k items))%list.
Proof.
  induction items as [|item rest IH]; intros k w e fs F K.
  - simpl in K. lia.
  - simpl. unfold insert_item_row at 1.
    destruct k as [|k]; simpl in F; rewrite (server_call_next _ _ _ F).
    + eexists. split; [reflexivity|]. simpl. rewrite app_nil_r.
      now destruct (committed w).
    + match goal with |- context [insert_items _ _ _ ?w1] =>
        destruct (IH k w1 e fs) as (w' & I & C)
      end; [reflexivity | simpl in K; lia |].
      exists w'. split; [exact I|]. rewrite C. simpl.
      now rewrite <- app_assoc.
Qed.

(** X4.  [Create], the insert without a transaction, is not atomic: when
    the insert of an item fails after [k] items went through, the error
    comes back, and the order row and its first [k] item rows stay
    committed. *)
Theorem create_without_transaction_is_not_atomic
        (o : Order.t) (w : World) (k : nat) (e : error)
        (rest : list (option error)) :
  (k < List.length (Order.Items o))%nat ->
  faults w = (None :: repeat None k ++ Some e :: rest)%list ->
  let id := orders_id_seq w + 1 in
  let out := repository.Create o w in
  fst out = (Order.set_ID o (Itoa id), Some e) /\
  committed (snd out)
  = mkTables (orders (committed w) ++ [order_row id o (clock w)])%list
             (order_items (committed w)
              ++ map (item_row id) (firstn k (Order.Items o)))%list.
Proof.
  intros K F id out. subst out id. unfold Create, insert_order_row.
  rewrite (server_call_next _ _ _ F). cbn [Order.set_ID Order.Items].
  match goal with |- context [insert_items _ ?i _ ?w1] =>
    destruct (pool_insert_items_partial i (Order.Items o) k w1 e rest)
      as (w' & I & C)
  end; [reflexivity | exact K |].
  rewrite I. cbn [fst snd]. split; [reflexivity|].
  rewrite C. reflexivity.
Qed.

(** X4, run: the second item of an order of two fails on the seeded
    database. *)
Lemma create_without_transaction_is_not_atomic_run :
  let o := Order.mk "" "user1" "pending"
             [OrderItem.mk "p1" "Product p1" 2 10 20;
              OrderItem.mk "p2" "Product p2" 1 5 5] 25 5 30 0 in
  let w := seed.seeded [None; None; Some (External "connection reset")] in
  let out := repository.Create o w in
  fst out = (Order.set_ID o (Itoa (orders_id_seq w + 1)),
             Some (External "connection reset")) /\
  committed (snd out)
  = mkTables (orders (committed w)
              ++ [order_row (orders_id_seq w + 1) o (clock w)])%list
             (order_items (committed w)
              ++ map (item_row (orders_id_seq w + 1))
                     (firstn 1 (Order.Items o)))%list.
Proof.
  intros o w.
  apply (create_without_transaction_is_not_atomic
           o w 1 (External "connection reset") []).
  - simpl. lia.
  - reflexivity.
Defined.

(** ** Reads leave the world alone *)

Lemma kept_refl (w : World) : kept w w.
Proof. now repeat split. Qed.

Lemma kept_trans (w1 w2 w3 : World) : kept w1 w2 -> kept w2 w3 -> kept w1 w3.
Proof. unfold kept. intuition congruence. Qed.

Lemma server_call_kept (w : World) : kept w (snd (server_call w)).
Proof. unfold server_call. destruct (faults w); now repeat split. Qed.

Lemma server_call_consumes (k : nat) (w : World) :
  reachable (S k) w -> reachable k (snd (server_call w)).
Proof. intros R. now destruct (reachable_next k w R) as (_ & R' & _). Qed.

Section ReadsKeep.
Context {pg : PgServer}.

Lemma FindByID_kept (id : string) (w : World) : kept w (snd (FindByID id w)).
Proof.
  unfold FindByID, pool_QueryRow_order_by_id.
  pose proof (server_call_kept w) as K1.
  destruct (server_call w) as [[e|] w1]; cbn [snd] in K1.
  - now destruct (errors_Is e pgx_ErrNoRows).
  - destruct (int4in id) as [n|]; [|exact K1].
    destruct (filter _ (orders (committed w1))) as [|r more]; [exact K1|].
    cbn [Scan_order]. unfold pool_Query_items.
    pose proof (server_call_kept w1) as K2.
    destruct (server_call w1) as [[e|] w2]; cbn [snd] in *;
      exact (kept_trans _ _ _ K1 K2).
Qed.

Lemma FindByUserID_kept (userID : string) (w : World) :
  kept w (snd (FindByUserID userID w)).
Proof.
  unfold FindByUserID, pool_Query_orders_by_user.
  pose proof (server_call_kept w) as K1.
  now destruct (server_call w) as [[e|] w1].
Qed.

(** What [FindByID] answers when the server does: a function of the
    committed tables. *)
Lemma FindByID_reached (id : string) (w : World) :
  reachable 2 w ->
  fst (FindByID id w)
  = match int4in id with
    | None => (None, Some invalid_integer_text)
    | Some n =>
        match orders_with_id (committed w) n with
        | [] => (None, Some ErrNotFound)
        | r :: _ => (Some (stored (committed w) r), None)
        end
    end.
Proof.
  intros R. destruct (int4in id) as [n|] eqn:I.
  - destruct (orders_with_id (committed w) n) as [|r more] eqn:P.
    + now rewrite (FindByID_absent id n w I (reachable_fewer _ _ R) P).
    + exact (FindByID_present id n w r more I R P).
  - unfold FindByID, pool_QueryRow_order_by_id.
    destruct (reachable_next _ _ R) as (S1 & _ & _).
    destruct (server_call w) as [f w1]. simpl in S1. subst f.
    now rewrite I.
Qed.

Lemma FindByID_consumes (id : string) (k : nat) (w : World) :
  reachable (2 + k) w -> reachable k (snd (FindByID id w)).
Proof.
  intros R. unfold FindByID, pool_QueryRow_order_by_id.
  destruct (reachable_next _ _ R) as (S1 & R1 & _).
  destruct (server_call w) as [f w1]. cbn [fst snd] in S1, R1. subst f.
  destruct (int4in id) as [n|]; [|now apply reachable_fewer].
  destruct (filter _ (orders (committed w1))) as [|r more];
    [now apply reachable_fewer|].
  cbn [Scan_order]. unfold pool_Query_items.
  pose proof (server_call_consumes k w1 R1) as R2.
  now destruct (server_call w1) as [[e|] w2].
Qed.

End ReadsKeep.

Lemma GetOrder_kept {pg : PgServer} (id : string) (w : World) :
  kept w (snd (logicv1.GetOrder main.orderService id w)).
Proof.
  unfold logicv1.GetOrder.
  cbn [main.orderService logicv1.orderRepo domain.FindByID
       NewPostgresOrderRepository].
  pose proof (FindByID_kept id w) as K.
  destruct (FindByID id w) as [[o [e|]] w1]; cbn [snd] in K; trivial.
  now destruct (errors_Is e ErrNotFound).
Qed.

Lemma ListOrders_kept {pg : PgServer} (userID : string) (w : World) :
  kept w (snd (logicv1.ListOrders main.orderService userID w)).
Proof.
  unfold logicv1.ListOrders.
  cbn [main.orderService logicv1.orderRepo domain.FindByUserID
       NewPostgresOrderRepository].
  pose proof (FindByUserID_kept userID w) as K.
  now destruct (FindByUserID userID w) as [[l [e|]] w1].
Qed.

(** X5.  The reads write nothing: whatever the server does, [GetOrder] and
    [ListOrders] leave the committed tables, the sequence, the transactions
    and the clock as they are. *)
Theorem reads_write_nothing {pg : PgServer} (key : string) (w : World) :
  kept w (snd (logicv1.GetOrder main.orderService key w)) /\
  kept w (snd (logicv1.ListOrders main.orderService key w)).
Proof. split; [apply GetOrder_kept | apply ListOrders_kept]. Qed.

(** X6.  [GetOrder] twice: when the server answers both times, the second
    call returns what the first returned, an order or an error. *)
Theorem get_order_is_repeatable {pg : PgServer} (id : string) (w : World) :
  reachable 4 w ->
  fst (logicv1.GetOrder main.orderService id
         (snd (logicv1.GetOrder main.orderService id w)))
  = fst (logicv1.GetOrder main.orderService id w).
Proof.
  intros R.
  assert (G : forall v, reachable 2 v ->
              committed v = committed w ->
              fst (logicv1.GetOrder main.orderService id v)
              = match fst (FindByID id w) with
                | (_, Some e) =>
                    if errors_Is e ErrNotFound
                    then (None, Some ErrOrderNotFound) else (None, Some e)
                | (o, None) => (o, None)
                end).
  { intros v Rv Cv.
    assert (E : fst (FindByID id v) = fst (FindByID id w)).
    { rewrite (FindByID_reached id v Rv).
      rewrite (FindByID_reached id w (reachable_fewer _ _ (reachable_fewer _ _ R))).
      now rewrite Cv. }
    unfold logicv1.GetOrder.
    cbn [main.orderService logicv1.orderRepo domain.FindByID
         NewPostgresOrderRepository].
    rewrite <- E.
    destruct (FindByID id v) as [[o [e|]] v1]; simpl; trivial.
    now destruct (errors_Is e ErrNotFound). }
  rewrite (G w (reachable_fewer _ _ (reachable_fewer _ _ R)) eq_refl).
  apply G.
  - unfold logicv1.GetOrder.
    cbn [main.orderService logicv1.orderRepo domain.FindByID
         NewPostgresOrderRepository].
    pose proof (FindByID_consumes id 2 w R) as C.
    destruct (FindByID id w) as [[o [e|]] w1]; cbn [snd] in C; trivial.
    now destruct (errors_Is e ErrNotFound).
  - now destruct (GetOrder_kept id w).
Qed.

(** X6, run: order 3 of the seeded database, read twice. *)
Lemma get_order_is_repeatable_run :
  fst (logicv1.GetOrder seed.service "3"
         (snd (logicv1.GetOrder seed.service "3" (seed.seeded []))))
  = fst (logicv1.GetOrder seed.service "3" (seed.seeded [])).
Proof.
  apply (@get_order_is_repeatable seed.decimal_server "3" (seed.seeded [])).
  now apply seeded_reachable.
Defined.

(** ** The update of the status *)

Lemma restatus_frozen (status : string) (now n : Z) (l : list OrderRow) :
  map frozen (map (restatus status now n) l) = map frozen l.
Proof.
  induction l as [|r l IH]; simpl; [reflexivity|]. rewrite IH. f_equal.
  unfold restatus. now destruct (id r =? n).
Qed.

Lemma restatus_id (status : string) (now n : Z) (r : OrderRow) :
  id (restatus status now n r) = id r.
Proof. unfold restatus. now destruct (id r =? n). Qed.

Lemma restatus_filter (status : string) (now n m : Z) (l : list OrderRow) :
  filter (fun r => id r =? m) (map (restatus status now n) l)
  = map (restatus status now n) (filter (fun r => id r =? m) l).
Proof.
  induction l as [|r l IH]; simpl; [reflexivity|].
  rewrite restatus_id, IH. now destruct (id r =? m).
Qed.

Lemma restatus_others (status : string) (now n m : Z) (l : list OrderRow) :
  m <> n ->
  map (restatus status now n) (filter (fun r => id r =? m) l)
  = filter (fun r => id r =? m) l.
Proof.
  intros D. induction l as [|r l IH]; simpl; [reflexivity|].
  destruct (id r =? m) eqn:E; [|exact IH]. simpl. rewrite IH. f_equal.
  apply Z.eqb_eq in E. unfold restatus.
  replace (id r =? n) with false; [reflexivity|].
  symmetry. apply Z.eqb_neq. congruence.
Qed.

Section UpdateOfTheStatus.
Context {pg : PgServer}.

(** The statement of [UpdateStatus] when the server runs it. *)
Lemma pool_Exec_update_status_reached (status id : string) (n : Z) (k : nat)
      (w : World) :
  int4in id = Some n ->
  reachable (S k) w ->
  exists w',
    pool_Exec_update_status status id w
    = (inl (Z.of_nat (List.length (orders_with_id (committed w) n))), w') /\
    committed w'
    = mkTables (map (restatus status (clock w) n) (orders (committed w)))
               (order_items (committed w)) /\
    orders_id_seq w' = orders_id_seq w /\
    txs w' = txs w /\
    clock w' = clock w /\
    reachable k w'.
Proof.
  intros I R. destruct (reachable_call k w R) as (w1 & Sc & R1 & C & Q & X & K).
  unfold pool_Exec_update_status. rewrite Sc, I, C, K.
  eexists. split; [reflexivity|]. repeat split; trivial.
Qed.

(** Whatever happens, the statement keeps the rows it does not aim at, the
    frozen columns of every row and all the item rows. *)
Lemma UpdateStatus_keeps (id status : string) (w : World) :
  let w' := snd (UpdateStatus id status w) in
  order_items (committed w') = order_items (committed w) /\
  map frozen (orders (committed w')) = map frozen (orders (committed w)) /\
  (forall m, int4in id <> Some m ->
             orders_with_id (committed w') m = orders_with_id (committed w) m) /\
  orders_id_seq w' = orders_id_seq w /\
  txs w' = txs w.
Proof.
  unfold UpdateStatus, pool_Exec_update_status.
  destruct (server_call_kept w) as (C & Q & X & K).
  destruct (server_call w) as [[e|] w1]; cbn [snd] in *.
  - rewrite C. now repeat split.
  - destruct (int4in id) as [n|]; cbn [fst snd].
    + match goal with |- context [if ?b then _ else _] => destruct b end;
        cbn [snd committed with_committed orders order_items orders_id_seq txs];
        rewrite C;
        (repeat split; trivial;
         [ apply (restatus_frozen status (clock w1) n)
         | intros m D; unfold orders_with_id; cbn [orders];
           rewrite (restatus_filter status (clock w1) n m);
           apply restatus_others; congruence ]).
    + rewrite C. now repeat split.
Qed.

End UpdateOfTheStatus.

(** X7.  [UpdateOrderStatus] on an id without order, the server answering.
    When the server reads the id as an integer under which the store holds
    no order, the answer is [ErrOrderNotFound], not the [ErrNotFound] of the
    store.  When the server cannot read the id as an integer, the answer is
    the error of the failed statement, not [ErrOrderNotFound].  Either way
    no row changes. *)
Theorem update_status_of_unknown_order {pg : PgServer}
        (id status : string) (w : World) :
  reachable 1 w ->
  let out := logicv1.UpdateOrderStatus main.orderService id status w in
  (forall n,
      int4in id = Some n ->
      orders_with_id (committed w) n = [] ->
      fst out = Some ErrOrderNotFound /\
      orders (committed (snd out)) = orders (committed w) /\
      order_items (committed (snd out)) = order_items (committed w)) /\
  (int4in id = None ->
   fst out = Some invalid_integer_text /\
   errors_Is invalid_integer_text ErrOrderNotFound = false /\
   committed (snd out) = committed w).
Proof.
  intros R out. subst out. split.
  - intros n I A. unfold logicv1.UpdateOrderStatus.
    cbn [main.orderService logicv1.orderRepo domain.UpdateStatus
         NewPostgresOrderRepository].
    unfold UpdateStatus.
    destruct (pool_Exec_update_status_reached status id n 0 w I R)
      as (w' & E & C & _).
    rewrite E, A. simpl. rewrite C. simpl. repeat split.
    unfold orders_with_id in A. clear - A.
    induction (orders (committed w)) as [|r l IH]; simpl; [reflexivity|].
    simpl in A. unfold restatus at 1.
    destruct (repository.id r =? n); [discriminate|]. now rewrite IH.
  - intros I. unfold logicv1.UpdateOrderStatus.
    cbn [main.orderService logicv1.orderRepo domain.UpdateStatus
         NewPostgresOrderRepository].
    unfold UpdateStatus, pool_Exec_update_status.
    destruct (reachable_next _ _ R) as (Sc & _ & C).
    destruct (server_call w) as [f w1]. cbn [fst snd] in Sc, C. subst f.
    rewrite I. cbn. now repeat split.
Qed.

(** X7, run: order 9 is not in the seeded database. *)
Lemma update_status_of_unknown_order_run :
  fst (logicv1.UpdateOrderStatus seed.service "9" "shipped" (seed.seeded []))
  = Some ErrOrderNotFound /\
  orders (committed (snd (logicv1.UpdateOrderStatus seed.service "9" "shipped"
                            (seed.seeded []))))
  = orders (committed (seed.seeded [])) /\
  order_items (committed (snd (logicv1.UpdateOrderStatus seed.service "9"
                                 "shipped" (seed.seeded []))))
  = order_items (committed (seed.seeded [])).
Proof.
  apply (proj1 (@update_status_of_unknown_order seed.decimal_server "9"
                  "shipped" (seed.seeded [])
                  (seeded_reachable 1 (seed.seeded []) eq_refl))
               9).
  - reflexivity.
  - reflexivity.
Defined.

(** X8.  Update, then read.  After [UpdateOrderStatus] on an order of the
    store, [GetOrder] returns that order as it was before, items and all,
    with the new status.  Any status is taken, whatever the status before:
    no transition is refused. *)
Theorem updated_status_can_be_read_back {pg : PgServer}
        (id status : string) (n : Z) (w : World) (r : OrderRow)
        (more : list OrderRow) :
  int4in id = Some n ->
  reachable 3 w ->
  orders_with_id (committed w) n = r :: more ->
  let out := logicv1.UpdateOrderStatus main.orderService id status w in
  fst out = None /\
  fst (logicv1.GetOrder main.orderService id (snd out))
  = (Some (set_Status (stored (committed w) r) status), None).
Proof.
  intros I R P out. subst out. unfold logicv1.UpdateOrderStatus.
  cbn [main.orderService logicv1.orderRepo domain.UpdateStatus
       NewPostgresOrderRepository].
  unfold UpdateStatus.
  destruct (pool_Exec_update_status_reached status id n 2 w I R)
    as (w' & E & C & _ & _ & _ & R').
  rewrite E, P. cbn [List.length]. 
  replace (Z.of_nat (S (List.length more)) =? 0) with false
    by (symmetry; apply Z.eqb_neq; lia).
  cbn [fst snd]. split; [reflexivity|].
  assert (Hid : repository.id r = n).
  { assert (In r (orders_with_id (committed w) n)) as H by (rewrite P; now left).
    apply filter_In in H. now apply Z.eqb_eq. }
  assert (P' : orders_with_id (committed w') n
               = restatus status (clock w) n r
                 :: map (restatus status (clock w) n) more).
  { unfold orders_with_id in *. rewrite C. cbn [orders].
    now rewrite restatus_filter, P. }
  destruct (FindByID id w') as [[o e] w2] eqn:F.
  pose proof (FindByID_present id n w' _ _ I R' P') as G.
  rewrite F in G. cbn [fst] in G. inversion G; subst o e.
  rewrite (GetOrder_found main.orderService id w' w2 _ F). cbn [fst].
  do 2 f_equal. unfold stored, items_of, restatus.
  rewrite C. subst n. rewrite Z.eqb_refl. reflexivity.
Qed.

(** X8, run: order 1 of the seeded database, completed, is set back to
    pending. *)
Lemma updated_status_can_be_read_back_run :
  let w := seed.seeded [] in
  let out := logicv1.UpdateOrderStatus seed.service "1" "pending" w in
  fst out = None /\
  fst (logicv1.GetOrder seed.service "1" (snd out))
  = (Some (set_Status
             (stored (committed w)
                     (mkOrderRow 1 "1" "completed" 109.97 5.00 114.97 10 12))
             "pending"), None).
Proof.
  intros w.
  apply (@updated_status_can_be_read_back
           seed.decimal_server "1" "pending" 1 w
           (mkOrderRow 1 "1" "completed" 109.97 5.00 114.97 10 12) []).
  - reflexivity.
  - now apply seeded_reachable.
  - reflexivity.
Defined.

(** X9.  Whatever the id, the status and the answers of the server,
    [UpdateOrderStatus] changes nothing but the status and the time of
    update of the order it aims at: the item rows, the orders under every
    other id, the id, owner, amounts and creation time of every order row,
    the sequence and the transactions stay as they are. *)
Theorem update_status_touches_the_status_only {pg : PgServer}
        (id status : string) (w : World) :
  let w' := snd (logicv1.UpdateOrderStatus main.orderService id status w) in
  order_items (committed w') = order_items (committed w) /\
  map frozen (orders (committed w')) = map frozen (orders (committed w)) /\
  (forall m, int4in id <> Some m ->
             orders_with_id (committed w') m = orders_with_id (committed w) m) /\
  orders_id_seq w' = orders_id_seq w /\
  txs w' = txs w.
Proof.
  pose proof (UpdateStatus_keeps id status w) as K.
  unfold logicv1.UpdateOrderStatus.
  cbn [main.orderService logicv1.orderRepo domain.UpdateStatus
       NewPostgresOrderRepository].
  destruct (UpdateStatus id status w) as [[e|] w1]; cbn [snd] in K |- *;
    [now destruct (errors_Is e ErrNotFound) | exact K].
Qed.

(** ** The read endpoints *)

(** X10.  GET /orders/:id on the PostgreSQL wiring.  An order of the store
    is replied with 200; an id without order with 404; an id the server
    cannot read as an integer, like any other failure of the store, with
    500.  And whatever the service does, the body of a reply is the order or
    one of two fixed messages: no text of an error reaches the client. *)
Theorem get_order_endpoint {pg : PgServer} (c : Context) (w : World) :
  let h := NewOrderHandler main.orderService in
  let reply := fst (fst (OrderHandler_GetOrder h c w)) in
  (forall n r more,
      int4in (Param c "id") = Some n ->
      reachable 2 w ->
      orders_with_id (committed w) n = r :: more ->
      reply = mkReply StatusOK (J_order (Some (stored (committed w) r)))) /\
  (forall n,
      int4in (Param c "id") = Some n ->
      reachable 1 w ->
      orders_with_id (committed w) n = [] ->
      reply = mkReply StatusNotFound (H_error "Order not found")) /\
  (int4in (Param c "id") = None ->
   reachable 1 w ->
   reply = mkReply StatusInternalServerError (H_error "Internal server error")) /\
  ((exists order, reply = mkReply StatusOK (J_order order)) \/
   reply = mkReply StatusNotFound (H_error "Order not found") \/
   reply = mkReply StatusInternalServerError (H_error "Internal server error")).
Proof.
  intros h reply. subst reply h. unfold OrderHandler_GetOrder.
  cbn [orderService]. repeat split.
  - intros n r more I R P.
    destruct (FindByID (Param c "id") w) as [[o e] w1] eqn:F.
    pose proof (FindByID_present _ n w r more I R P) as G.
    rewrite F in G. cbn [fst] in G. inversion G; subst o e.
    now rewrite (GetOrder_found main.orderService _ w w1 _ F).
  - intros n I R A.
    rewrite (GetOrder_not_found main.orderService _ w _ None ErrNotFound
               (FindByID_absent _ n w I R A) eq_refl).
    reflexivity.
  - intros I R.
    destruct (FindByID (Param c "id") w) as [[o e] w1] eqn:F.
    assert (G : (o, e) = (None, Some invalid_integer_text)).
    { unfold FindByID, pool_QueryRow_order_by_id in F.
      destruct (reachable_next _ _ R) as (S1 & _ & _).
      destruct (server_call w) as [f w0]. simpl in S1. subst f.
      rewrite I in F. simpl in F. now inversion F. }
    inversion G; subst o e.
    rewrite (GetOrder_other_error main.orderService _ w w1 None _ F eq_refl).
    reflexivity.
  - destruct (logicv1.GetOrder main.orderService (Param c "id") w)
      as [[order [e|]] w1]; cbn [fst].
    + destruct (errors_Is e ErrOrderNotFound); cbn [fst]; auto.
    + left. now exists order.
Qed.

(** X10, run: GET /orders/3 and GET /orders/abc on the seeded database. *)
Lemma get_order_endpoint_run :
  fst (fst (OrderHandler_GetOrder (NewOrderHandler seed.service)
              seed.details_of_order_3 (seed.seeded [])))
  = mkReply StatusOK
      (J_order (Some (stored (committed (seed.seeded []))
                             (mkOrderRow 3 "4" "pending" 59.98 5.00 64.98 18 18)))) /\
  fst (fst (OrderHandler_GetOrder (NewOrderHandler seed.service)
              (mkContext [("id", "abc")] [] [] (Malformed (External "EOF")))
              (seed.seeded [])))
  = mkReply StatusInternalServerError (H_error "Internal server error").
Proof.
  split.
  - apply (proj1 (@get_order_endpoint seed.decimal_server
                    seed.details_of_order_3 (seed.seeded []))
                 3 (mkOrderRow 3 "4" "pending" 59.98 5.00 64.98 18 18) []).
    + reflexivity.
    + now apply seeded_reachable.
    + reflexivity.
  - apply (proj1 (proj2 (proj2
             (@get_order_endpoint seed.decimal_server
                (mkContext [("id", "abc")] [] [] (Malformed (External "EOF")))
                (seed.seeded []))))).
    + reflexivity.
    + now apply seeded_reachable.
Defined.

(** X11.  GET /orders.  Without an identity in the context the reply is 401
    and the service is not called: the outcome is the same for every
    service and the world stays as it is.  With an identity, on the
    PostgreSQL wiring, the reply is 200 with the orders of that identity,
    newest first, when the server answers, and 500 with a fixed message
    when the query fails. *)
Theorem list_orders_endpoint {pg : PgServer} :
  (forall (W T : Type) (h h' : OrderHandler W T) (c : Context) (w : W),
      GetString c "user_id" = "" ->
      OrderHandler_ListOrders h c w = OrderHandler_ListOrders h' c w /\
      fst (fst (OrderHandler_ListOrders h c w))
      = mkReply StatusUnauthorized (H_error "Authentication required") /\
      snd (OrderHandler_ListOrders h c w) = w) /\
  (forall (c : Context) (w : World),
      GetString c "user_id" <> "" ->
      reachable 1 w ->
      fst (fst (OrderHandler_ListOrders (NewOrderHandler main.orderService) c w))
      = mkReply StatusOK
          (J_orders
             (map listed
                (order_by_created_at_desc
                   (orders_of (committed w) (GetString c "user_id")))))) /\
  (forall (c : Context) (w : World) (e : error) (rest : list (option error)),
      GetString c "user_id" <> "" ->
      faults w = Some e :: rest ->
      fst (fst (OrderHandler_ListOrders (NewOrderHandler main.orderService) c w))
      = mkReply StatusInternalServerError (H_error "Internal server error")).
Proof.
  split; [|split].
  - intros W T h h' c w U. unfold OrderHandler_ListOrders. rewrite U.
    now repeat split.
  - intros c w U R. unfold OrderHandler_ListOrders.
    replace (String.eqb (GetString c "user_id") "") with false
      by (symmetry; now apply String.eqb_neq).
    cbn [orderService].
    now rewrite (ListOrders_ok main.orderService _ w _ _
                   (FindByUserID_reached _ w R)).
  - intros c w e rest U F. unfold OrderHandler_ListOrders.
    replace (String.eqb (GetString c "user_id") "") with false
      by (symmetry; now apply String.eqb_neq).
    cbn [orderService].
    rewrite (ListOrders_error main.orderService _ w (with_faults w rest) [] e);
      [reflexivity|].
    cbn [main.orderService logicv1.orderRepo domain.FindByUserID
         NewPostgresOrderRepository].
    unfold FindByUserID, pool_Query_orders_by_user.
    now rewrite (server_call_next _ _ _ F).
Qed.

(** X11, run: the orders of user 4 of the seeded database. *)
Lemma list_orders_endpoint_run :
  fst (fst (OrderHandler_ListOrders (NewOrderHandler seed.service)
              seed.checkout (seed.seeded [])))
  = mkReply StatusOK
      (J_orders
         (map listed
            (order_by_created_at_desc
               (orders_of (committed (seed.seeded []))
                          (GetString seed.checkout "user_id"))))).
Proof.
  apply (proj1 (proj2 (@list_orders_endpoint seed.decimal_server))
               seed.checkout (seed.seeded [])).
  - discriminate.
  - now apply seeded_reachable.
Defined.

(** ** The creation endpoint, on requests it refuses *)

(** X12.  POST /orders with an identity.  A body whose item list is empty
    binds and is refused by the service: 400 "Invalid order".  A body
    without item list does not bind: 400 "Invalid request", the text of the
    validation error being held back.  Either way the world stays as it is,
    whatever the service is wired to.  On the PostgreSQL wiring, a request
    with items whose transaction cannot begin is answered 500 with a fixed
    message. *)
Theorem create_order_endpoint_refusals {net : Net} :
  (forall (W T : Type) (g : Globals W T) (h : OrderHandler W T)
          (params keys headers : list (string * string)) (u : string) (w : W),
      lookup "user_id" keys <> "" ->
      OrderHandler_CreateOrder g h
        (mkContext params keys headers (Decoded u (Some []))) w
      = ((mkReply StatusBadRequest (H_error "Invalid order"),
          [Error_ "Failed to create order" (Some logicv1.ErrInvalidOrder)]), w)) /\
  (forall (W T : Type) (g : Globals W T) (h : OrderHandler W T)
          (params keys headers : list (string * string)) (u : string) (w : W),
      OrderHandler_CreateOrder g h
        (mkContext params keys headers (Decoded u None)) w
      = ((mkReply StatusBadRequest (H_error "Invalid request"),
          [Error_ "Invalid request" (Some required_Items)]), w)) /\
  (forall (pg : PgServer) (shipping : option ShippingClient)
          (cart : option CartClient) (c : Context)
          (req : CreateOrderRequest.t) (w : World) (e : error)
          (rest : list (option error)),
      ShouldBindJSON c = inl req ->
      CreateOrderRequest.Items req <> [] ->
      GetString c "user_id" <> "" ->
      faults w = Some e :: rest ->
      errors_Is e logicv1.ErrInvalidOrder = false ->
      fst (OrderHandler_CreateOrder (package shipping cart)
             (NewOrderHandler main.orderService) c w)
      = (mkReply StatusInternalServerError (H_error "Internal server error"),
         [Error_ "Failed to create order" (Some e)])).
Proof.
  split; [|split].
  - intros W T g h params keys headers u w U.
    unfold OrderHandler_CreateOrder, ShouldBindJSON, GetString. cbn [RequestBody_ Keys].
    replace (String.eqb (lookup "user_id" keys) "") with false
      by (symmetry; now apply String.eqb_neq).
    now rewrite CreateOrder_empty.
  - intros W T g h params keys headers u w. reflexivity.
  - intros pg shipping cart c req w e rest B NE U F N.
    unfold OrderHandler_CreateOrder. rewrite B.
    replace (String.eqb (GetString c "user_id") "") with false
      by (symmetry; now apply String.eqb_neq).
    cbn [orderService].
    rewrite (CreateOrder_nonempty main.orderService) by exact NE.
    cbn [main.orderService logicv1.txManager Begin
         NewPostgresTransactionManager].
    unfold PostgresTransactionManager_Begin, pool_Begin.
    rewrite (server_call_next _ _ _ F). now rewrite N.
Qed.

(** X12, run: user 4 posts an empty list of items. *)
Lemma create_order_endpoint_refusals_run :
  OrderHandler_CreateOrder (net := seed.answering_500)
    (package (pg := seed.decimal_server) None (Some seed.cart))
    (NewOrderHandler seed.service)
    (mkContext [] [("user_id", "4")] [] (Decoded "4" (Some [])))
    (seed.seeded [])
  = ((mkReply StatusBadRequest (H_error "Invalid order"),
      [Error_ "Failed to create order" (Some logicv1.ErrInvalidOrder)]),
     seed.seeded []).
Proof.
  apply (proj1 (@create_order_endpoint_refusals seed.answering_500)).
  discriminate.
Defined.

(** ** The clients of the shipping and cart services *)

Section ClientsOutcomes.
Context {net : Net}.

Lemma GetShipmentByOrderID_some (c : ShippingClient) (orderID : string)
      (s : Shipment.t) :
  fst (GetShipmentByOrderID c orderID) = Some s <->
  url_Parse (URL (shipment_request c orderID)) = None /\
  exists resp,
    Do (shipment_request c orderID) = inl resp /\
    StatusCode resp = StatusOK /\
    Decode_Shipment (Body resp) = inl s.
Proof.
  unfold GetShipmentByOrderID, NewRequestWithContext, shipment_request.
  cbn [URL].
  destruct (url_Parse (baseURL c ++ "/api/v1/shipping/orders/" ++ orderID))
    as [e|]; cbn [fst].
  { split; [discriminate | intros [P _]; discriminate]. }
  destruct (Do _) as [resp|e]; cbn [fst].
  2:{ split; [discriminate | intros (_ & r & D & _); discriminate]. }
  destruct (StatusCode resp =? StatusNotFound) eqn:N4; cbn [fst].
  { apply Z.eqb_eq in N4. split; [discriminate|].
    intros (_ & r & D & K & _). inversion D; subst r.
    rewrite K in N4. discriminate. }
  destruct (StatusCode resp =? StatusOK) eqn:N2; cbn [negb fst].
  2:{ apply Z.eqb_neq in N2. split; [discriminate|].
      intros (_ & r & D & K & _). inversion D; subst r. contradiction. }
  apply Z.eqb_eq in N2.
  destruct (Decode_Shipment (Body resp)) as [s'|e] eqn:DS; cbn [fst].
  - split.
    + intros E. inversion E; subst s'. split; trivial. now exists resp.
    + intros (_ & r & D & _ & DS'). inversion D; subst r.
      rewrite DS in DS'. now inversion DS'.
  - split; [discriminate|].
    intros (_ & r & D & _ & DS'). inversion D; subst r.
    rewrite DS in DS'. discriminate.
Qed.

Lemma GetShipmentByOrderID_none (c : ShippingClient) (orderID : string) :
  GetShipmentByOrderID c orderID = (None, None) <->
  url_Parse (URL (shipment_request c orderID)) = None /\
  exists resp,
    Do (shipment_request c orderID) = inl resp /\
    StatusCode resp = StatusNotFound.
Proof.
  unfold GetShipmentByOrderID, NewRequestWithContext, shipment_request.
  cbn [URL].
  destruct (url_Parse (baseURL c ++ "/api/v1/shipping/orders/" ++ orderID))
    as [e|].
  { split; [discriminate | intros [P _]; discriminate]. }
  destruct (Do _) as [resp|e].
  2:{ split; [discriminate | intros (_ & r & D & _); discriminate]. }
  destruct (StatusCode resp =? StatusNotFound) eqn:N4.
  { apply Z.eqb_eq in N4. split; trivial. intros _. split; trivial.
    now exists resp. }
  apply Z.eqb_neq in N4.
  split.
  - destruct (negb (StatusCode resp =? StatusOK)); [discriminate|].
    destruct (Decode_Shipment (Body resp)); discriminate.
  - intros (_ & r & D & K). inversion D; subst r. contradiction.
Qed.

Lemma GetShipmentByOrderID_not_both (c : ShippingClient) (orderID : string)
      (s : Shipment.t) (e : error) :
  GetShipmentByOrderID c orderID <> (Some s, Some e).
Proof.
  unfold GetShipmentByOrderID.
  destruct (NewRequestWithContext _ _) as [req|e0]; [|discriminate].
  destruct (Do req) as [resp|e0]; [|discriminate].
  destruct (StatusCode resp =? StatusNotFound); [discriminate|].
  destruct (negb (StatusCode resp =? StatusOK)); [discriminate|].
  destruct (Decode_Shipment (Body resp)); discriminate.
Qed.

End ClientsOutcomes.

(** X13.  The shipment lookup has three outcomes and never gives a shipment
    together with an error.  It gives the shipment [s] exactly when the
    request GET <base>/api/v1/shipping/orders/<id> could be built and was
    answered 200 with a body that decodes to [s]; it gives neither shipment
    nor error exactly when the request was answered 404. *)
Theorem shipment_lookup_outcomes {net : Net} (c : ShippingClient)
        (orderID : string) :
  (forall s e, GetShipmentByOrderID c orderID <> (Some s, Some e)) /\
  (forall s,
      fst (GetShipmentByOrderID c orderID) = Some s <->
      url_Parse (URL (shipment_request c orderID)) = None /\
      exists resp,
        Do (shipment_request c orderID) = inl resp /\
        StatusCode resp = StatusOK /\
        Decode_Shipment (Body resp) = inl s) /\
  (GetShipmentByOrderID c orderID = (None, None) <->
   url_Parse (URL (shipment_request c orderID)) = None /\
   exists resp,
     Do (shipment_request c orderID) = inl resp /\
     StatusCode resp = StatusNotFound).
Proof.
  split; [|split].
  - intros s e. apply GetShipmentByOrderID_not_both.
  - intros s. apply GetShipmentByOrderID_some.
  - apply GetShipmentByOrderID_none.
Qed.

(** X14.  Clearing the cart succeeds exactly when the request DELETE
    <base>/api/v1/cart could be built and was answered with a status from
    200 to 299.  The request carries the Authorization header of the caller
    when there is one and no header otherwise. *)
Theorem clear_cart_succeeds_on_2xx_only {net : Net} (c : CartClient)
        (authHeader : string) :
  ClearCart c authHeader = None <->
  url_Parse (URL (cart_request c authHeader)) = None /\
  exists resp,
    Do (cart_request c authHeader) = inl resp /\
    200 <= StatusCode resp < 300.
Proof.
  unfold ClearCart, NewRequestWithContext, cart_request. cbn [URL].
  destruct (url_Parse (cart_baseURL c ++ "/api/v1/cart")) as [e|].
  { split; [discriminate | intros [P _]; discriminate]. }
  cbn [Method URL Header].
  replace (if negb (String.eqb authHeader "")
           then mkRequest "DELETE" (cart_baseURL c ++ "/api/v1/cart")
                          [("Authorization", authHeader)]
           else mkRequest "DELETE" (cart_baseURL c ++ "/api/v1/cart") [])
    with (mkRequest "DELETE" (cart_baseURL c ++ "/api/v1/cart")
            (if String.eqb authHeader "" then []
             else [("Authorization", authHeader)]))
    by now destruct (String.eqb authHeader "").
  destruct (Do _) as [resp|e].
  2:{ split; [discriminate | intros (_ & r & D & _); discriminate]. }
  destruct ((StatusCode resp <? 200) || (300 <=? StatusCode resp)) eqn:B.
  - split; [discriminate|]. intros (_ & r & D & K). inversion D; subst r.
    apply orb_true_iff in B. destruct B as [B|B]; lia.
  - split; trivial. intros _. split; trivial. exists resp. split; trivial.
    apply orb_false_iff in B. lia.
Qed.

(** ** Details of an order *)

(** X15.  GET /orders/:id/details on the PostgreSQL wiring, the server
    answering.  For an id the server reads as an integer under which the
    store holds no order, the reply is 404 "Order not found"; for an id the
    server cannot read as an integer, it is 500 "Internal server error";
    both are the same whatever the shipping service would say and whichever
    clients are set.  For an order of the store whose shipment the shipping
    service delivers, the reply is 200 with the order and that shipment. *)
Theorem order_details_endpoint {pg : PgServer} (cart : option CartClient)
        (c : Context) (w : World) :
  (forall (net : Net) (shipping : option ShippingClient) (n : Z),
      int4in (Param c "id") = Some n ->
      reachable 1 w ->
      orders_with_id (committed w) n = [] ->
      GetOrderDetails (package shipping cart) c w
      = ((mkReply StatusNotFound (H_error "Order not found"),
          [Error_ "Failed to get order" (Some ErrOrderNotFound)]),
         snd (server_call w))) /\
  (forall (net : Net) (shipping : option ShippingClient),
      int4in (Param c "id") = None ->
      reachable 1 w ->
      GetOrderDetails (package shipping cart) c w
      = ((mkReply StatusInternalServerError (H_error "Internal server error"),
          [Error_ "Failed to get order" (Some invalid_integer_text)]),
         snd (server_call w))) /\
  (forall (net : Net) (client : ShippingClient) (n : Z) (r : OrderRow)
          (more : list OrderRow) (resp : Response) (s : Shipment.t),
      int4in (Param c "id") = Some n ->
      reachable 2 w ->
      orders_with_id (committed w) n = r :: more ->
      url_Parse (URL (shipment_request client (Param c "id"))) = None ->
      Do (shipment_request client (Param c "id")) = inl resp ->
      StatusCode resp = StatusOK ->
      Decode_Shipment (Body resp) = inl s ->
      fst (GetOrderDetails (package (Some client) cart) c w)
      = (mkReply StatusOK
           (J_details
              (OrderDetailsResponse.mk (Some (stored (committed w) r))
                                       (Some s))),
         [Info "Order details retrieved" None])).
Proof.
  split; [|split].
  - intros net shipping n I R A. unfold GetOrderDetails, package.
    cbn [handler orderService].
    now rewrite (GetOrder_not_found main.orderService _ w _ None ErrNotFound
                   (FindByID_absent _ n w I R A) eq_refl).
  - intros net shipping I R. unfold GetOrderDetails, package.
    cbn [handler orderService].
    now rewrite (GetOrder_other_error main.orderService _ w _ None _
                   (FindByID_unreadable _ w I R) eq_refl).
  - intros net client n r more resp s I R P U D K DS.
    unfold GetOrderDetails, package. cbn [handler orderService shippingClient].
    destruct (FindByID (Param c "id") w) as [[o e] w1] eqn:F.
    pose proof (FindByID_present _ n w r more I R P) as G.
    rewrite F in G. cbn [fst] in G. inversion G; subst o e.
    rewrite (GetOrder_found main.orderService _ w w1 _ F).
    assert (Sh : GetShipmentByOrderID client (Param c "id") = (Some s, None)).
    { unfold GetShipmentByOrderID, NewRequestWithContext.
      unfold shipment_request in U, D. cbn [URL] in U. rewrite U, D, K.
      cbn. now rewrite DS. }
    now rewrite Sh.
Qed.

(** X15, run: the details of order 3 of the seeded database while the
    shipping service knows its shipment. *)
Lemma order_details_endpoint_run :
  fst (GetOrderDetails (net := seed.delivering)
         (package (pg := seed.decimal_server) (Some seed.shipping)
                  (Some seed.cart))
         seed.details_of_order_3 (seed.seeded []))
  = (mkReply StatusOK
       (J_details
          (OrderDetailsResponse.mk
             (Some (stored (committed (seed.seeded []))
                           (mkOrderRow 3 "4" "pending" 59.98 5.00 64.98 18 18)))
             (Some seed.shipment_in_transit))),
     [Info "Order details retrieved" None]).
Proof.
  apply (proj2 (proj2 (@order_details_endpoint seed.decimal_server
                         (Some seed.cart) seed.details_of_order_3
                         (seed.seeded [])))
               seed.delivering seed.shipping 3
               (mkOrderRow 3 "4" "pending" 59.98 5.00 64.98 18 18) []
               (mkResponse 200 "{}") seed.shipment_in_transit).
  - reflexivity.
  - now apply seeded_reachable.
  - reflexivity.
  - reflexivity.
  - reflexivity.
  - reflexivity.
  - reflexivity.
Defined.

(** ** What a refused request is told *)

(** X16.  Whatever the error, the message made of it for the client is
    shorter than 100 bytes and holds none of the marks of a raw validation
    or binding error; it is the empty string (for no error), the text
    "Invalid request", or the text of the error itself. *)
Theorem sanitized_message_is_not_raw (err : option error) :
  let msg := sanitizeValidationError err in
  Forall (fun mark => strings_Contains msg mark = false) raw_marks /\
  Z.of_nat (String.length msg) < 100 /\
  (msg = "Invalid request" \/
   match err with Some e => msg = Error e | None => msg = "" end).
Proof.
  assert (Fixed : Forall (fun mark => strings_Contains "Invalid request" mark = false)
                         raw_marks)
    by (unfold raw_marks; repeat constructor).
  unfold sanitizeValidationError. destruct err as [e|]; cbn zeta.
  2:{ split; [unfold raw_marks; repeat constructor
             | split; [reflexivity | now right]]. }
  destruct (strings_Contains (Error e) "validation") eqn:M1; cbn [orb].
  { split; [exact Fixed | split; [reflexivity | now left]]. }
  destruct (strings_Contains (Error e) "Field validation") eqn:M2; cbn [orb].
  { split; [exact Fixed | split; [reflexivity | now left]]. }
  destruct (strings_Contains (Error e) "cannot unmarshal") eqn:M3; cbn [orb].
  { split; [exact Fixed | split; [reflexivity | now left]]. }
  destruct (strings_Contains (Error e) "bind") eqn:M4; cbn [orb].
  { split; [exact Fixed | split; [reflexivity | now left]]. }
  destruct (strings_Contains (Error e) "Key:") eqn:M5; cbn [orb].
  { split; [exact Fixed | split; [reflexivity | now left]]. }
  destruct (Z.of_nat (String.length (Error e)) <? 100) eqn:L; cbn [andb].
  2:{ split; [exact Fixed | split; [reflexivity | now left]]. }
  destruct (strings_Contains (Error e) "Error:") eqn:M6; cbn [negb].
  { split; [exact Fixed | split; [reflexivity | now left]]. }
  apply Z.ltb_lt in L. unfold raw_marks.
  split; [repeat constructor; assumption | split; [exact L | now right]].
Qed.

(** ** The configuration of the database *)

Lemma string_of_uint_digit (d : Decimal.uint) :
  d <> Decimal.Nil ->
  NilEmpty.string_of_uint d <> "" /\
  (forall rest, NilEmpty.string_of_uint d <> String "+" rest) /\
  (forall rest, NilEmpty.string_of_uint d <> String "-" rest).
Proof.
  destruct d; intros N; try contradiction; cbn [NilEmpty.string_of_uint];
    repeat split; intros; discriminate.
Qed.

Lemma Atoi_digits (d : Decimal.uint) :
  d <> Decimal.Nil ->
  Z.of_uint d < 2 ^ 63 ->
  Atoi (NilEmpty.string_of_uint d) = Some (Z.of_uint d).
Proof.
  intros N B. destruct (string_of_uint_digit d N) as (NE & NP & NM).
  assert (P : 0 <= Z.of_uint d) by (unfold Z.of_uint; lia).
  unfold Atoi.
  destruct (NilEmpty.string_of_uint d) as [|a rest] eqn:E; [now elim NE|].
  assert (Sg : match String a rest with
               | String "+" rest => (false, rest)
               | String "-" rest => (true, rest)
               | _ => (false, String a rest)
               end = (false, String a rest)).
  { destruct a as [[] [] [] [] [] [] [] []]; try reflexivity;
      [now elim (NP rest) | now elim (NM rest)]. }
  rewrite Sg. cbn [String.eqb]. rewrite <- E, NilEmpty.usu.
  replace (- 2 ^ 63 <=? Z.of_uint d) with true by (symmetry; apply Z.leb_le; lia).
  replace (Z.of_uint d <? 2 ^ 63) with true by (symmetry; now apply Z.ltb_lt).
  reflexivity.
Qed.

(** [strconv.Atoi] reads back what [strconv.Itoa] writes. *)
Lemma Atoi_Itoa (n : Z) : - 2 ^ 63 <= n < 2 ^ 63 -> Atoi (Itoa n) = Some n.
Proof.
  intros B. unfold Itoa. destruct n as [|p|p]; cbn [Z.to_int NilEmpty.string_of_int].
  - reflexivity.
  - rewrite Atoi_digits.
    + unfold Z.of_uint. now rewrite DecimalPos.Unsigned.of_to.
    + apply DecimalPos.Unsigned.to_uint_nonnil.
    + unfold Z.of_uint. rewrite DecimalPos.Unsigned.of_to. cbn [Z.of_N]. lia.
  - destruct (string_of_uint_digit (Pos.to_uint p)
                (DecimalPos.Unsigned.to_uint_nonnil p)) as (NE & _ & _).
    unfold Atoi.
    destruct (String.eqb (NilEmpty.string_of_uint (Pos.to_uint p)) "") eqn:Em.
    { apply String.eqb_eq in Em. now elim NE. }
    rewrite NilEmpty.usu. unfold Z.of_uint.
    rewrite DecimalPos.Unsigned.of_to. cbn [Z.of_N].
    replace (- 2 ^ 63 <=? - Z.pos p) with true by (symmetry; apply Z.leb_le; lia).
    replace (- Z.pos p <? 2 ^ 63) with true by (symmetry; apply Z.ltb_lt; lia).
    reflexivity.
Qed.

Lemma Itoa_nonempty (n : Z) : Itoa n <> "".
Proof.
  unfold Itoa. destruct n as [|p|p]; cbn [Z.to_int NilEmpty.string_of_int];
    try discriminate.
  apply (string_of_uint_digit (Pos.to_uint p)
           (DecimalPos.Unsigned.to_uint_nonnil p)).
Qed.

(** X17.  An integer variable of the environment that holds the decimal
    text of an [int] is read as that [int], whatever the default. *)
Theorem getenvint_reads_decimal (env : database.Env) (key : string)
        (defaultValue n : Z) :
  - 2 ^ 63 <= n < 2 ^ 63 ->
  env key = Itoa n ->
  database.getEnvInt env key defaultValue = n.
Proof.
  intros B E. unfold database.getEnvInt. rewrite E, (Atoi_Itoa n B).
  destruct (String.eqb (Itoa n) "") eqn:Em; [|reflexivity].
  apply String.eqb_eq in Em. now elim (Itoa_nonempty n).
Qed.

(** X17, run: a pool of 40 connections. *)
Lemma getenvint_reads_decimal_run :
  database.getEnvInt
    (fun key => if String.eqb key "DB_POOL_MAX_CONNECTIONS" then "40" else "")
    "DB_POOL_MAX_CONNECTIONS" 25 = 40.
Proof.
  apply (getenvint_reads_decimal
           (fun key => if String.eqb key "DB_POOL_MAX_CONNECTIONS" then "40" else "")
           "DB_POOL_MAX_CONNECTIONS" 25 40).
  - lia.
  - reflexivity.
Defined.

Lemma getEnv_nonempty (env : database.Env) (key defaultValue : string) :
  defaultValue <> "" -> database.getEnv env key defaultValue <> "".
Proof.
  intros D. unfold database.getEnv.
  destruct (String.eqb (env key) "") eqn:E; cbn [negb]; trivial.
  now apply String.eqb_neq in E.
Qed.

Lemma getEnv_required (env : database.Env) (key : string) :
  database.getEnv env key "" = env key.
Proof.
  unfold database.getEnv.
  destruct (String.eqb (env key) "") eqn:E; cbn [negb]; trivial.
  apply String.eqb_eq in E. now rewrite E.
Qed.

(** X18.  Loading the configuration gives a configuration or an error,
    never both and never neither.  It gives a configuration exactly when
    DB_HOST, DB_NAME, DB_USER and DB_PASSWORD are all set to a text that is
    not empty; that configuration holds these four values, and its port and
    SSL mode are not empty either (5432 and disable when not set). *)
Theorem load_config_is_complete (env : database.Env) :
  match database.LoadConfig env with
  | (Some cfg, None) =>
      env "DB_HOST" <> "" /\ env "DB_NAME" <> "" /\
      env "DB_USER" <> "" /\ env "DB_PASSWORD" <> "" /\
      database.Host cfg = env "DB_HOST" /\
      database.Name cfg = env "DB_NAME" /\
      database.User cfg = env "DB_USER" /\
      database.Password cfg = env "DB_PASSWORD" /\
      database.Port cfg <> "" /\ database.SSLMode cfg <> ""
  | (None, Some _) =>
      env "DB_HOST" = "" \/ env "DB_NAME" = "" \/
      env "DB_USER" = "" \/ env "DB_PASSWORD" = ""
  | _ => False
  end.
Proof.
  unfold database.LoadConfig.
  cbn [database.Host database.Name database.User database.Password].
  rewrite !getEnv_required.
  destruct (String.eqb (env "DB_HOST") "") eqn:H1;
    [apply String.eqb_eq in H1; auto|].
  destruct (String.eqb (env "DB_NAME") "") eqn:H2;
    [apply String.eqb_eq in H2; auto|].
  destruct (String.eqb (env "DB_USER") "") eqn:H3;
    [apply String.eqb_eq in H3; auto|].
  destruct (String.eqb (env "DB_PASSWORD") "") eqn:H4;
    [apply String.eqb_eq in H4; auto|].
  apply String.eqb_neq in H1, H2, H3, H4.
  cbn [database.Host database.Name database.User database.Password
       database.Port database.SSLMode].
  repeat split; trivial; try apply getEnv_required;
    apply getEnv_nonempty; discriminate.
Qed.
